(** * PokeemeraldMapConverter: bitfield decoders, border fallback, palette
      resolution and palette-baked compositing

    A shallow embedding of the Python tools under
    [tools/PokeemeraldMapConverter] and the properties their design document
    states about them.  Python integers are [Z], byte strings are
    [list Byte.byte], dictionaries are [gmap], and a raised exception is the
    [Raise] branch of [result]. *)

From Stdlib Require Import ZArith Lia Strings.Byte Strings.Ascii Strings.String.
From stdpp Require Import base option list gmap strings pretty.

Local Open Scope Z_scope.

(** ** Python runtime: exceptions, slices, [struct.unpack] *)

Inductive exn : Set :=
  | ValueError
  | KeyError
  | IndexError
  | StructError
  | ZlibError.

Inductive result (A : Type) : Type :=
  | Ok (a : A)
  | Raise (e : exn).

Arguments Ok {A} a.
Arguments Raise {A} e.

Definition result_bind {A B : Type} (r : result A) (k : A -> result B) : result B :=
  match r with
  | Ok a => k a
  | Raise e => Raise e
  end.

Notation "x <- r ;; k" := (result_bind r (fun x => k))
  (at level 100, r at next level, right associativity).

(** A [for] loop that builds a list by [append], one element per iteration;
    the first exception aborts the loop. *)
Fixpoint for_each {A B : Type} (f : A -> result B) (l : list A) : result (list B) :=
  match l with
  | [] => Ok []
  | a :: l' => b <- f a ;; bs <- for_each f l' ;; Ok (b :: bs)
  end.

(** [l[i]] for a non-negative index known to the loop that produces it. *)
Definition getitem {A : Type} (l : list A) (i : nat) : result A :=
  match l !! i with
  | Some a => Ok a
  | None => Raise IndexError
  end.

(** [l[i]] for an arbitrary Python integer: a negative index counts from
    the end. *)
Definition py_getitem {A : Type} (l : list A) (i : Z) : result A :=
  if 0 <=? i then getitem l (Z.to_nat i)
  else if - Z.of_nat (length l) <=? i then getitem l (Z.to_nat (Z.of_nat (length l) + i))
  else Raise IndexError.

(** [l[a:b]] for [0 <= a]: the slice is clamped to the list. *)
Definition slice {A : Type} (l : list A) (a b : nat) : list A :=
  take (b - a) (drop a l).

(** [range(0, stop, step)]. *)
Definition range_step (stop step : nat) : list nat :=
  (fun k => (k * step)%nat) <$> seq 0 (Nat.div (stop + step - 1) step).

Definition byte_val (b : Byte.byte) : Z := Z.of_N (Byte.to_N b).

(** Consecutive little-endian unsigned 16-bit words of a byte string. *)
Fixpoint le16s (data : list Byte.byte) : list Z :=
  match data with
  | lo :: hi :: rest => Z.lor (byte_val lo) (Z.shiftl (byte_val hi) 8) :: le16s rest
  | _ => []
  end.

(** [struct.unpack('<nH', data)]: the buffer must hold exactly [2n] bytes. *)
Definition unpack_le_H (n : nat) (data : list Byte.byte) : result (list Z) :=
  if decide (length data = (2 * n)%nat) then Ok (le16s data) else Raise StructError.

(** [struct.unpack('>I', data)[0]]: exactly four bytes, big-endian. *)
Definition unpack_be_I (data : list Byte.byte) : result Z :=
  match data with
  | [b3; b2; b1; b0] =>
      Ok (Z.lor (Z.shiftl (byte_val b3) 24)
           (Z.lor (Z.shiftl (byte_val b2) 16)
             (Z.lor (Z.shiftl (byte_val b1) 8) (byte_val b0))))
  | _ => Raise StructError
  end.

(** [bool(n)] of an integer. *)
Definition truthy (n : Z) : bool := negb (n =? 0).

(** The byte whose value is [z mod 256]. *)
Definition byte_of_Z (z : Z) : Byte.byte :=
  default x00 (Byte.of_N (Z.to_N (z mod 256))).

(** [struct.pack('>I', n)]: four bytes, big-endian; the value must fit 32
    unsigned bits. *)
Definition pack_be_I (n : Z) : result (list Byte.byte) :=
  if (0 <=? n) && (n <? 2 ^ 32) then
    Ok [ byte_of_Z (Z.shiftr n 24); byte_of_Z (Z.shiftr n 16);
         byte_of_Z (Z.shiftr n 8); byte_of_Z n ]
  else Raise StructError.

(** [bytearray.extend(values)] / [bytes(values)] on a list of integers:
    every value must be in [range(256)]. *)
Definition bytes_of_ints (values : list Z) : result (list Byte.byte) :=
  for_each (fun v => if (0 <=? v) && (v <? 256) then Ok (byte_of_Z v) else Raise ValueError)
    values.

(** ** border_tile_fix.py *)

Module border_tile_fix.

(** [data] is what [f.read(8)] returns: at most the first 8 bytes. *)
Definition load_border_bin (file : list Byte.byte) : result (list Z) :=
  let data := take 8 file in
  if (length data <? 8)%nat then Raise ValueError
  else
    border_raw <- unpack_le_H 4 data ;;
    Ok ((fun raw => Z.land raw 0x3FF) <$> border_raw).

Definition get_border_metatile (border_tiles : list Z) (x y : Z) : result Z :=
  if decide (length border_tiles ≠ 4%nat) then Raise ValueError
  else
    let i := Z.land (x + 1) 1 + Z.land (y + 1) 1 * 2 in
    py_getitem border_tiles i.

(** [if border_tiles]: neither [None] nor the empty list. *)
Definition border_given (border_tiles : option (list Z)) : option (list Z) :=
  match border_tiles with
  | Some (b :: bs) => Some (b :: bs)
  | _ => None
  end.

Definition apply_border_fallback (map_data : list (list Z))
    (border_tiles : option (list Z)) (default_metatile : Z) : result (list (list Z)) :=
  let height := length map_data in
  let width := match map_data with [] => 0%nat | row0 :: _ => length row0 end in
  for_each (fun y =>
    for_each (fun x =>
      map_row <- getitem map_data y ;;
      metatile_id <- getitem map_row x ;;
      if metatile_id <=? 1 then
        match border_given border_tiles with
        | Some border => get_border_metatile border (Z.of_nat x) (Z.of_nat y)
        | None => Ok default_metatile
        end
      else Ok metatile_id) (seq 0 width)) (seq 0 height).

(** The default of the keyword argument [default_metatile]. *)
Definition default_metatile : Z := 2.

(** The counters that [get_statistics] accumulates and returns under
    ['total_metatiles'], ['empty_count'] and ['unique_ids'].  The fourth
    entry of the dictionary, ['empty_percent'], is the floating-point
    quotient of the first two and is not part of this record. *)
Record Statistics : Type := mkStatistics {
  total_metatiles : Z;
  empty_count : Z;
  unique_ids : gset Z
}.

Definition get_statistics (map_data : list (list Z)) : Statistics :=
  foldl (fun stats row =>
    foldl (fun stats metatile_id =>
      {| total_metatiles := total_metatiles stats + 1;
         empty_count :=
           if metatile_id <=? 1 then empty_count stats + 1 else empty_count stats;
         unique_ids := unique_ids stats ∪ {[ metatile_id ]} |}) stats row)
    (mkStatistics 0 0 ∅) map_data.

End border_tile_fix.

(** ** convert_map_8x8.py *)

Module convert_map_8x8.

(** Behavior mapping (subset of pokeemerald behavior table). *)
Definition BEHAVIOR_NAMES : gmap Z string :=
  list_to_map
    [ (0x00, "MB_NORMAL"); (0x01, "MB_TALL_GRASS"); (0x02, "MB_LONG_GRASS");
      (0x03, "MB_PUDDLE"); (0x04, "MB_SAND"); (0x05, "MB_DEEP_WATER");
      (0x06, "MB_SHORT_GRASS"); (0x07, "MB_CAVE"); (0x08, "MB_SPIN_RIGHT");
      (0x09, "MB_SPIN_LEFT"); (0x0A, "MB_SPIN_UP"); (0x0B, "MB_SPIN_DOWN");
      (0x0C, "MB_SAND_WALL"); (0x0D, "MB_CRACKED_FLOOR");
      (0x0E, "MB_SHOAL_CAVE_ENTRANCE"); (0x0F, "MB_ICE");
      (0x10, "MB_WALKWAY_OVER_WATER"); (0x11, "MB_WATERFALL");
      (0x12, "MB_NO_RUNNING"); (0x13, "MB_BRIDGE_OVER_WATER");
      (0x14, "MB_BRIDGE_OVER_OCEAN"); (0x15, "MB_IMPASSABLE_NORTH");
      (0x16, "MB_IMPASSABLE_SOUTH"); (0x17, "MB_IMPASSABLE_WEST");
      (0x18, "MB_IMPASSABLE_EAST"); (0x19, "MB_IMPASSABLE_NORTHEAST");
      (0x1A, "MB_IMPASSABLE_NORTHWEST"); (0x1B, "MB_IMPASSABLE_SOUTHEAST");
      (0x1C, "MB_IMPASSABLE_SOUTHWEST"); (0x1D, "MB_JUMP_NORTH");
      (0x1E, "MB_JUMP_SOUTH"); (0x1F, "MB_JUMP_WEST"); (0x20, "MB_JUMP_EAST");
      (0x25, "MB_SURF"); (0x27, "MB_DOOR"); (0x33, "MB_IMPASSABLE") ].

Definition hex_digit (d : N) : ascii :=
  match d with
  | 0%N => "0" | 1%N => "1" | 2%N => "2" | 3%N => "3" | 4%N => "4"
  | 5%N => "5" | 6%N => "6" | 7%N => "7" | 8%N => "8" | 9%N => "9"
  | 10%N => "A" | 11%N => "B" | 12%N => "C" | 13%N => "D" | 14%N => "E"
  | _ => "F"
  end%char.

Fixpoint hex_upper_go (fuel : nat) (n : N) (acc : string) : string :=
  match fuel with
  | O => acc
  | S fuel' =>
      let acc' := String (hex_digit (n mod 16)%N) acc in
      if (n / 16 =? 0)%N then acc' else hex_upper_go fuel' (n / 16)%N acc'
  end.

(** [f"{n:02X}"]: upper-case hexadecimal, zero-padded to width 2. *)
Definition format_02X (n : Z) : string :=
  let digits := hex_upper_go (S (N.size_nat (Z.abs_N n))) (Z.abs_N n) "" in
  if n <? 0 then String "-"%char digits
  else if (String.length digits <? 2)%nat then String "0"%char digits
  else digits.

Definition behavior_name_of (behavior : Z) : string :=
  default ("MB_UNKNOWN_" +:+ format_02X behavior) (BEHAVIOR_NAMES !! behavior).

(** The 16-bit behavior/layer value stored in metatile_attributes.bin. *)
Record MetatileAttributes : Set := mkMetatileAttributes {
  attr_raw_value : Z;
  attr_behavior : Z;
  attr_layer_type : Z
}.

Definition MetatileAttributes_init (raw_value : Z) : MetatileAttributes :=
  {| attr_raw_value := raw_value;
     attr_behavior := Z.land raw_value 0x00FF;
     attr_layer_type := Z.land (Z.shiftr raw_value 12) 0xF |}.

Definition MetatileAttributes_from_bytes (data : list Byte.byte) : result MetatileAttributes :=
  value <- unpack_le_H 1 data ;;
  v <- getitem value 0 ;;
  Ok (MetatileAttributes_init v).

Record TileRef : Set := mkTileRef {
  gid : Z;
  h_flip : bool;
  v_flip : bool
}.

Record MetatileDefinition : Set := mkMetatileDefinition {
  metatile_id : Z;
  tiles : list TileRef;
  top_tiles : list TileRef;
  behavior : Z;
  behavior_name : string;
  layer_type : Z
}.

(** [top_tiles or [TileRef(0, False, False) for _ in range(4)]]: [None]
    and the empty list both give the four empty references. *)
Definition MetatileDefinition_init (metatile_id : Z) (tiles : list TileRef)
    (behavior layer_type : Z) (top_tiles : option (list TileRef)) : MetatileDefinition :=
  {| metatile_id := metatile_id;
     tiles := tiles;
     top_tiles :=
       match top_tiles with
       | Some (t :: ts) => t :: ts
       | _ => replicate 4 (mkTileRef 0 false false)
       end;
     behavior := behavior;
     behavior_name := behavior_name_of behavior;
     layer_type := layer_type |}.

(** [TilesetData]: the dictionary [metatiles], keyed by metatile id. *)
Record TilesetData : Set := mkTilesetData {
  metatiles : gmap Z MetatileDefinition
}.

Definition TilesetData_init : TilesetData := {| metatiles := ∅ |}.

Definition add_metatile (self : TilesetData) (metatile : MetatileDefinition) : TilesetData :=
  {| metatiles := <[metatile_id metatile := metatile]> (metatiles self) |}.

Definition get_metatile (self : TilesetData) (metatile_id : Z) : option MetatileDefinition :=
  metatiles self !! metatile_id.

(** [data] is the content of map.bin. *)
Definition load_map_bin (data : list Byte.byte) (width height : nat) : result (list (list Z)) :=
  let cell_count := (width * height)%nat in
  raw_values <- unpack_le_H cell_count (slice data 0 (cell_count * 2)) ;;
  for_each (fun y =>
    for_each (fun x => getitem raw_values (y * width + x)) (seq 0 width))
    (seq 0 height).

Definition parse_tile (raw : Z) : TileRef :=
  let tile_idx := Z.land raw 0x3FF in
  let gid := tile_idx + 1 in
  let h_flip := truthy (Z.land raw 0x400) in
  let v_flip := truthy (Z.land raw 0x800) in
  {| gid := gid; h_flip := h_flip; v_flip := v_flip |}.

(** The loop over [range(0, len(attributes_data), 2)]. *)
Fixpoint load_attributes (attributes_data : list Byte.byte) (offsets : list nat)
    (attributes : list MetatileAttributes) : result (list MetatileAttributes) :=
  match offsets with
  | [] => Ok attributes
  | i :: offsets' =>
      let attr_bytes := slice attributes_data i (i + 2) in
      if decide (length attr_bytes = 2%nat) then
        a <- MetatileAttributes_from_bytes attr_bytes ;;
        load_attributes attributes_data offsets' (attributes ++ [a])
      else load_attributes attributes_data offsets' attributes
  end.

(** The loop over [range(metatile_count)]; [break] returns the tileset
    built so far. *)
Fixpoint load_metatile_loop (metatiles_data : list Byte.byte)
    (attributes : list MetatileAttributes) (ids : list nat)
    (tileset : TilesetData) : result TilesetData :=
  match ids with
  | [] => Ok tileset
  | metatile_id :: ids' =>
      let offset := (metatile_id * 16)%nat in
      if (length metatiles_data <? offset + 16)%nat then Ok tileset
      else
        raw_tiles <- unpack_le_H 8 (slice metatiles_data offset (offset + 16)) ;;
        let bottom_refs := parse_tile <$> slice raw_tiles 0 4 in
        let top_refs := parse_tile <$> slice raw_tiles 4 8 in
        attr <- (if (metatile_id <? length attributes)%nat
                 then getitem attributes metatile_id
                 else Ok (MetatileAttributes_init 0)) ;;
        load_metatile_loop metatiles_data attributes ids'
          (add_metatile tileset
             (MetatileDefinition_init (Z.of_nat metatile_id) bottom_refs
                (attr_behavior attr) (attr_layer_type attr) (Some top_refs)))
  end.

(** Each file argument is [None] when the path does not exist, otherwise
    the bytes read from it. *)
Definition load_metatiles_from_pokeemerald (metatiles_bin attributes_bin : option (list Byte.byte))
    : result TilesetData :=
  let tileset := TilesetData_init in
  match metatiles_bin with
  | None => Ok tileset
  | Some metatiles_data =>
      attributes <-
        match attributes_bin with
        | Some attributes_data =>
            load_attributes attributes_data (range_step (length attributes_data) 2) []
        | None => Ok []
        end ;;
      let metatile_count := Nat.div (length metatiles_data) 16 in
      load_metatile_loop metatiles_data attributes (seq 0 metatile_count) tileset
  end.

Definition H_FLIP_BIT : Z := 0x80000000.
Definition V_FLIP_BIT : Z := 0x40000000.

Definition apply_flip (tile_ref : option TileRef) : Z :=
  match tile_ref with
  | None => 0
  | Some tile_ref =>
      if gid tile_ref =? 0 then 0
      else
        let g := gid tile_ref in
        let g := if h_flip tile_ref then Z.lor g H_FLIP_BIT else g in
        let g := if v_flip tile_ref then Z.lor g V_FLIP_BIT else g in
        g
  end.

(** The two loops that merge the primary records and the secondary
    records (re-keyed by [+ 512]) into one lookup space. *)
Definition combine_tilesets (primary_tileset secondary_tileset : TilesetData) : TilesetData :=
  let combined :=
    foldl (fun acc kv => add_metatile acc kv.2) TilesetData_init
      (map_to_list (metatiles primary_tileset)) in
  foldl (fun acc kv =>
           add_metatile acc
             (MetatileDefinition_init (kv.1 + 512) (tiles kv.2)
                (behavior kv.2) (layer_type kv.2) (Some (top_tiles kv.2))))
    combined (map_to_list (metatiles secondary_tileset)).

(** [for a in range(h): for b in range(w)], as the list of [(a, b)]. *)
Definition grid_cells (h w : nat) : list (nat * nat) :=
  a ← seq 0 h; b ← seq 0 w; [(a, b)].

(** One iteration of the tile-layer loop: the bottom and the top gid
    appended for tile position [(x, y)]. *)
Definition layer_cell (map_data : list (list Z)) (tileset : TilesetData)
    (yx : nat * nat) : result (Z * Z) :=
  let y := yx.1 in
  let x := yx.2 in
  map_row <- getitem map_data (Nat.div y 2) ;;
  raw_value <- getitem map_row (Nat.div x 2) ;;
  let metatile_id := Z.land raw_value 0x3FF in
  let tile_index := ((y mod 2) * 2 + (x mod 2))%nat in
  let refs :=
    match get_metatile tileset metatile_id with
    | Some metatile =>
        (if (tile_index <? length (tiles metatile))%nat
         then tiles metatile !! tile_index else None,
         if (tile_index <? length (top_tiles metatile))%nat
         then top_tiles metatile !! tile_index else None)
    | None => (None, None)
    end in
  Ok (apply_flip refs.1, apply_flip refs.2).

Record MetatileProps : Set := mkMetatileProps {
  prop_metatile_id : Z;
  prop_collision_bits : Z;
  prop_is_solid : bool;
  prop_elevation : Z;
  prop_behavior : option string;
  prop_layer_type : option Z
}.

(** An entry of the "MetatileData" object layer; [obj_name] is
    [str(metatile_id)], and type and size are the constants of the
    source. *)
Record MetatileObject : Set := mkMetatileObject {
  obj_id : Z;
  obj_name : string;
  obj_type : string;
  obj_x : Z;
  obj_y : Z;
  obj_width : Z;
  obj_height : Z;
  obj_properties : MetatileProps
}.

Definition metatile_props (tileset : TilesetData) (raw_value : Z) : MetatileProps :=
  let metatile_id := Z.land raw_value 0x3FF in
  let collision_bits := Z.land (Z.shiftr raw_value 10) 0x3 in
  let elevation := Z.land (Z.shiftr raw_value 12) 0xF in
  let metatile_def := get_metatile tileset metatile_id in
  {| prop_metatile_id := metatile_id;
     prop_collision_bits := collision_bits;
     prop_is_solid := collision_bits =? 3;
     prop_elevation := elevation;
     prop_behavior := behavior_name <$> metatile_def;
     prop_layer_type := layer_type <$> metatile_def |}.

(** The loop that builds the metatile object layer, [object_id] being
    the running counter. *)
Fixpoint metatile_object_loop (map_data : list (list Z)) (tileset : TilesetData)
    (cells : list (nat * nat)) (object_id : Z) : result (list MetatileObject) :=
  match cells with
  | [] => Ok []
  | (my, mx) :: cells' =>
      map_row <- getitem map_data my ;;
      raw_value <- getitem map_row mx ;;
      let props := metatile_props tileset raw_value in
      let obj :=
        {| obj_id := object_id;
           obj_name := pretty (prop_metatile_id props);
           obj_type := "metatile";
           obj_x := Z.of_nat mx * 16;
           obj_y := Z.of_nat my * 16;
           obj_width := 16;
           obj_height := 16;
           obj_properties := props |} in
      objs <- metatile_object_loop map_data tileset cells' (object_id + 1) ;;
      Ok (obj :: objs)
  end.

(** What the converter hands to [json.dump]: the two tile layers, the
    border pattern carried as a map property, and the object layer. *)
Record TiledMap : Set := mkTiledMap {
  map_width : nat;
  map_height : nat;
  bottom_layer_data : list Z;
  top_layer_data : list Z;
  border_pattern_metatiles : option (list Z);
  metatile_objects : list MetatileObject
}.

(** The converter on the contents of the files it opens: [width] and
    [height] come from layout.json, a file that does not exist is [None],
    and [secondary] is [None] without a secondary tileset directory. *)
Definition convert_pokeemerald_map (width height : nat) (map_bin : list Byte.byte)
    (border_bin : option (list Byte.byte))
    (primary_metatiles_bin primary_attributes_bin : option (list Byte.byte))
    (secondary : option (option (list Byte.byte) * option (list Byte.byte)))
    : result TiledMap :=
  map_data <- load_map_bin map_bin width height ;;
  let height_metatiles := length map_data in
  let width_metatiles := match map_data with [] => 0%nat | row0 :: _ => length row0 end in
  let border_tiles :=
    match border_bin with
    | Some file =>
        match border_tile_fix.load_border_bin file with
        | Ok tiles => Some tiles
        | Raise _ => None
        end
    | None => None
    end in
  primary_tileset <-
    load_metatiles_from_pokeemerald primary_metatiles_bin primary_attributes_bin ;;
  secondary_tileset <-
    match secondary with
    | Some (secondary_metatiles_bin, secondary_attributes_bin) =>
        load_metatiles_from_pokeemerald secondary_metatiles_bin secondary_attributes_bin
    | None => Ok TilesetData_init
    end ;;
  let tileset := combine_tilesets primary_tileset secondary_tileset in
  let width_tiles := (width_metatiles * 2)%nat in
  let height_tiles := (height_metatiles * 2)%nat in
  layers <- for_each (layer_cell map_data tileset) (grid_cells height_tiles width_tiles) ;;
  objects <- metatile_object_loop map_data tileset
               (grid_cells height_metatiles width_metatiles) 1 ;;
  Ok {| map_width := width_tiles;
        map_height := height_tiles;
        bottom_layer_data := fst <$> layers;
        top_layer_data := snd <$> layers;
        border_pattern_metatiles := border_tile_fix.border_given border_tiles;
        metatile_objects := objects |}.

End convert_map_8x8.

(** ** convert_tileset_8x8.py *)

Module convert_tileset_8x8.

(** Metatile behavior and collision attributes (the 4-byte variant). *)
Record MetatileAttributes : Set := mkMetatileAttributes {
  behavior : Z;
  terrain : Z;
  encounter_type : Z;
  layer_type : Z
}.

Definition MetatileAttributes_from_bytes (data : list Byte.byte) : result MetatileAttributes :=
  fields <- unpack_le_H 2 data ;;
  behavior <- getitem fields 0 ;;
  terrain_and_layer <- getitem fields 1 ;;
  let terrain := Z.land terrain_and_layer 0x000F in
  let encounter_type := Z.land (Z.shiftr terrain_and_layer 4) 0x0007 in
  let layer_type := Z.land (Z.shiftr terrain_and_layer 7) 0x0003 in
  Ok (mkMetatileAttributes behavior terrain encounter_type layer_type).

(** A 2x2 arrangement of 8x8 tiles. *)
Record Metatile : Set := mkMetatile {
  tiles : list Z;
  attributes : MetatileAttributes
}.

Definition Metatile_init (tiles : list Z) (attributes : MetatileAttributes) : result Metatile :=
  if decide (length tiles ≠ 4%nat) then Raise ValueError
  else Ok (mkMetatile tiles attributes).

Definition Metatile_from_bytes (data : list Byte.byte) (attributes : MetatileAttributes)
    : result Metatile :=
  tiles <- unpack_le_H 4 data ;;
  Metatile_init tiles attributes.

(** [b'\x00\x00\x00\x00' * n] *)
Definition zero_records (n : nat) : list Byte.byte :=
  mjoin (replicate n [x00; x00; x00; x00]).

(** The loop over [range(0, min(len(attributes_data), expected_attributes_size), 4)]. *)
Fixpoint parse_attributes_loop (attributes_data : list Byte.byte) (offsets : list nat)
    (attributes : list MetatileAttributes) : result (list MetatileAttributes) :=
  match offsets with
  | [] => Ok attributes
  | i :: offsets' =>
      let attr_bytes := slice attributes_data i (i + 4) in
      if decide (length attr_bytes = 4%nat) then
        a <- MetatileAttributes_from_bytes attr_bytes ;;
        parse_attributes_loop attributes_data offsets' (attributes ++ [a])
      else
        let attr_bytes := attr_bytes ++ replicate (4 - length attr_bytes) x00 in
        a <- MetatileAttributes_from_bytes attr_bytes ;;
        parse_attributes_loop attributes_data offsets' (attributes ++ [a])
  end.

(** "Parse attributes (handle truncated files gracefully)": the padding
    and the loop that fills the list [attributes]. *)
Definition parse_attributes (metatiles_data attributes_data : list Byte.byte)
    : result (list MetatileAttributes) :=
  let expected_metatiles := Nat.div (length metatiles_data) 8 in
  let expected_attributes_size := (expected_metatiles * 4)%nat in
  let attributes_data :=
    if (length attributes_data <? expected_attributes_size)%nat
    then attributes_data
           ++ zero_records (expected_metatiles - Nat.div (length attributes_data) 4)
    else attributes_data in
  parse_attributes_loop attributes_data
    (range_step (Nat.min (length attributes_data) expected_attributes_size) 4) [].

(** The loop over [range(0, len(metatiles_data), 8)]. *)
Fixpoint parse_metatiles_loop (metatiles_data : list Byte.byte)
    (attributes : list MetatileAttributes) (offsets : list nat)
    (metatiles : list Metatile) : result (list Metatile) :=
  match offsets with
  | [] => Ok metatiles
  | i :: offsets' =>
      let metatile_bytes := slice metatiles_data i (i + 8) in
      let metatile_idx := Nat.div i 8 in
      if (metatile_idx <? length attributes)%nat then
        attrs <- getitem attributes metatile_idx ;;
        metatile <- Metatile_from_bytes metatile_bytes attrs ;;
        parse_metatiles_loop metatiles_data attributes offsets' (metatiles ++ [metatile])
      else
        let default_attrs := mkMetatileAttributes 0 0 0 0 in
        metatile <- Metatile_from_bytes metatile_bytes default_attrs ;;
        parse_metatiles_loop metatiles_data attributes offsets' (metatiles ++ [metatile])
  end.

(** [attributes_file] is [None] when the attributes path does not
    exist. *)
Definition load_metatiles (metatiles_data : list Byte.byte)
    (attributes_file : option (list Byte.byte)) : result (list Metatile) :=
  let attributes_data :=
    match attributes_file with
    | Some data => data
    | None => zero_records (Nat.div (length metatiles_data) 8)
    end in
  attributes <- parse_attributes metatiles_data attributes_data ;;
  parse_metatiles_loop metatiles_data attributes
    (range_step (length metatiles_data) 8) [].

(** Methods of [MetatileAttributes]. *)
Definition get_elevation (self : MetatileAttributes) : Z :=
  Z.land (terrain self) 0x0F.

Definition is_solid (self : MetatileAttributes) : bool :=
  if (0x15 <=? behavior self) && (behavior self <? 0x1D) then true
  else if behavior self =? 0x33 then true
  else if behavior self =? 0x0C then true
  else if (behavior self =? 0x05) || (behavior self =? 0x11) then true
  else false.

Definition get_encounter_rate (self : MetatileAttributes) : Z :=
  if behavior self =? 0x01 then 20
  else if behavior self =? 0x02 then 25
  else if behavior self =? 0x06 then 10
  else if (behavior self =? 0x05) || (behavior self =? 0x25) then 5
  else if behavior self =? 0x07 then 10
  else 0.

(** [Metatile.get_tile_at_position]: a name outside the four positions is
    a [KeyError]. *)
Definition get_tile_at_position (self : Metatile) (position : string) : result Z :=
  let positions : gmap string Z :=
    {[ "top_left" := 0; "top_right" := 1; "bottom_left" := 2; "bottom_right" := 3 ]} in
  match positions !! position with
  | Some i => py_getitem (tiles self) i
  | None => Raise KeyError
  end.

End convert_tileset_8x8.

(** ** render_tileset_with_palettes.py *)

Module render_tileset_with_palettes.

#[global] Instance byte_eq_dec : EqDecision Byte.byte := Byte.byte_eq_dec.

(** A colour table as [load_jasc_palette] returns it, and the dictionary
    of colour tables that [load_all_palettes] builds, keyed by the
    integer in the file name. *)
Definition palette : Set := list (Z * Z * Z).

(** [b'\x89PNG\r\n\x1a\n'] *)
Definition PNG_SIGNATURE : list Byte.byte := [x89; x50; x4e; x47; x0d; x0a; x1a; x0a].
Definition PLTE : list Byte.byte := [x50; x4c; x54; x45].
Definition IDAT : list Byte.byte := [x49; x44; x41; x54].

(** The [while pos < len(png_data)] loop over the chunks.  [pos] grows by
    at least 12 per iteration, so [fuel = len(png_data)] iterations are
    never used up (lemma [read_chunks_fuel]). *)
Fixpoint read_chunks (fuel : nat) (png_data : list Byte.byte) (pos : nat)
    (palette_data : option (list Byte.byte)) (idat_data : list Byte.byte)
    : result (option (list Byte.byte) * list Byte.byte) :=
  if (pos <? length png_data)%nat then
    match fuel with
    | O => Ok (palette_data, idat_data)
    | S fuel' =>
        len <- unpack_be_I (slice png_data pos (pos + 4)) ;;
        let chunk_type := slice png_data (pos + 4) (pos + 8) in
        let chunk_data := slice png_data (pos + 8) (pos + 8 + Z.to_nat len) in
        if decide (chunk_type = PLTE) then
          read_chunks fuel' png_data (pos + (12 + Z.to_nat len)) (Some chunk_data) idat_data
        else if decide (chunk_type = IDAT) then
          read_chunks fuel' png_data (pos + (12 + Z.to_nat len)) palette_data
            (idat_data ++ chunk_data)
        else
          read_chunks fuel' png_data (pos + (12 + Z.to_nat len)) palette_data idat_data
    end
  else Ok (palette_data, idat_data).

(** The two 4-bit pixels of one scanline byte, high nibble first. *)
Definition unpack_nibbles (byte_val : Z) : list Z :=
  let pixel1 := Z.land (Z.shiftr byte_val 4) 0x0F in
  let pixel2 := Z.land byte_val 0x0F in
  [pixel1; pixel2].

Section codec.

(** [zlib.decompress], the DEFLATE implementation of the Python runtime. *)
Variable zlib_decompress : list Byte.byte -> result (list Byte.byte).

(** [png_data] is the content of the file; the result is
    [(width, height, pixels, palette_data)]. *)
Definition read_png_indexed_data (png_data : list Byte.byte)
    : result (Z * Z * list (list Z) * option (list Byte.byte)) :=
  if decide (slice png_data 0 8 ≠ PNG_SIGNATURE) then Raise ValueError
  else
    width <- unpack_be_I (slice png_data 16 20) ;;
    height <- unpack_be_I (slice png_data 20 24) ;;
    chunks <- read_chunks (length png_data) png_data 8 None [] ;;
    raw_data <- zlib_decompress chunks.2 ;;
    let bytes_per_scanline := Z.to_nat ((width + 1) / 2) in
    let pixels :=
      (fun y =>
         let scanline_start := (y * (bytes_per_scanline + 1) + 1)%nat in
         let scanline_data :=
           slice raw_data scanline_start (scanline_start + bytes_per_scanline) in
         let row_pixels := scanline_data ≫= (fun b => unpack_nibbles (byte_val b)) in
         take (Z.to_nat width) row_pixels) <$> seq 0 (Z.to_nat height) in
    Ok (width, height, pixels, chunks.1).

End codec.

(** The inner [for raw_tile in raw_tiles] loop: the palette field of the
    first tile whose id is [tile_idx], if any. *)
Fixpoint scan_raw_tiles (raw_tiles : list Z) (tile_idx : Z) : option Z :=
  match raw_tiles with
  | [] => None
  | raw_tile :: raw_tiles' =>
      let tile_id := Z.land raw_tile 0x3FF in
      let palette := Z.land (Z.shiftr raw_tile 12) 0xF in
      if tile_id =? tile_idx then Some palette
      else scan_raw_tiles raw_tiles' tile_idx
  end.

(** The outer loop over [range(len(data) // 16)]. *)
Fixpoint scan_metatiles (data : list Byte.byte) (ids : list nat) (tile_idx : Z) : result Z :=
  match ids with
  | [] => Ok 0
  | i :: ids' =>
      let offset := (i * 16)%nat in
      raw_tiles <- unpack_le_H 8 (slice data offset (offset + 16)) ;;
      match scan_raw_tiles raw_tiles tile_idx with
      | Some palette => Ok palette
      | None => scan_metatiles data ids' tile_idx
      end
  end.

(** [data] is the content of metatiles.bin. *)
Definition get_tile_palette_index (data : list Byte.byte) (tile_idx : Z) : result Z :=
  scan_metatiles data (seq 0 (Nat.div (length data) 16)) tile_idx.

(** [palettes.get(palette_idx, palettes[0])]: the default argument is
    evaluated before the call, so a store without key 0 raises. *)
Definition palettes_get (palettes : gmap Z palette) (palette_idx : Z) : result palette :=
  match palettes !! 0 with
  | None => Raise KeyError
  | Some palette0 => Ok (default palette0 (palettes !! palette_idx))
  end.

(** The body of the [for col_in_tile] loop after [color_idx] is read: the
    four values appended to the row. *)
Definition render_pixel (palette : palette) (color_idx : Z) : result (list Z) :=
  if color_idx =? 0 then Ok [0; 0; 0; 0]
  else if color_idx <? Z.of_nat (length palette) then
    rgb <- py_getitem palette color_idx ;;
    Ok [rgb.1.1; rgb.1.2; rgb.2; 255]
  else Ok [0; 0; 0; 255].

(** The eight pixels of scanline [y] that tile column [tile_x]
    contributes. *)
Definition render_tile_row (pixels : list (list Z)) (palettes : gmap Z palette)
    (metatiles_data : list Byte.byte) (tile_offset : Z) (tiles_per_row : nat)
    (tile_y y tile_x : nat) : result (list Z) :=
  let tile_size := 8%nat in
  let tile_idx_in_png := Z.of_nat (tile_y * tiles_per_row + tile_x) in
  let tile_idx_absolute := tile_idx_in_png + tile_offset in
  palette_idx <- get_tile_palette_index metatiles_data tile_idx_absolute ;;
  palette <- palettes_get palettes palette_idx ;;
  quads <- for_each (fun col_in_tile =>
             let x := (tile_x * tile_size + col_in_tile)%nat in
             pixel_row <- getitem pixels y ;;
             color_idx <- getitem pixel_row x ;;
             render_pixel palette color_idx) (seq 0 tile_size) ;;
  Ok (mjoin quads).

(** The nested loops that fill [rgba_pixels]. *)
Definition render_rows (width height : Z) (pixels : list (list Z))
    (palettes : gmap Z palette) (metatiles_data : list Byte.byte) (tile_offset : Z)
    : result (list (list Z)) :=
  let tile_size := 8%nat in
  let tiles_per_row := Z.to_nat (width / 8) in
  let tiles_per_col := Z.to_nat (height / 8) in
  for_each (fun cell : nat * nat =>
    let tile_y := cell.1 in
    let row_in_tile := cell.2 in
    let y := (tile_y * tile_size + row_in_tile)%nat in
    parts <- for_each
               (render_tile_row pixels palettes metatiles_data tile_offset
                  tiles_per_row tile_y y) (seq 0 tiles_per_row) ;;
    Ok (mjoin parts))
    (convert_map_8x8.grid_cells tiles_per_col tile_size).

Section job.

Variable zlib_decompress : list Byte.byte -> result (list Byte.byte).

(** One rendering job on the contents of its input files: the lines it
    prints and the rows it passes to [write_rgba_png] (or the exception
    that ends it). *)
Definition render_tileset_with_palettes (tiles_png palettes_dir output_png : string)
    (png_data : list Byte.byte) (palettes : gmap Z palette)
    (metatiles_data : list Byte.byte) (tile_offset : Z)
    : list string * result (list (list Z)) :=
  let out := ["Loading indexed PNG: " +:+ tiles_png] in
  match read_png_indexed_data zlib_decompress png_data with
  | Raise e => (out, Raise e)
  | Ok (width, height, pixels, _) =>
      let out := out ++ ["Loading palettes from: " +:+ palettes_dir] in
      let out := out ++ ["Loaded " +:+ pretty (size palettes) +:+ " palettes"] in
      let out :=
        if 0 <? tile_offset
        then out ++ ["Using tile offset: " +:+ pretty tile_offset +:+ " (secondary tileset)"]
        else out in
      match render_rows width height pixels palettes metatiles_data tile_offset with
      | Raise e => (out, Raise e)
      | Ok rgba_pixels =>
          (out ++ ["[OK] Rendered tileset to " +:+ output_png], Ok rgba_pixels)
      end
  end.

End job.

(** [b'IHDR'] and [b'IEND']. *)
Definition IHDR : list Byte.byte := [x49; x48; x44; x52].
Definition IEND : list Byte.byte := [x49; x45; x4e; x44].

Section encoder.

(** [zlib.crc32] and [zlib.compress(_, 9)] of the Python runtime. *)
Variable zlib_crc32 : list Byte.byte -> Z.
Variable zlib_compress : list Byte.byte -> list Byte.byte.

Definition make_chunk (chunk_type data : list Byte.byte) : result (list Byte.byte) :=
  len <- pack_be_I (Z.of_nat (length data)) ;;
  crc <- pack_be_I (Z.land (zlib_crc32 (chunk_type ++ data)) 0xffffffff) ;;
  Ok (len ++ chunk_type ++ data ++ crc).

(** The loop that builds [raw_data]: a filter byte 0, then the row. *)
Fixpoint raw_scanlines (rgba_pixels : list (list Z)) (raw_data : list Byte.byte)
    : result (list Byte.byte) :=
  match rgba_pixels with
  | [] => Ok raw_data
  | row :: rows =>
      row_bytes <- bytes_of_ints row ;;
      raw_scanlines rows (raw_data ++ x00 :: row_bytes)
  end.

(** The bytes [write_rgba_png] writes to [output_path]. *)
Definition write_rgba_png (width height : Z) (rgba_pixels : list (list Z))
    : result (list Byte.byte) :=
  let png_data := PNG_SIGNATURE in
  w <- pack_be_I width ;;
  h <- pack_be_I height ;;
  let ihdr_data := w ++ h ++ [x08; x06; x00; x00; x00] in
  ihdr <- make_chunk IHDR ihdr_data ;;
  let png_data := png_data ++ ihdr in
  raw_data <- raw_scanlines rgba_pixels [] ;;
  let compressed := zlib_compress raw_data in
  idat <- make_chunk IDAT compressed ;;
  let png_data := png_data ++ idat in
  iend <- make_chunk IEND [] ;;
  Ok (png_data ++ iend).

End encoder.

Section palette_files.

(** [str.strip], [str.split] without arguments and [int] on a string of
    the Python runtime; [None] stands for the [ValueError] of [int]. *)
Variable str_strip : string -> string.
Variable str_split : string -> list string.
Variable py_int : string -> option Z.

(** [r, g, b = map(int, line.split())]: any number of fields other than
    three, and any field that is not an integer, is a [ValueError]. *)
Definition parse_rgb (line : string) : result (Z * Z * Z) :=
  match str_split line with
  | [f1; f2; f3] =>
      match py_int f1, py_int f2, py_int f3 with
      | Some r, Some g, Some b => Ok (r, g, b)
      | _, _, _ => Raise ValueError
      end
  | _ => Raise ValueError
  end.

(** The loop over [range(num_colors)] that fills [palette]. *)
Fixpoint read_colors (lines : list string) (indices : list nat)
    (palette : list (Z * Z * Z)) : result (list (Z * Z * Z)) :=
  match indices with
  | [] => Ok palette
  | i :: indices' =>
      let line_idx := (3 + i)%nat in
      if (line_idx <? length lines)%nat then
        line <- getitem lines line_idx ;;
        rgb <- parse_rgb line ;;
        read_colors lines indices' (palette ++ [rgb])
      else read_colors lines indices' palette
  end.

(** [file_lines] are the lines of the .pal file as iterating over the file
    yields them. *)
Definition load_jasc_palette (file_lines : list string) : result palette :=
  let lines := filter (fun line => line <> "") (str_strip <$> file_lines) in
  line0 <- getitem lines 0 ;;
  if decide (line0 <> "JASC-PAL") then Raise ValueError
  else
    line2 <- getitem lines 2 ;;
    num_colors <- from_option Ok (Raise ValueError) (py_int line2) ;;
    read_colors lines (seq 0 (Z.to_nat num_colors)) [].

(** [pal_files] are the [*.pal] files of the directory in sorted order,
    each with the stem of its name and its lines. *)
Definition load_all_palettes (pal_files : list (string * list string))
    : result (gmap Z palette) :=
  foldl (fun (acc : result (gmap Z palette)) (pal_file : string * list string) =>
           palettes <- acc ;;
           pal_num <- from_option Ok (Raise ValueError) (py_int pal_file.1) ;;
           loaded <- load_jasc_palette pal_file.2 ;;
           Ok (<[pal_num := loaded]> palettes))
    (Ok ∅) pal_files.

End palette_files.

End render_tileset_with_palettes.

(** ** apply_palettes.py *)

Module apply_palettes.

Import render_tileset_with_palettes.

(** [min(palettes.keys())]; [None] stands for the [ValueError] that [min]
    raises on an empty sequence. *)
Definition min_key (palettes : gmap Z palette) : option Z :=
  foldr (fun k acc => Some (from_option (Z.min k) k acc)) None
    (elements (dom palettes)).

(** The palette that [apply_palette_to_png] applies, from the dictionary
    its loading loop built ("Use palette 00 as the default"). *)
Definition default_palette (palettes : gmap Z palette) : result palette :=
  if decide (palettes = ∅) then Raise ValueError
  else
    lowest <- from_option Ok (Raise ValueError) (min_key palettes) ;;
    fallback <- from_option Ok (Raise KeyError) (palettes !! lowest) ;;
    Ok (default fallback (palettes !! 0)).

(** The "full 256-color palette" handed to [img.putpalette]: R, G, B for
    each of 256 slots, black beyond the default palette. *)
Definition pil_palette (default_palette : palette) : list Z :=
  seq 0 256 ≫= fun i =>
    if (i <? length default_palette)%nat then
      match default_palette !! i with
      | Some rgb => [rgb.1.1; rgb.1.2; rgb.2]
      | None => []
      end
    else [0; 0; 0].

Section palette_files.

Variable str_strip : string -> string.
Variable str_split : string -> list string.
Variable py_int : string -> option Z.

(** This copy of [load_jasc_palette] also reads the version line. *)
Definition load_jasc_palette (file_lines : list string) : result palette :=
  let lines := filter (fun line => line <> "") (str_strip <$> file_lines) in
  line0 <- getitem lines 0 ;;
  if decide (line0 <> "JASC-PAL") then Raise ValueError
  else
    version <- getitem lines 1 ;;
    line2 <- getitem lines 2 ;;
    num_colors <- from_option Ok (Raise ValueError) (py_int line2) ;;
    read_colors str_split py_int lines (seq 0 (Z.to_nat num_colors)) [].

End palette_files.

End apply_palettes.

(** ** replace_png_palette.py *)

Module replace_png_palette.

Import render_tileset_with_palettes.

Section replace.

(** [zlib.crc32] of the Python runtime. *)
Variable zlib_crc32 : list Byte.byte -> Z.

(** The bytes of the new PLTE chunk: [extend([r, g, b])] per colour. *)
Definition new_plte_data (palette : list (Z * Z * Z)) : result (list Byte.byte) :=
  blocks <- for_each (fun rgb : Z * Z * Z => bytes_of_ints [rgb.1.1; rgb.1.2; rgb.2])
              palette ;;
  Ok (mjoin blocks).

(** The [while pos < len(png_data)] loop; the state is [output_chunks] and
    [plte_replaced].  As in the reader, [pos] grows by at least 12 per
    iteration. *)
Fixpoint replace_chunks (fuel : nat) (png_data : list Byte.byte) (palette : list (Z * Z * Z))
    (pos : nat) (output_chunks : list Byte.byte) (plte_replaced : bool)
    : result (list Byte.byte * bool) :=
  if (pos <? length png_data)%nat then
    match fuel with
    | O => Ok (output_chunks, plte_replaced)
    | S fuel' =>
        len <- unpack_be_I (slice png_data pos (pos + 4)) ;;
        let chunk_type := slice png_data (pos + 4) (pos + 8) in
        if decide (chunk_type = PLTE) then
          plte <- new_plte_data palette ;;
          new_crc <- pack_be_I (Z.land (zlib_crc32 (PLTE ++ plte)) 0xffffffff) ;;
          new_len <- pack_be_I (Z.of_nat (length plte)) ;;
          replace_chunks fuel' png_data palette (pos + (12 + Z.to_nat len))
            (output_chunks ++ new_len ++ PLTE ++ plte ++ new_crc) true
        else
          replace_chunks fuel' png_data palette (pos + (12 + Z.to_nat len))
            (output_chunks ++ slice png_data pos (pos + (12 + Z.to_nat len)))
            plte_replaced
    end
  else Ok (output_chunks, plte_replaced).

(** [png_data] is the content of the input file and [palette] what
    [load_jasc_palette] returned.  The result is the content written to
    the output file, with [plte_replaced]: when it is [false] the function
    prints its "No PLTE chunk found" warning. *)
Definition replace_png_palette (png_data : list Byte.byte) (palette : list (Z * Z * Z))
    : result (list Byte.byte * bool) :=
  if decide (slice png_data 0 8 ≠ PNG_SIGNATURE) then Raise ValueError
  else replace_chunks (length png_data) png_data palette 8 (slice png_data 0 8) false.

End replace.

Section palette_files.

Variable str_strip : string -> string.
Variable str_split : string -> list string.
Variable py_int : string -> option Z.

(** The copy of [load_jasc_palette] in this script. *)
Definition load_jasc_palette (file_lines : list string) : result (list (Z * Z * Z)) :=
  let lines := filter (fun line => line <> "") (str_strip <$> file_lines) in
  line0 <- getitem lines 0 ;;
  if decide (line0 <> "JASC-PAL") then Raise ValueError
  else
    line2 <- getitem lines 2 ;;
    num_colors <- from_option Ok (Raise ValueError) (py_int line2) ;;
    read_colors str_split py_int lines (seq 0 (Z.to_nat num_colors)) [].

End palette_files.

End replace_png_palette.

(** ** validate_metatiles.py

    The checks the validator runs on the tiles that [extract_tiles] found.
    Reading the map and the tileset files (JSON) and the [INFO] lines of
    verbose mode are outside this part. *)

Module validate_metatiles.

(** A Python [dict], which keeps its keys in insertion order: [d.get(k)],
    [d[k] = v] and [d[k]]. *)
Definition dict (K V : Type) : Type := list (K * V).

Fixpoint dict_get {K V : Type} `{EqDecision K} (d : dict K V) (k : K) : option V :=
  match d with
  | [] => None
  | kv :: d' => if decide (kv.1 = k) then Some kv.2 else dict_get d' k
  end.

Fixpoint dict_set {K V : Type} `{EqDecision K} (d : dict K V) (k : K) (v : V) : dict K V :=
  match d with
  | [] => [(k, v)]
  | kv :: d' => if decide (kv.1 = k) then (k, v) :: d' else kv :: dict_set d' k v
  end.

Definition dict_getitem {K V : Type} `{EqDecision K} (d : dict K V) (k : K) : result V :=
  match dict_get d k with
  | Some v => Ok v
  | None => Raise KeyError
  end.

(** Information about a single tile in the map. *)
Record TileInfo : Type := mkTileInfo {
  x : Z;
  y : Z;
  gid : Z;
  metatile_id : option Z;
  metatile_pos : option string;
  layer_name : string
}.

(** A collection of tiles forming a metatile. *)
Record MetatileGroup : Type := mkMetatileGroup {
  group_metatile_id : Z;
  tiles : dict string TileInfo
}.

Definition required : list string :=
  ["top_left"; "top_right"; "bottom_left"; "bottom_right"].

Definition is_complete (self : MetatileGroup) : bool :=
  forallb (fun pos => bool_decide (is_Some (dict_get (tiles self) pos))) required.

(** [sorted(required - self.tiles.keys())] *)
Definition get_missing_positions (self : MetatileGroup) : list string :=
  filter (fun pos => dict_get (tiles self) pos = None)
    ["bottom_left"; "bottom_right"; "top_left"; "top_right"].

(** [f"({a}, {b})"] *)
Definition pair_str (a b : Z) : string :=
  "(" +:+ pretty a +:+ ", " +:+ pretty b +:+ ")".

Definition is_aligned (self : MetatileGroup) : result (bool * option string) :=
  if negb (is_complete self) then Ok (false, Some "Incomplete metatile")
  else
    tl <- dict_getitem (tiles self) "top_left" ;;
    tr <- dict_getitem (tiles self) "top_right" ;;
    bl <- dict_getitem (tiles self) "bottom_left" ;;
    br <- dict_getitem (tiles self) "bottom_right" ;;
    if negb (x tr =? x tl + 1) || negb (y tr =? y tl) then
      Ok (false, Some ("top_right at " +:+ pair_str (x tr) (y tr)
                       +:+ " should be at " +:+ pair_str (x tl + 1) (y tl)))
    else if negb (x bl =? x tl) || negb (y bl =? y tl + 1) then
      Ok (false, Some ("bottom_left at " +:+ pair_str (x bl) (y bl)
                       +:+ " should be at " +:+ pair_str (x tl) (y tl + 1)))
    else if negb (x br =? x tl + 1) || negb (y br =? y tl + 1) then
      Ok (false, Some ("bottom_right at " +:+ pair_str (x br) (y br)
                       +:+ " should be at " +:+ pair_str (x tl + 1) (y tl + 1)))
    else Ok (true, None).

(** The two lists of the validator that the checks append to. *)
Record MetatileValidator : Type := mkMetatileValidator {
  errors : list string;
  warnings : list string
}.

Definition add_error (self : MetatileValidator) (message : string) : MetatileValidator :=
  {| errors := errors self ++ [message]; warnings := warnings self |}.

Definition add_warning (self : MetatileValidator) (message : string) : MetatileValidator :=
  {| errors := errors self; warnings := warnings self ++ [message] |}.

Definition pos_map : dict string string :=
  [("tl", "top_left"); ("tr", "top_right"); ("bl", "bottom_left"); ("br", "bottom_right")].

Section strings.

(** [str.lower] and [str.strip] of the Python runtime. *)
Variable str_lower : string -> string.
Variable str_strip : string -> string.

(** "Normalize position string" *)
Definition normalize (metatile_pos : string) : string :=
  let pos := str_strip (str_lower metatile_pos) in
  default pos (dict_get pos_map pos).

(** The body of the first loop of [group_tiles_by_metatile]; the state is
    the nested [defaultdict] and the validator. *)
Definition group_tile (st : dict Z (dict string (list TileInfo)) * MetatileValidator)
    (tile : TileInfo) : dict Z (dict string (list TileInfo)) * MetatileValidator :=
  let metatiles := st.1 in
  let self := st.2 in
  match metatile_id tile with
  | None =>
      (metatiles,
       add_warning self
         ("Tile at " +:+ pair_str (x tile) (y tile)
          +:+ " has metatile_id property but no value"))
  | Some mid =>
      match metatile_pos tile with
      | Some (String c s) =>
          let pos := normalize (String c s) in
          if decide (pos ∈ ["top_left"; "top_right"; "bottom_left"; "bottom_right"]) then
            let positions := default [] (dict_get metatiles mid) in
            let tile_list := default [] (dict_get positions pos) in
            (dict_set metatiles mid (dict_set positions pos (tile_list ++ [tile])), self)
          else
            (metatiles,
             add_error self
               ("Tile at " +:+ pair_str (x tile) (y tile)
                +:+ " has invalid metatile_pos: '" +:+ String c s +:+ "'"))
      | _ =>
          (metatiles,
           add_error self
             ("Tile at " +:+ pair_str (x tile) (y tile) +:+ " has metatile_id "
              +:+ pretty mid +:+ " but missing metatile_pos property"))
      end
  end.

(** The inner loop over [positions.items()]. *)
Fixpoint group_positions (mid : Z) (positions : dict string (list TileInfo))
    (group : MetatileGroup) (self : MetatileValidator)
    : result (MetatileGroup * MetatileValidator) :=
  match positions with
  | [] => Ok (group, self)
  | kv :: positions' =>
      let pos := kv.1 in
      let tile_list := kv.2 in
      if (1 <? length tile_list)%nat then
        let positions_str :=
          String.concat ", " ((fun t => pair_str (x t) (y t)) <$> tile_list) in
        let self :=
          add_error self
            ("Metatile " +:+ pretty mid +:+ " has duplicate " +:+ pos +:+ " tiles at: "
             +:+ positions_str) in
        first <- getitem tile_list 0 ;;
        group_positions mid positions'
          {| group_metatile_id := group_metatile_id group;
             tiles := dict_set (tiles group) pos first |} self
      else
        first <- getitem tile_list 0 ;;
        group_positions mid positions'
          {| group_metatile_id := group_metatile_id group;
             tiles := dict_set (tiles group) pos first |} self
  end.

(** The loop over [metatiles.items()] that fills [result]. *)
Fixpoint build_groups (metatiles : dict Z (dict string (list TileInfo)))
    (groups : dict Z MetatileGroup) (self : MetatileValidator)
    : result (dict Z MetatileGroup * MetatileValidator) :=
  match metatiles with
  | [] => Ok (groups, self)
  | kv :: metatiles' =>
      r <- group_positions kv.1 kv.2 (mkMetatileGroup kv.1 []) self ;;
      build_groups metatiles' (dict_set groups kv.1 r.1) r.2
  end.

Definition group_tiles_by_metatile (self : MetatileValidator) (tiles : list TileInfo)
    : result (dict Z MetatileGroup * MetatileValidator) :=
  let st := foldl group_tile ([], self) tiles in
  build_groups st.1 [] st.2.

(** The body of the loop of [validate_metatile_completeness]; the state is
    [all_complete] and the validator. *)
Definition completeness_step (st : bool * MetatileValidator) (kv : Z * MetatileGroup)
    : bool * MetatileValidator :=
  let mid := kv.1 in
  let group := kv.2 in
  if negb (is_complete group) then
    let missing := get_missing_positions group in
    let present_positions :=
      String.concat ", "
        ((fun pt : string * TileInfo =>
            pt.1 +:+ " at " +:+ pair_str (x pt.2) (y pt.2)) <$> tiles group) in
    (false,
     add_error st.2
       ("Metatile " +:+ pretty mid +:+ " is incomplete. Missing: "
        +:+ String.concat ", " missing +:+ ". Present: " +:+ present_positions))
  else st.

Definition validate_metatile_completeness (self : MetatileValidator)
    (metatiles : dict Z MetatileGroup) : bool * MetatileValidator :=
  foldl completeness_step (true, self) metatiles.

(** The loop of [validate_metatile_alignment], with [all_aligned] and the
    validator as its state. *)
Fixpoint alignment_loop (metatiles : dict Z MetatileGroup) (all_aligned : bool)
    (self : MetatileValidator) : result (bool * MetatileValidator) :=
  match metatiles with
  | [] => Ok (all_aligned, self)
  | kv :: metatiles' =>
      let mid := kv.1 in
      let group := kv.2 in
      if negb (is_complete group) then alignment_loop metatiles' all_aligned self
      else
        r <- is_aligned group ;;
        if negb r.1 then
          tl <- dict_getitem (tiles group) "top_left" ;;
          alignment_loop metatiles' false
            (add_error self
               ("Metatile " +:+ pretty mid +:+ " at anchor " +:+ pair_str (x tl) (y tl)
                +:+ " is not properly aligned: " +:+ default "None" r.2))
        else alignment_loop metatiles' all_aligned self
  end.

Definition validate_metatile_alignment (self : MetatileValidator)
    (metatiles : dict Z MetatileGroup) : result (bool * MetatileValidator) :=
  alignment_loop metatiles true self.

(** [validate_map] from the point where [extract_tiles] has returned
    [tiles]; [load_errors] are the errors recorded until then (a tileset
    that could not be loaded), the warnings are still empty. *)
Definition validate_map (tiles : list TileInfo) (load_errors : list string)
    : result (bool * MetatileValidator) :=
  let self := mkMetatileValidator load_errors [] in
  match tiles with
  | [] => Ok (true, self)
  | _ :: _ =>
      grouped <- group_tiles_by_metatile self tiles ;;
      let metatiles := grouped.1 in
      let completeness := validate_metatile_completeness grouped.2 metatiles in
      let completeness_valid := completeness.1 in
      alignment <- validate_metatile_alignment completeness.2 metatiles ;;
      let alignment_valid := alignment.1 in
      let self := alignment.2 in
      Ok (completeness_valid && alignment_valid && (length (errors self) =? 0)%nat, self)
  end.

End strings.

End validate_metatiles.

(** ** zlib streams made of stored blocks

    [zlib.decompress] belongs to the Python runtime.  The general results
    below take it as a parameter; the concrete containers at the end of
    this part are compressed at level 0, and for those this is what it
    computes: a two-byte header, stored (uncompressed) DEFLATE blocks, and
    the Adler-32 checksum of the output.  Any other block type is outside
    the fragment and reported as [ZlibError]. *)

Module zlib.

Definition adler32 (data : list Byte.byte) : Z :=
  let ab :=
    foldl (fun (ab : Z * Z) x =>
             let a := (ab.1 + byte_val x) mod 65521 in
             (a, (ab.2 + a) mod 65521)) (1, 0) data in
  Z.lor (Z.shiftl ab.2 16) ab.1.

Fixpoint inflate_stored (fuel : nat) (stream out : list Byte.byte)
    : result (list Byte.byte * list Byte.byte) :=
  match fuel, stream with
  | S fuel', hdr :: l0 :: l1 :: n0 :: n1 :: rest =>
      let len := Z.lor (byte_val l0) (Z.shiftl (byte_val l1) 8) in
      let nlen := Z.lor (byte_val n0) (Z.shiftl (byte_val n1) 8) in
      if negb (Z.land (Z.shiftr (byte_val hdr) 1) 3 =? 0) then Raise ZlibError
      else if negb (Z.lxor len 0xFFFF =? nlen) then Raise ZlibError
      else if (length rest <? Z.to_nat len)%nat then Raise ZlibError
      else
        let out := out ++ take (Z.to_nat len) rest in
        if Z.testbit (byte_val hdr) 0 then Ok (out, drop (Z.to_nat len) rest)
        else inflate_stored fuel' (drop (Z.to_nat len) rest) out
  | _, _ => Raise ZlibError
  end.

Definition decompress_stored (data : list Byte.byte) : result (list Byte.byte) :=
  match data with
  | cmf :: flg :: stream =>
      let c := byte_val cmf in
      let f := byte_val flg in
      if (Z.land c 0x0F =? 8) && (Z.shiftr c 4 <=? 7)
         && ((c * 256 + f) mod 31 =? 0) && (Z.land f 0x20 =? 0)
      then
        r <- inflate_stored (length stream) stream [] ;;
        adler <- unpack_be_I (take 4 r.2) ;;
        if adler =? adler32 r.1 then Ok r.1 else Raise ZlibError
      else Raise ZlibError
  | _ => Raise ZlibError
  end.

End zlib.

(** ** Concrete inputs *)

Module samples.

(** A 2x1 container whose header declares 8-bit truecolor (colour type
    2): signature, IHDR, one IDAT holding the scanline
    [00 12 34 56 ab cd ef], IEND, every CRC correct. *)
Definition truecolor_png : list Byte.byte :=
  [ x89; x50; x4e; x47; x0d; x0a; x1a; x0a; x00; x00; x00; x0d; x49; x48; x44; x52;
    x00; x00; x00; x02; x00; x00; x00; x01; x08; x02; x00; x00; x00; x7b; x40; xe8;
    xdd; x00; x00; x00; x12; x49; x44; x41; x54; x78; x01; x01; x07; x00; xf8; xff;
    x00; x12; x34; x56; xab; xcd; xef; x07; x59; x03; x04; x84; xb0; x16; xcc; x00;
    x00; x00; x00; x49; x45; x4e; x44; xae; x42; x60; x82 ].

(** An 8x8 container declaring 4-bit indexed colour: IHDR, a PLTE of
    three colours, one IDAT with eight scanlines [00 01 23 01 2f], IEND. *)
Definition indexed_png : list Byte.byte :=
  [ x89; x50; x4e; x47; x0d; x0a; x1a; x0a; x00; x00; x00; x0d; x49; x48; x44; x52;
    x00; x00; x00; x08; x00; x00; x00; x08; x04; x03; x00; x00; x00; x36; x21; xa3;
    xb8; x00; x00; x00; x09; x50; x4c; x54; x45; x00; x00; x00; xff; x00; x00; x00;
    xff; x00; xf4; x83; xbf; x7e; x00; x00; x00; x33; x49; x44; x41; x54; x78; x01;
    x01; x28; x00; xd7; xff; x00; x01; x23; x01; x2f; x00; x01; x23; x01; x2f; x00;
    x01; x23; x01; x2f; x00; x01; x23; x01; x2f; x00; x01; x23; x01; x2f; x00; x01;
    x23; x01; x2f; x00; x01; x23; x01; x2f; x00; x01; x23; x01; x2f; x33; x08; x02;
    xa1; x3f; x23; xe5; x56; x00; x00; x00; x00; x49; x45; x4e; x44; xae; x42; x60;
    x82 ].

(** The raster that [indexed_png] decodes to. *)
Definition indexed_pixels : list (list Z) :=
  replicate 8 [0; 1; 2; 3; 0; 1; 2; 15].

(** A palette store holding palette 0 only, with three colours. *)
Definition palette_store : gmap Z (list (Z * Z * Z)) :=
  {[ 0 := [(8, 16, 24); (255, 0, 0); (0, 255, 0)] ]}.

(** A metatile table of one record whose first TileBitfield is tile 0 with
    palette key 3. *)
Definition metatiles_key3 : list Byte.byte :=
  [ x00; x30; x00; x00; x00; x00; x00; x00; x00; x00; x00; x00; x00; x00; x00; x00 ].

(** Six metatile records: record [k] has the bottom tiles
    [10k .. 10k+3] and the top tiles [100+10k .. 100+10k+3], no flips. *)
Definition six_metatiles : list Byte.byte :=
  [ x00; x00; x01; x00; x02; x00; x03; x00; x64; x00; x65; x00; x66; x00; x67; x00;
    x0a; x00; x0b; x00; x0c; x00; x0d; x00; x6e; x00; x6f; x00; x70; x00; x71; x00;
    x14; x00; x15; x00; x16; x00; x17; x00; x78; x00; x79; x00; x7a; x00; x7b; x00;
    x1e; x00; x1f; x00; x20; x00; x21; x00; x82; x00; x83; x00; x84; x00; x85; x00;
    x28; x00; x29; x00; x2a; x00; x2b; x00; x8c; x00; x8d; x00; x8e; x00; x8f; x00;
    x32; x00; x33; x00; x34; x00; x35; x00; x96; x00; x97; x00; x98; x00; x99; x00 ].

(** map.bin of a 2x2 grid with the metatile ids 0, 1, 5, 0 (row-major). *)
Definition grid_0150 : list Byte.byte :=
  [ x00; x00; x01; x00; x05; x00; x00; x00 ].

(** border.bin with the border pattern 2, 3, 4, 5. *)
Definition border_2345 : list Byte.byte :=
  [ x02; x00; x03; x00; x04; x00; x05; x00 ].

(** Fields separated by single spaces and unsigned decimal numbers: on
    such lines what [str.split] and [int] compute. *)
Fixpoint split_spaces (s : string) (field : string) : list string :=
  match s with
  | EmptyString => if decide (field = "") then [] else [field]
  | String c s' =>
      if decide (c = " "%char) then
        if decide (field = "") then split_spaces s' ""
        else field :: split_spaces s' ""
      else split_spaces s' (field +:+ String c "")
  end.

Fixpoint decimal_go (s : string) (acc : Z) : option Z :=
  match s with
  | EmptyString => Some acc
  | String c s' =>
      let d := Z.of_N (N_of_ascii c) - 48 in
      if (0 <=? d) && (d <=? 9) then decimal_go s' (10 * acc + d) else None
  end.

Definition decimal (s : string) : option Z :=
  match s with
  | EmptyString => None
  | _ => decimal_go s 0
  end.

(** A palette file declaring two colours, followed by a line that is not
    a colour. *)
Definition two_colors_pal : list string :=
  ["JASC-PAL"; ""; "0100"; "2"; "8 16 24"; "255 0 0"; "not a colour"].

(** A palette file declaring three colours and holding one. *)
Definition short_pal : list string :=
  ["JASC-PAL"; "0100"; "3"; "1 2 3"].

End samples.

(** ** Reference definitions taken from the design document *)

Module spec.

(** Re-packing the four fields of a TileBitfield: tile index in bits
    0-9, h_flip in bit 10, v_flip in bit 11, palette key in bits 12-15. *)
Definition pack_tile_bitfield (tile_index : Z) (h_flip v_flip : bool) (palette_key : Z) : Z :=
  Z.lor tile_index
    (Z.lor (Z.shiftl (Z.b2z h_flip) 10)
       (Z.lor (Z.shiftl (Z.b2z v_flip) 11) (Z.shiftl palette_key 12))).

(** Every TileBitfield of the table in metatile-record order and, within
    a record, in quadrant order: the words of the whole 16-byte records. *)
Definition tile_bitfields (data : list Byte.byte) : list Z :=
  le16s (take (Nat.div (length data) 16 * 16) data).

(** The palette key of the first TileBitfield whose tile index is [t],
    and 0 when there is none. *)
Definition first_match_palette (data : list Byte.byte) (t : Z) : Z :=
  match list_find (fun raw => Z.land raw 0x3FF = t) (tile_bitfields data) with
  | Some (_, raw) => Z.land (Z.shiftr raw 12) 0xF
  | None => 0
  end.

(** The pixel rule of the palette-baked path, relating a colour index and
    the resolved palette to the four output values: index 0 is fully
    transparent; any other index within the palette is that entry with
    alpha 255; an index at or beyond the palette length is opaque black. *)
Definition pixel_rule (palette : list (Z * Z * Z)) (color_idx : Z) (quad : list Z) : Prop :=
  (color_idx = 0 -> quad = [0; 0; 0; 0])
  /\ (0 < color_idx < Z.of_nat (length palette) ->
      exists r g b, palette !! Z.to_nat color_idx = Some (r, g, b) /\ quad = [r; g; b; 255])
  /\ (0 < color_idx -> Z.of_nat (length palette) <= color_idx -> quad = [0; 0; 0; 255]).

(** The two stacked references (bottom, top) that the record of a map
    cell decodes to for sub-position [tile_index], flips carried through;
    empty references when the table has no record for the cell. *)
Definition decoded_refs (tileset : convert_map_8x8.TilesetData) (raw_value : Z)
    (tile_index : nat) : Z * Z :=
  let metatile := convert_map_8x8.get_metatile tileset (Z.land raw_value 0x3FF) in
  (convert_map_8x8.apply_flip (metatile ≫= fun m => convert_map_8x8.tiles m !! tile_index),
   convert_map_8x8.apply_flip (metatile ≫= fun m => convert_map_8x8.top_tiles m !! tile_index)).

(** The checkerboard rule into a border pattern. *)
Definition border_index (x y : nat) : nat :=
  Z.to_nat ((Z.of_nat x + 1) mod 2 + ((Z.of_nat y + 1) mod 2) * 2).

(** A printed line is a warning when it carries one of the two warning
    tags the tools print. *)
Definition is_warning (line : string) : bool :=
  String.prefix "[WARN]" line || String.prefix "Warning" line.

(** An image container whose header chunk declares the given width,
    height, bit depth and colour type: signature, the length (13) and tag
    of the header chunk, the two 4-byte dimensions and the colour-mode
    bytes.  [rest] holds the remaining three header bytes, the header CRC
    and the chunks that follow. *)
Definition container (w3 w2 w1 w0 h3 h2 h1 h0 bit_depth color_type : Byte.byte)
    (rest : list Byte.byte) : list Byte.byte :=
  render_tileset_with_palettes.PNG_SIGNATURE
    ++ [x00; x00; x00; x0d] ++ [x49; x48; x44; x52]
    ++ [w3; w2; w1; w0] ++ [h3; h2; h1; h0]
    ++ bit_depth :: color_type :: rest.

(** A tile carries metatile id [m] and, after normalisation, position
    [pos]. *)
Definition tile_at (normalize : string -> string) (m : Z) (pos : string)
    (t : validate_metatiles.TileInfo) : bool :=
  match validate_metatiles.metatile_id t, validate_metatiles.metatile_pos t with
  | Some m', Some (String c s) => bool_decide (m' = m /\ normalize (String c s) = pos)
  | _, _ => false
  end.

(** The tiles of a map with metatile id [m] and position [pos], in the
    order [extract_tiles] lists them. *)
Definition tiles_at (normalize : string -> string) (tiles : list validate_metatiles.TileInfo)
    (m : Z) (pos : string) : list validate_metatiles.TileInfo :=
  filter (fun t => tile_at normalize m pos t) tiles.

(** What the validator's docstring asks of a map: every tile with a
    metatile id names one of the four positions, and the tiles of each id
    are exactly four, one per position, laid out as a 2x2 block anchored at
    the top-left tile. *)
Definition well_grouped (normalize : string -> string)
    (tiles : list validate_metatiles.TileInfo) : Prop :=
  forall t m,
    t ∈ tiles -> validate_metatiles.metatile_id t = Some m ->
    (exists c s, validate_metatiles.metatile_pos t = Some (String c s)
                 /\ normalize (String c s) ∈ validate_metatiles.required)
    /\ exists tl tr bl br,
         tiles_at normalize tiles m "top_left" = [tl]
         /\ tiles_at normalize tiles m "top_right" = [tr]
         /\ tiles_at normalize tiles m "bottom_left" = [bl]
         /\ tiles_at normalize tiles m "bottom_right" = [br]
         /\ validate_metatiles.x tr = validate_metatiles.x tl + 1
         /\ validate_metatiles.y tr = validate_metatiles.y tl
         /\ validate_metatiles.x bl = validate_metatiles.x tl
         /\ validate_metatiles.y bl = validate_metatiles.y tl + 1
         /\ validate_metatiles.x br = validate_metatiles.x tl + 1
         /\ validate_metatiles.y br = validate_metatiles.y tl + 1.

(** A tile that the grouping loop reports as an error: it has a metatile
    id but no usable position. *)
Definition tile_rejected (normalize : string -> string)
    (t : validate_metatiles.TileInfo) : Prop :=
  exists m, validate_metatiles.metatile_id t = Some m
    /\ ~ exists c s, validate_metatiles.metatile_pos t = Some (String c s)
                     /\ normalize (String c s) ∈ validate_metatiles.required.

(** The invariant of the grouping loop: the nested dictionary holds, for
    every metatile id and position, the tiles seen so far. *)
Definition grouped (normalize : string -> string)
    (seen : list validate_metatiles.TileInfo)
    (metatiles : validate_metatiles.dict Z
                   (validate_metatiles.dict string (list validate_metatiles.TileInfo)))
    : Prop :=
  NoDup metatiles.*1
  /\ forall m,
       match validate_metatiles.dict_get metatiles m with
       | None =>
           forall pos, pos ∈ validate_metatiles.required ->
                       tiles_at normalize seen m pos = []
       | Some positions =>
           NoDup positions.*1 /\ positions <> []
           /\ forall pos,
                match validate_metatiles.dict_get positions pos with
                | None =>
                    pos ∈ validate_metatiles.required ->
                    tiles_at normalize seen m pos = []
                | Some tile_list =>
                    pos ∈ validate_metatiles.required
                    /\ tile_list = tiles_at normalize seen m pos /\ tile_list <> []
                end
       end.

End spec.

(** * Properties *)

(** ** Python runtime lemmas *)

Lemma grid_row_lookup (a w b : nat) :
  (b < w)%nat -> (seq 0 w ≫= fun b => [(a, b)]) !! b = Some (a, b).
Proof.
  intros Hb.
  assert (forall s n k, (k < n)%nat ->
            (seq s n ≫= fun b => [(a, b)]) !! k = Some (a, (s + k)%nat)) as H.
  { intros s n. revert s. induction n as [|n IH]; intros s k Hk; [lia|].
    cbn [seq]. rewrite bind_cons. destruct k as [|k]; cbn [app lookup list_lookup].
    - f_equal. f_equal. lia.
    - change (((a, s) :: ?l) !! S k) with (l !! k).
      rewrite IH by lia. f_equal. f_equal. lia. }
  by rewrite H.
Qed.

Lemma grid_row_length (a w : nat) :
  length (seq 0 w ≫= fun b => [(a, b)]) = w.
Proof.
  generalize 0%nat. induction w as [|w IH]; intros s; [done|].
  cbn [seq]. rewrite bind_cons. cbn [app length]. by rewrite IH.
Qed.

Lemma grid_cells_lookup (h w a b : nat) :
  (a < h)%nat -> (b < w)%nat ->
  convert_map_8x8.grid_cells h w !! (a * w + b)%nat = Some (a, b).
Proof.
  intros Ha Hb. unfold convert_map_8x8.grid_cells.
  assert (forall s n k, (k < n)%nat ->
            (seq s n ≫= fun a => seq 0 w ≫= fun b => [(a, b)]) !! (k * w + b)%nat
            = Some ((s + k)%nat, b)) as H.
  { intros s n. revert s. induction n as [|n IH]; intros s k Hk; [lia|].
    cbn [seq]. rewrite bind_cons.
    destruct k as [|k].
    - rewrite lookup_app_l by (rewrite grid_row_length; lia).
      cbn. rewrite grid_row_lookup by done. f_equal. f_equal. lia.
    - rewrite lookup_app_r by (rewrite grid_row_length; lia).
      rewrite grid_row_length.
      replace (S k * w + b - w)%nat with (k * w + b)%nat by lia.
      rewrite IH by lia. f_equal. f_equal. lia. }
  by rewrite H.
Qed.

Lemma grid_cells_length (h w : nat) :
  length (convert_map_8x8.grid_cells h w) = (h * w)%nat.
Proof.
  unfold convert_map_8x8.grid_cells.
  assert (forall s, length (seq s h ≫= fun a => seq 0 w ≫= fun b => [(a, b)])
                    = (h * w)%nat) as H; [|apply H].
  induction h as [|h IH]; intros s; [done|].
  cbn [seq]. rewrite bind_cons, length_app, grid_row_length, IH. lia.
Qed.

Lemma grid_cells_elem (h w a b : nat) :
  (a, b) ∈ convert_map_8x8.grid_cells h w -> (a < h)%nat /\ (b < w)%nat.
Proof.
  unfold convert_map_8x8.grid_cells. intros H.
  apply list_elem_of_bind in H as (a' & H & Ha').
  apply list_elem_of_bind in H as (b' & H & Hb').
  apply list_elem_of_singleton in H. injection H as -> ->.
  apply elem_of_seq in Ha', Hb'. lia.
Qed.

(** ** Bit fields *)

Lemma land_pow2_testbit (v : Z) (k : Z) : 0 <= k ->
  Z.land v (2 ^ k) = if Z.testbit v k then 2 ^ k else 0.
Proof.
  intros Hk. apply Z.bits_inj'. intros n Hn.
  rewrite Z.land_spec, Z.pow2_bits_eqb by lia.
  destruct (Z.eqb_spec k n) as [->|Hne].
  - rewrite andb_true_r. destruct (Z.testbit v n) eqn:E.
    + rewrite Z.pow2_bits_true; lia.
    + now rewrite Z.bits_0.
  - rewrite andb_false_r. destruct (Z.testbit v k).
    + rewrite Z.pow2_bits_false; lia.
    + now rewrite Z.bits_0.
Qed.

Lemma truthy_land_pow2 (v k : Z) : 0 <= k -> truthy (Z.land v (2 ^ k)) = Z.testbit v k.
Proof.
  intros Hk. unfold truthy. rewrite land_pow2_testbit by done.
  destruct (Z.testbit v k); [|done].
  assert (0 < 2 ^ k) by (apply Z.pow_pos_nonneg; lia).
  destruct (Z.eqb_spec (2 ^ k) 0); [lia|done].
Qed.

Lemma testbit_high (v n k : Z) : 0 <= v < 2 ^ k -> k <= n -> Z.testbit v n = false.
Proof.
  intros Hv Hn. destruct (Z.eq_dec v 0) as [->|]; [apply Z.bits_0|].
  apply Z.bits_above_log2; [lia|].
  apply Z.lt_le_trans with k; [|lia]. apply Z.log2_lt_pow2; lia.
Qed.

(** ** TileBitfield (C1) *)

(** C1.  For every 16-bit TileBitfield value [v], decoding recovers
    tile_index = [v & 0x3FF] (the gid of [parse_tile] minus one),
    h_flip = [bool(v & 0x400)], v_flip = [bool(v & 0x800)] and
    palette_key = [(v >> 12) & 0xF] (what the palette scan reads from the
    bitfield), and re-packing the four fields gives [v] back. *)
Theorem tile_bitfield_roundtrip (v : Z) :
  0 <= v < 65536 ->
  let t := convert_map_8x8.parse_tile v in
  let palette_key := Z.land (Z.shiftr v 12) 0xF in
  convert_map_8x8.gid t - 1 = Z.land v 0x3FF
  /\ convert_map_8x8.h_flip t = truthy (Z.land v 0x400)
  /\ convert_map_8x8.v_flip t = truthy (Z.land v 0x800)
  /\ render_tileset_with_palettes.scan_raw_tiles [v] (convert_map_8x8.gid t - 1) = Some palette_key
  /\ spec.pack_tile_bitfield (convert_map_8x8.gid t - 1) (convert_map_8x8.h_flip t) (convert_map_8x8.v_flip t) palette_key = v.
Proof.
  intros Hv t pk. subst t pk. cbn [convert_map_8x8.parse_tile convert_map_8x8.gid convert_map_8x8.h_flip convert_map_8x8.v_flip].
  replace (Z.land v 1023 + 1 - 1) with (Z.land v 1023) by lia.
  split; [done|]. split; [done|]. split; [done|].
  split.
  { cbn. rewrite Z.eqb_refl. done. }
  unfold spec.pack_tile_bitfield.
  change 1024 with (2 ^ 10). change 2048 with (2 ^ 11).
  rewrite !truthy_land_pow2 by lia.
  apply Z.bits_inj'. intros n Hn.
  rewrite !Z.lor_spec, Z.land_spec.
  change 1023 with (Z.ones 10).
  destruct (Z.lt_ge_cases n 10) as [H10|H10].
  { rewrite Z.ones_spec_low, !Z.shiftl_spec_low by lia.
    now rewrite andb_true_r, !orb_false_r. }
  rewrite Z.ones_spec_high by lia. rewrite andb_false_r. cbn [orb].
  rewrite (Z.shiftl_spec (Z.b2z (Z.testbit v 10))) by lia.
  destruct (Z.eq_dec n 10) as [->|].
  { rewrite !Z.shiftl_spec_low by lia. rewrite !orb_false_r.
    change (10 - 10) with 0. now destruct (Z.testbit v 10). }
  assert (Z.testbit (Z.b2z (Z.testbit v 10)) (n - 10) = false) as ->.
  { destruct (Z.testbit v 10); cbn [Z.b2z]; [|apply Z.bits_0].
    apply (testbit_high 1 _ 1); lia. }
  cbn [orb]. rewrite (Z.shiftl_spec (Z.b2z (Z.testbit v 11))) by lia.
  destruct (Z.eq_dec n 11) as [->|].
  { rewrite !Z.shiftl_spec_low by lia. rewrite !orb_false_r.
    change (11 - 11) with 0. now destruct (Z.testbit v 11). }
  assert (Z.testbit (Z.b2z (Z.testbit v 11)) (n - 11) = false) as ->.
  { destruct (Z.testbit v 11); cbn [Z.b2z]; [|apply Z.bits_0].
    apply (testbit_high 1 _ 1); lia. }
  cbn [orb]. rewrite Z.shiftl_spec, Z.land_spec, Z.shiftr_spec by lia.
  replace (n - 12 + 12) with n by lia.
  change 15 with (Z.ones 4).
  destruct (Z.lt_ge_cases n 16).
  - rewrite Z.ones_spec_low by lia. now rewrite andb_true_r.
  - rewrite Z.ones_spec_high by lia. rewrite andb_false_r.
    symmetry. apply (testbit_high v n 16); lia.
Qed.

Lemma tile_bitfield_roundtrip_witness :
  0 <= 0xAC05 < 65536
  /\ spec.pack_tile_bitfield
       (convert_map_8x8.gid (convert_map_8x8.parse_tile 0xAC05) - 1)
       (convert_map_8x8.h_flip (convert_map_8x8.parse_tile 0xAC05))
       (convert_map_8x8.v_flip (convert_map_8x8.parse_tile 0xAC05))
       (Z.land (Z.shiftr 0xAC05 12) 0xF) = 0xAC05.
Proof.
  assert (0 <= 0xAC05 < 65536) as H by lia.
  split; [exact H|].
  exact (proj2 (proj2 (proj2 (proj2 (tile_bitfield_roundtrip 0xAC05 H))))).
Defined.

(** ** Border checkerboard (C4) *)

Lemma land_1_mod_2 (a : Z) : Z.land a 1 = a mod 2.
Proof. change 1 with (Z.ones 1). by rewrite Z.land_ones. Qed.

Lemma get_border_metatile_lookup (border_tiles : list Z) (x y : Z) :
  length border_tiles = 4%nat ->
  exists v,
    border_tile_fix.get_border_metatile border_tiles x y = Ok v
    /\ border_tiles !! Z.to_nat ((x + 1) mod 2 + ((y + 1) mod 2) * 2) = Some v.
Proof.
  intros Hlen. unfold border_tile_fix.get_border_metatile.
  destruct (decide (length border_tiles ≠ 4%nat)) as [Hne|_]; [done|].
  rewrite !land_1_mod_2.
  pose proof (Z.mod_pos_bound (x + 1) 2 ltac:(lia)) as Hx.
  pose proof (Z.mod_pos_bound (y + 1) 2 ltac:(lia)) as Hy.
  set (i := (x + 1) mod 2 + (y + 1) mod 2 * 2) in *.
  unfold py_getitem. rewrite (proj2 (Z.leb_le 0 i)) by lia.
  destruct (lookup_lt_is_Some_2 border_tiles (Z.to_nat i) ltac:(lia)) as [v Hv].
  unfold getitem. rewrite Hv. by exists v.
Qed.

(** C4.  For every coordinate pair [(x, y)] and every 4-entry border
    pattern, the border lookup returns
    [border[((x+1) mod 2) + (((y+1) mod 2) * 2)]]; for [A; B; C; D],
    position (0,0) yields D, (1,0) yields C, (0,1) yields B and (1,1)
    yields A. *)
Theorem border_checkerboard (A B C D x y : Z) :
  (exists v,
      border_tile_fix.get_border_metatile [A; B; C; D] x y = Ok v
      /\ [A; B; C; D] !! Z.to_nat ((x + 1) mod 2 + ((y + 1) mod 2) * 2) = Some v)
  /\ border_tile_fix.get_border_metatile [A; B; C; D] 0 0 = Ok D
  /\ border_tile_fix.get_border_metatile [A; B; C; D] 1 0 = Ok C
  /\ border_tile_fix.get_border_metatile [A; B; C; D] 0 1 = Ok B
  /\ border_tile_fix.get_border_metatile [A; B; C; D] 1 1 = Ok A.
Proof.
  split; [by apply get_border_metatile_lookup|].
  repeat split; reflexivity.
Qed.

(** ** Per-cell metadata of the map converter (C10) *)

Lemma land_3_testbits (a : Z) :
  Z.land a 3 = 3 <-> Z.testbit a 0 = true /\ Z.testbit a 1 = true.
Proof.
  split.
  - intros H.
    assert (forall n, Z.testbit (Z.land a 3) n = Z.testbit 3 n) as Hb by (by rewrite H).
    split.
    + specialize (Hb 0). rewrite Z.land_spec in Hb. cbn in Hb.
      by rewrite andb_true_r in Hb.
    + specialize (Hb 1). rewrite Z.land_spec in Hb. cbn in Hb.
      by rewrite andb_true_r in Hb.
  - intros [H0 H1]. apply Z.bits_inj'. intros n Hn.
    rewrite Z.land_spec. change 3 with (Z.ones 2).
    destruct (Z.lt_ge_cases n 2).
    + rewrite Z.ones_spec_low by lia. rewrite andb_true_r.
      assert (n = 0 \/ n = 1) as [-> | ->] by lia; done.
    + rewrite Z.ones_spec_high by lia. by rewrite andb_false_r.
Qed.

Lemma metatile_props_bits (tileset : convert_map_8x8.TilesetData) (raw : Z) :
  let p := convert_map_8x8.metatile_props tileset raw in
  convert_map_8x8.prop_collision_bits p = (raw / 2 ^ 10) mod 4
  /\ convert_map_8x8.prop_elevation p = (raw / 2 ^ 12) mod 16
  /\ convert_map_8x8.prop_is_solid p = (convert_map_8x8.prop_collision_bits p =? 3)
  /\ (convert_map_8x8.prop_is_solid p = true
      <-> Z.testbit raw 10 = true /\ Z.testbit raw 11 = true).
Proof.
  cbn. split; [|split; [|split; [done|]]].
  - change 3 with (Z.ones 2). by rewrite Z.land_ones, Z.shiftr_div_pow2.
  - change 15 with (Z.ones 4). by rewrite Z.land_ones, Z.shiftr_div_pow2.
  - rewrite Z.eqb_eq, land_3_testbits, !Z.shiftr_spec by lia. done.
Qed.

Lemma metatile_object_loop_spec (map_data : list (list Z))
    (tileset : convert_map_8x8.TilesetData) (cells : list (nat * nat)) (id0 : Z) :
  Forall (fun c => exists row raw, map_data !! c.1 = Some row /\ row !! c.2 = Some raw) cells ->
  exists objs,
    convert_map_8x8.metatile_object_loop map_data tileset cells id0 = Ok objs
    /\ length objs = length cells
    /\ forall k my mx row raw,
         cells !! k = Some (my, mx) -> map_data !! my = Some row -> row !! mx = Some raw ->
         exists obj,
           objs !! k = Some obj
           /\ convert_map_8x8.obj_id obj = id0 + Z.of_nat k
           /\ convert_map_8x8.obj_properties obj = convert_map_8x8.metatile_props tileset raw.
Proof.
  revert id0. induction cells as [|[my mx] cells IH]; intros id0 Hall.
  - exists []. repeat split; [done..|]. intros k ? ? ? ? Hk. by destruct k.
  - inversion Hall as [|? ? (row & raw & Hrow & Hraw) Hrest]; subst.
    destruct (IH (id0 + 1) Hrest) as (objs & Hloop & Hlen & Hobjs).
    cbn [convert_map_8x8.metatile_object_loop]. cbn in Hrow, Hraw.
    unfold getitem at 1. rewrite Hrow. cbn [result_bind].
    unfold getitem at 1. rewrite Hraw. cbn [result_bind].
    rewrite Hloop. cbn [result_bind]. eexists. split; [done|].
    split; [cbn; by rewrite Hlen|].
    intros k my' mx' row' raw' Hk Hrow' Hraw'. destruct k as [|k].
    + injection Hk as <- <-. rewrite Hrow in Hrow'. injection Hrow' as <-.
      rewrite Hraw in Hraw'. injection Hraw' as <-.
      eexists. split; [done|]. cbn. split; [lia|done].
    + cbn in Hk. destruct (Hobjs k my' mx' row' raw' Hk Hrow' Hraw')
        as (obj & Hobj & Hid & Hprops).
      exists obj. split; [done|]. split; [lia|done].
Qed.



(** ** Palette key of a tile (C3) *)

Lemma slice_take_drop {A : Type} (l : list A) (a n : nat) :
  slice l a (a + n) = take n (drop a l).
Proof. unfold slice. f_equal. lia. Qed.

Lemma le16s_app (a b : list Byte.byte) :
  Nat.Even (length a) -> le16s (a ++ b) = le16s a ++ le16s b.
Proof.
  remember (length a) as n eqn:Hn. revert a Hn.
  induction (lt_wf n) as [n _ IH]. intros a Hn Heven.
  destruct a as [|x [|y a]]; [done| |].
  - cbn in Hn. subst n. destruct Heven as [k Hk]. lia.
  - cbn [app le16s]. f_equal. cbn in Hn.
    apply (IH (length a)); [lia|done|].
    subst n. destruct Heven as [k Hk]. exists (k - 1)%nat. lia.
Qed.

Lemma scan_raw_tiles_app (a b : list Z) (t : Z) :
  render_tileset_with_palettes.scan_raw_tiles (a ++ b) t
  = match render_tileset_with_palettes.scan_raw_tiles a t with
    | Some p => Some p
    | None => render_tileset_with_palettes.scan_raw_tiles b t
    end.
Proof.
  induction a as [|raw a IH]; [done|]. cbn.
  by destruct (Z.land raw 1023 =? t).
Qed.

Lemma scan_raw_tiles_find (l : list Z) (t : Z) :
  render_tileset_with_palettes.scan_raw_tiles l t
  = (fun hit : nat * Z => Z.land (Z.shiftr hit.2 12) 0xF)
      <$> list_find (fun raw => Z.land raw 0x3FF = t) l.
Proof.
  induction l as [|raw l IH]; [done|].
  cbn [render_tileset_with_palettes.scan_raw_tiles list_find].
  destruct (Z.eqb_spec (Z.land raw 1023) t) as [Heq|Hne].
  - by rewrite decide_True.
  - rewrite decide_False by done. rewrite IH.
    by destruct (list_find _ l) as [[i x]|].
Qed.

Lemma scan_metatiles_spec (data : list Byte.byte) (t : Z) (n s : nat) :
  ((s + n) * 16 <= length data)%nat ->
  render_tileset_with_palettes.scan_metatiles data (seq s n) t
  = Ok (default 0 (render_tileset_with_palettes.scan_raw_tiles
                     (le16s (take (n * 16) (drop (s * 16) data))) t)).
Proof.
  revert s. induction n as [|n IH]; intros s Hlen; [done|].
  cbn [seq render_tileset_with_palettes.scan_metatiles].
  rewrite slice_take_drop.
  assert (length (take 16 (drop (s * 16) data)) = 16%nat) as Hchunk.
  { rewrite length_take, length_drop. lia. }
  unfold unpack_le_H. rewrite decide_True by (rewrite Hchunk; lia).
  cbn [result_bind].
  replace (S n * 16)%nat with (16 + n * 16)%nat by lia.
  rewrite <- take_take_drop, le16s_app by (rewrite Hchunk; by exists 8%nat).
  rewrite scan_raw_tiles_app, drop_drop.
  destruct (render_tileset_with_palettes.scan_raw_tiles _ t) as [p|]; [done|].
  replace (s * 16 + 16)%nat with (S s * 16)%nat by lia.
  by rewrite IH by lia.
Qed.

Lemma get_tile_palette_index_spec (data : list Byte.byte) (t : Z) :
  render_tileset_with_palettes.get_tile_palette_index data t
  = Ok (spec.first_match_palette data t).
Proof.
  unfold render_tileset_with_palettes.get_tile_palette_index.
  rewrite scan_metatiles_spec.
  - unfold spec.first_match_palette, spec.tile_bitfields.
    rewrite scan_raw_tiles_find. cbn [Nat.mul]. rewrite drop_0.
    by destruct (list_find _ _) as [[i raw]|].
  - pose proof (Nat.Div0.mul_div_le (length data) 16). lia.
Qed.

(** C3.  For every absolute tile index [t], the palette key chosen for
    [t] is the 4-bit palette field of the first TileBitfield, in
    metatile-record order and within a record in quadrant order, whose
    tile_index equals [t]: if the bitfield at position [k] of the table
    matches and none before it does, its palette field is the result,
    whatever follows; if no TileBitfield of the table matches, the key is
    0.  The scan never raises. *)
Theorem tile_palette_first_match (data : list Byte.byte) (t : Z) :
  render_tileset_with_palettes.get_tile_palette_index data t
  = Ok (spec.first_match_palette data t)
  /\ (forall k raw,
        spec.tile_bitfields data !! k = Some raw ->
        Z.land raw 0x3FF = t ->
        (forall j raw', (j < k)%nat -> spec.tile_bitfields data !! j = Some raw' ->
                        Z.land raw' 0x3FF ≠ t) ->
        render_tileset_with_palettes.get_tile_palette_index data t
        = Ok (Z.land (Z.shiftr raw 12) 0xF))
  /\ ((forall raw, raw ∈ spec.tile_bitfields data -> Z.land raw 0x3FF ≠ t) ->
      render_tileset_with_palettes.get_tile_palette_index data t = Ok 0).
Proof.
  rewrite get_tile_palette_index_spec. split; [done|].
  unfold spec.first_match_palette. split.
  - intros k raw Hk Hmatch Hfirst.
    assert (list_find (fun raw => Z.land raw 0x3FF = t) (spec.tile_bitfields data)
            = Some (k, raw)) as ->; [|done].
    apply list_find_Some. split; [done|]. split; [done|].
    intros j raw' Hj Hlt. exact (Hfirst j raw' Hlt Hj).
  - intros Hnone.
    assert (list_find (fun raw => Z.land raw 0x3FF = t) (spec.tile_bitfields data)
            = None) as ->; [|done].
    apply list_find_None. apply Forall_forall. intros raw Hin. by apply Hnone.
Qed.

Example tile_palette_first_of_two :
  render_tileset_with_palettes.get_tile_palette_index
    [ x05; x30; x00; x00; x00; x00; x00; x00; x00; x00; x00; x00; x00; x00; x00; x00;
      x00; x00; x05; x70; x00; x00; x00; x00; x00; x00; x00; x00; x00; x00; x00; x00;
      x05; x90 ] 5 = Ok 3.
Proof. reflexivity. Qed.

(** ** Palette-baked compositing (C2) *)

Lemma for_each_spec {A B : Type} (f : A -> result B) (P : A -> B -> Prop) (l : list A) :
  Forall (fun a => exists b, f a = Ok b /\ P a b) l ->
  exists bs, for_each f l = Ok bs /\ Forall2 P l bs.
Proof.
  induction 1 as [|a l (b & Hb & HP) _ (bs & Hbs & HF)]; cbn.
  - exists []. by split.
  - rewrite Hb. cbn. rewrite Hbs. cbn. exists (b :: bs). split; [done|].
    by constructor.
Qed.

Lemma join_uniform_length {B : Type} (blocks : list (list B)) (m : nat) :
  Forall (fun b => length b = m) blocks ->
  length (mjoin blocks) = (length blocks * m)%nat.
Proof.
  induction 1 as [|b blocks Hb _ IH]; [done|].
  change (mjoin (b :: blocks)) with (b ++ mjoin blocks).
  rewrite length_app, IH, Hb. done.
Qed.

Lemma join_uniform_slice {B : Type} (blocks : list (list B)) (m i j k : nat) (b : list B) :
  Forall (fun b => length b = m) blocks ->
  blocks !! i = Some b ->
  (j + k <= m)%nat ->
  take k (drop (i * m + j) (mjoin blocks)) = take k (drop j b).
Proof.
  intros Hall. revert i. induction Hall as [|b0 blocks Hb0 _ IH]; intros i Hi Hjk.
  - by destruct i.
  - change (mjoin (b0 :: blocks)) with (b0 ++ mjoin blocks). destruct i as [|i].
    + injection Hi as ->. cbn [Nat.mul Nat.add].
      rewrite drop_app_le by lia.
      rewrite take_app_le by (rewrite length_drop; lia). done.
    + cbn in Hi. rewrite drop_app_ge by lia.
      replace (S i * m + j - length b0)%nat with (i * m + j)%nat by lia.
      by apply IH.
Qed.

Lemma render_pixel_rule (palette : render_tileset_with_palettes.palette) (color_idx : Z) :
  0 <= color_idx ->
  exists quad,
    render_tileset_with_palettes.render_pixel palette color_idx = Ok quad
    /\ length quad = 4%nat
    /\ spec.pixel_rule palette color_idx quad.
Proof.
  intros Hc. unfold render_tileset_with_palettes.render_pixel, spec.pixel_rule.
  destruct (Z.eqb_spec color_idx 0) as [->|Hne].
  { eexists. split; [done|]. split; [done|]. repeat split; [lia..]. }
  destruct (Z.ltb_spec color_idx (Z.of_nat (length palette))) as [Hlt|Hge].
  - unfold py_getitem. rewrite (proj2 (Z.leb_le 0 color_idx)) by done.
    destruct (lookup_lt_is_Some_2 palette (Z.to_nat color_idx) ltac:(lia))
      as [[[r g] b] Hrgb].
    unfold getitem. rewrite Hrgb. cbn. eexists. split; [done|]. split; [done|].
    split; [lia|]. split; [|lia]. intros _. by exists r, g, b.
  - eexists. split; [done|]. split; [done|]. split; [lia|]. split; [lia|done].
Qed.

Lemma Forall2_seq_lookup {B : Type} (P : nat -> B -> Prop) (n : nat) (bs : list B) :
  Forall2 P (seq 0 n) bs ->
  length bs = n /\ forall i, (i < n)%nat -> exists b, bs !! i = Some b /\ P i b.
Proof.
  intros HF. split.
  - apply Forall2_length in HF. by rewrite length_seq in HF.
  - intros i Hi.
    destruct (Forall2_lookup_l _ _ _ i i HF) as (b & Hb & HP); [|by exists b].
    by rewrite lookup_seq_lt.
Qed.

Lemma render_tile_row_spec (pixels : list (list Z))
    (palettes : gmap Z render_tileset_with_palettes.palette)
    (metatiles_data : list Byte.byte) (tile_offset : Z) (tiles_per_row tile_y y tile_x : nat)
    (pixel_row : list Z) (palette0 : render_tileset_with_palettes.palette) :
  palettes !! 0 = Some palette0 ->
  pixels !! y = Some pixel_row ->
  (tile_x * 8 + 8 <= length pixel_row)%nat ->
  Forall (fun c => 0 <= c) pixel_row ->
  exists part palette,
    render_tileset_with_palettes.render_tile_row pixels palettes metatiles_data
      tile_offset tiles_per_row tile_y y tile_x = Ok part
    /\ length part = 32%nat
    /\ render_tileset_with_palettes.palettes_get palettes
         (spec.first_match_palette metatiles_data
            (Z.of_nat (tile_y * tiles_per_row + tile_x) + tile_offset)) = Ok palette
    /\ forall col color_idx,
         (col < 8)%nat -> pixel_row !! (tile_x * 8 + col)%nat = Some color_idx ->
         spec.pixel_rule palette color_idx (take 4 (drop (4 * col) part)).
Proof.
  intros H0 Hy Hlen Hpos.
  unfold render_tileset_with_palettes.render_tile_row.
  rewrite get_tile_palette_index_spec. cbn [result_bind].
  set (key := spec.first_match_palette _ _).
  unfold render_tileset_with_palettes.palettes_get. rewrite H0. cbn [result_bind].
  set (palette := default palette0 (palettes !! key)).
  destruct (for_each_spec
    (fun col_in_tile : nat =>
       pixel_row <- getitem pixels y ;;
       color_idx <- getitem pixel_row (tile_x * 8 + col_in_tile) ;;
       render_tileset_with_palettes.render_pixel palette color_idx)
    (fun col quad =>
       length quad = 4%nat
       /\ forall c, pixel_row !! (tile_x * 8 + col)%nat = Some c ->
                    spec.pixel_rule palette c quad)
    (seq 0 8)) as (quads & Hquads & HF).
  { apply Forall_forall. intros col [_ Hcol]%elem_of_seq.
    unfold getitem at 1. rewrite Hy. cbn [result_bind].
    destruct (lookup_lt_is_Some_2 pixel_row (tile_x * 8 + col) ltac:(lia)) as [c Hc].
    unfold getitem. rewrite Hc. cbn [result_bind].
    destruct (render_pixel_rule palette c) as (quad & Hq & Hq4 & Hrule).
    { by apply (Forall_lookup_1 _ _ _ _ Hpos Hc). }
    exists quad. split; [done|]. split; [done|].
    intros c' Hc'. assert (c' = c) as -> by congruence. done. }
  rewrite Hquads. cbn [result_bind].
  apply Forall2_seq_lookup in HF as [Hn Hq].
  assert (Forall (fun q : list Z => length q = 4%nat) quads) as Hall.
  { apply Forall_lookup_2. intros i q Hi.
    destruct (Hq i) as (q' & Hq' & Hl & _); [apply lookup_lt_Some in Hi; lia|].
    assert (q' = q) as -> by congruence. done. }
  exists (mjoin quads), palette. split; [done|].
  split; [by rewrite (join_uniform_length _ 4), Hn|]. split; [done|].
  intros col c Hcol Hc.
  destruct (Hq col Hcol) as (quad & Hquad & Hl & Hrule).
  replace (4 * col)%nat with (col * 4 + 0)%nat by lia.
  rewrite (join_uniform_slice quads 4 col 0 4 quad) by (done || lia).
  rewrite drop_0, take_ge by lia. by apply Hrule.
Qed.

Lemma div_mod_8 (x : nat) : x = (Nat.div x 8 * 8 + x mod 8)%nat /\ (x mod 8 < 8)%nat.
Proof.
  split.
  - rewrite (Nat.div_mod_eq x 8) at 1. lia.
  - apply Nat.mod_upper_bound. lia.
Qed.

Lemma render_row_spec (pixels : list (list Z))
    (palettes : gmap Z render_tileset_with_palettes.palette)
    (metatiles_data : list Byte.byte) (tile_offset : Z) (tiles_per_row tile_y y : nat)
    (pixel_row : list Z) (palette0 : render_tileset_with_palettes.palette) :
  palettes !! 0 = Some palette0 ->
  pixels !! y = Some pixel_row ->
  (tiles_per_row * 8 <= length pixel_row)%nat ->
  Forall (fun c => 0 <= c) pixel_row ->
  exists parts,
    for_each (render_tileset_with_palettes.render_tile_row pixels palettes metatiles_data
                tile_offset tiles_per_row tile_y y) (seq 0 tiles_per_row) = Ok parts
    /\ length (mjoin parts) = (tiles_per_row * 32)%nat
    /\ forall x color_idx,
         (x < tiles_per_row * 8)%nat -> pixel_row !! x = Some color_idx ->
         exists palette,
           render_tileset_with_palettes.palettes_get palettes
             (spec.first_match_palette metatiles_data
                (Z.of_nat (tile_y * tiles_per_row + Nat.div x 8) + tile_offset)) = Ok palette
           /\ spec.pixel_rule palette color_idx (take 4 (drop (4 * x) (mjoin parts))).
Proof.
  intros H0 Hy Hlen Hpos.
  destruct (for_each_spec
    (render_tileset_with_palettes.render_tile_row pixels palettes metatiles_data
       tile_offset tiles_per_row tile_y y)
    (fun tile_x part =>
       length part = 32%nat
       /\ exists palette,
            render_tileset_with_palettes.palettes_get palettes
              (spec.first_match_palette metatiles_data
                 (Z.of_nat (tile_y * tiles_per_row + tile_x) + tile_offset)) = Ok palette
            /\ forall col color_idx,
                 (col < 8)%nat -> pixel_row !! (tile_x * 8 + col)%nat = Some color_idx ->
                 spec.pixel_rule palette color_idx (take 4 (drop (4 * col) part)))
    (seq 0 tiles_per_row)) as (parts & Hparts & HF).
  { apply Forall_forall. intros tile_x [_ Htx]%elem_of_seq.
    destruct (render_tile_row_spec pixels palettes metatiles_data tile_offset
                tiles_per_row tile_y y tile_x pixel_row palette0)
      as (part & palette & Hpart & Hl & Hpal & Hrule); [done|done|lia|done|].
    exists part. split; [done|]. split; [done|]. by exists palette. }
  exists parts. split; [done|].
  apply Forall2_seq_lookup in HF as [Hn Hp].
  assert (Forall (fun p : list Z => length p = 32%nat) parts) as Hall.
  { apply Forall_lookup_2. intros i p Hi.
    destruct (Hp i) as (p' & Hp' & Hl & _); [apply lookup_lt_Some in Hi; lia|].
    assert (p' = p) as -> by congruence. done. }
  split; [by rewrite (join_uniform_length _ 32), Hn|].
  intros x c Hx Hc.
  destruct (div_mod_8 x) as [Hdm Hm].
  destruct (Hp (Nat.div x 8)) as (part & Hpart & Hl & palette & Hpal & Hrule); [lia|].
  exists palette. split; [done|].
  replace (4 * x)%nat with (Nat.div x 8 * 32 + 4 * (x mod 8))%nat by lia.
  rewrite (join_uniform_slice parts 32 (Nat.div x 8) (4 * (x mod 8)) 4 part)
    by (done || lia).
  apply Hrule; [done|]. by rewrite <- Hdm.
Qed.

(** C2.  In the palette-baked compositing path, for every pixel of every
    tile: colour index 0 gives a fully transparent pixel (alpha 0) whatever
    colour the resolved palette stores at index 0; any other index within
    the palette gives that palette entry with alpha 255; an index at or
    beyond the palette length gives opaque black (0,0,0,255) and no error.
    Here [pixels] is the decoded indexed raster (indices are non-negative),
    the store holds palette 0, and the pixel at [(x, y)] occupies the four
    values of output row [y] starting at [4 * x]; its palette is the one
    resolved for the tile at tile column [x / 8] and tile row [y / 8]. *)
Theorem palette_baked_compositing (width height : Z) (pixels : list (list Z))
    (palettes : gmap Z render_tileset_with_palettes.palette)
    (metatiles_data : list Byte.byte) (tile_offset : Z)
    (palette0 : render_tileset_with_palettes.palette) :
  let tiles_per_row := Z.to_nat (width / 8) in
  let tiles_per_col := Z.to_nat (height / 8) in
  palettes !! 0 = Some palette0 ->
  (forall y, (y < tiles_per_col * 8)%nat ->
     exists pixel_row,
       pixels !! y = Some pixel_row
       /\ (tiles_per_row * 8 <= length pixel_row)%nat
       /\ Forall (fun c => 0 <= c) pixel_row) ->
  exists rgba_pixels,
    render_tileset_with_palettes.render_rows width height pixels palettes
      metatiles_data tile_offset = Ok rgba_pixels
    /\ length rgba_pixels = (tiles_per_col * 8)%nat
    /\ forall y x pixel_row color_idx,
         (x < tiles_per_row * 8)%nat ->
         (y < tiles_per_col * 8)%nat ->
         pixels !! y = Some pixel_row ->
         pixel_row !! x = Some color_idx ->
         exists row_rgba palette,
           rgba_pixels !! y = Some row_rgba
           /\ length row_rgba = (tiles_per_row * 32)%nat
           /\ render_tileset_with_palettes.palettes_get palettes
                (spec.first_match_palette metatiles_data
                   (Z.of_nat (Nat.div y 8 * tiles_per_row + Nat.div x 8) + tile_offset))
              = Ok palette
           /\ spec.pixel_rule palette color_idx (take 4 (drop (4 * x) row_rgba)).
Proof.
  intros tpr tpc H0 Hpix.
  unfold render_tileset_with_palettes.render_rows. fold tpr tpc.
  destruct (for_each_spec
    (fun cell : nat * nat =>
       parts <- for_each
                  (render_tileset_with_palettes.render_tile_row pixels palettes
                     metatiles_data tile_offset tpr cell.1 (cell.1 * 8 + cell.2))
                  (seq 0 tpr) ;;
       Ok (mjoin parts))
    (fun cell row_rgba =>
       length row_rgba = (tpr * 32)%nat
       /\ forall x pixel_row color_idx,
            (x < tpr * 8)%nat ->
            pixels !! (cell.1 * 8 + cell.2)%nat = Some pixel_row ->
            pixel_row !! x = Some color_idx ->
            exists palette,
              render_tileset_with_palettes.palettes_get palettes
                (spec.first_match_palette metatiles_data
                   (Z.of_nat (cell.1 * tpr + Nat.div x 8) + tile_offset)) = Ok palette
              /\ spec.pixel_rule palette color_idx (take 4 (drop (4 * x) row_rgba)))
    (convert_map_8x8.grid_cells tpc 8)) as (rows & Hrows & HF).
  { apply Forall_forall. intros [ty r] [Hty Hr]%grid_cells_elem. cbn [fst snd].
    destruct (Hpix (ty * 8 + r)%nat ltac:(lia)) as (pixel_row & Hy & Hlen & Hpos).
    destruct (render_row_spec pixels palettes metatiles_data tile_offset tpr ty
                (ty * 8 + r) pixel_row palette0 H0 Hy Hlen Hpos)
      as (parts & Hparts & Hl & Hrule).
    rewrite Hparts. cbn [result_bind]. eexists. split; [done|]. split; [done|].
    intros x pixel_row' c Hx Hy' Hc.
    assert (pixel_row' = pixel_row) as -> by congruence. by apply Hrule. }
  exists rows. split; [done|].
  pose proof (Forall2_length _ _ _ HF) as Hlen. rewrite grid_cells_length in Hlen.
  split; [done|].
  intros y x pixel_row c Hx Hy Hrow Hc.
  destruct (div_mod_8 y) as [Hdm Hm].
  assert (Nat.div y 8 < tpc)%nat as Hty by lia.
  pose proof (grid_cells_lookup tpc 8 (Nat.div y 8) (y mod 8) Hty Hm) as Hcell.
  rewrite <- Hdm in Hcell.
  destruct (Forall2_lookup_l _ _ _ _ _ HF Hcell) as (row_rgba & Hrgba & Hl & Hrule).
  cbn [fst snd] in Hrule. rewrite <- Hdm in Hrule.
  destruct (Hrule x pixel_row c Hx Hrow Hc) as (palette & Hpal & Hpr).
  by exists row_rgba, palette.
Qed.

Lemma palette_baked_compositing_witness :
  exists rgba_pixels,
    render_tileset_with_palettes.render_rows 8 8 samples.indexed_pixels
      samples.palette_store samples.metatiles_key3 0 = Ok rgba_pixels
    /\ length rgba_pixels = 8%nat.
Proof.
  destruct (palette_baked_compositing 8 8 samples.indexed_pixels samples.palette_store
              samples.metatiles_key3 0 [(8, 16, 24); (255, 0, 0); (0, 255, 0)])
    as (rgba_pixels & Hrows & Hlen & _).
  - reflexivity.
  - intros y Hy.
    do 8 (destruct y as [|y];
          [eexists; split; [reflexivity|]; split; [vm_compute; lia|repeat constructor; lia]|]).
    vm_compute in Hy. lia.
  - exists rgba_pixels. split; assumption.
Defined.

(** ** Truncated attribute tables (C6) *)

Lemma range_step_mul (n k : nat) :
  (0 < k)%nat -> range_step (n * k) k = (fun i => (i * k)%nat) <$> seq 0 n.
Proof.
  intros Hk. unfold range_step. do 2 f_equal.
  symmetry. apply (Nat.div_unique _ _ _ (k - 1)); lia.
Qed.

Lemma zero_records_replicate (n : nat) :
  convert_tileset_8x8.zero_records n = replicate (4 * n) x00.
Proof.
  unfold convert_tileset_8x8.zero_records. induction n as [|n IH]; [done|].
  change (mjoin (replicate (S n) [x00; x00; x00; x00]))
    with ([x00; x00; x00; x00] ++ mjoin (replicate n [x00; x00; x00; x00])).
  rewrite IH. replace (4 * S n)%nat with (4 + 4 * n)%nat by lia. done.
Qed.

Lemma parse_attributes_loop_spec (data : list Byte.byte) (n s : nat)
    (acc : list convert_tileset_8x8.MetatileAttributes) :
  ((s + n) * 4 <= length data)%nat ->
  exists attrs,
    convert_tileset_8x8.parse_attributes_loop data
      ((fun i => (i * 4)%nat) <$> seq s n) acc = Ok (acc ++ attrs)
    /\ length attrs = n
    /\ forall i, (i < n)%nat ->
         exists a, attrs !! i = Some a
           /\ convert_tileset_8x8.MetatileAttributes_from_bytes
                (take 4 (drop ((s + i) * 4) data)) = Ok a.
Proof.
  revert s acc. induction n as [|n IH]; intros s acc Hlen.
  - exists []. cbn. rewrite app_nil_r. repeat split; [done..|]. intros i Hi. lia.
  - cbn [seq fmap list_fmap convert_tileset_8x8.parse_attributes_loop].
    rewrite slice_take_drop.
    assert (length (take 4 (drop (s * 4) data)) = 4%nat) as Hchunk.
    { rewrite length_take, length_drop. lia. }
    rewrite decide_True by done.
    destruct (take 4 (drop (s * 4) data)) as [|b0 [|b1 [|b2 [|b3 [|? ?]]]]] eqn:Hc;
      try discriminate Hchunk.
    assert (exists a, convert_tileset_8x8.MetatileAttributes_from_bytes [b0; b1; b2; b3]
                      = Ok a) as [a Ha] by (eexists; reflexivity).
    destruct (IH (S s) (acc ++ [a])) as (attrs & Hloop & Hl & Hattrs); [lia|].
    rewrite Ha. cbn [result_bind]. rewrite Hloop. exists (a :: attrs). split; [by rewrite <- app_assoc|].
    split; [cbn; lia|]. intros i Hi. destruct i as [|i].
    + exists a. split; [done|]. rewrite Nat.add_0_r, Hc. done.
    + destruct (Hattrs i) as (a' & Ha' & Hfrom); [lia|].
      exists a'. split; [done|].
      by replace (s + S i)%nat with (S s + i)%nat by lia.
Qed.

Lemma parse_attributes_truncated (metatiles_data attributes_data : list Byte.byte) :
  let N := Nat.div (length metatiles_data) 8 in
  (length attributes_data < N * 4)%nat ->
  exists attributes,
    convert_tileset_8x8.parse_attributes metatiles_data attributes_data = Ok attributes
    /\ length attributes = N
    /\ forall i, (i < N)%nat -> (length attributes_data <= 4 * i)%nat ->
         attributes !! i = Some (convert_tileset_8x8.mkMetatileAttributes 0 0 0 0).
Proof.
  intros N Hshort. unfold convert_tileset_8x8.parse_attributes. fold N.
  rewrite (proj2 (Nat.ltb_lt _ _)) by done.
  rewrite zero_records_replicate.
  set (padded := attributes_data ++ replicate _ x00).
  pose proof (Nat.Div0.mul_div_le (length attributes_data) 4) as Hdiv.
  assert (N * 4 <= length padded)%nat as Hpad.
  { unfold padded. rewrite length_app, length_replicate. lia. }
  rewrite Nat.min_r by done. rewrite range_step_mul by lia.
  destruct (parse_attributes_loop_spec padded N 0 []) as (attrs & Hloop & Hl & Hattrs);
    [lia|].
  exists attrs. split; [done|]. split; [done|].
  intros i Hi Hbeyond. destruct (Hattrs i Hi) as (a & Ha & Hfrom).
  rewrite Ha. f_equal.
  assert (take 4 (drop ((0 + i) * 4) padded) = [x00; x00; x00; x00]) as Hz.
  { unfold padded. rewrite drop_app_ge by lia.
    rewrite drop_replicate, take_replicate.
    rewrite Nat.min_l by lia. done. }
  rewrite Hz in Hfrom. by injection Hfrom as <-.
Qed.

Lemma parse_metatiles_loop_spec (metatiles_data : list Byte.byte)
    (attributes : list convert_tileset_8x8.MetatileAttributes) (n s : nat)
    (acc : list convert_tileset_8x8.Metatile) :
  ((s + n) * 8 <= length metatiles_data)%nat ->
  exists ms,
    convert_tileset_8x8.parse_metatiles_loop metatiles_data attributes
      ((fun i => (i * 8)%nat) <$> seq s n) acc = Ok (acc ++ ms)
    /\ length ms = n
    /\ forall i, (i < n)%nat ->
         exists m, ms !! i = Some m
           /\ convert_tileset_8x8.attributes m
              = default (convert_tileset_8x8.mkMetatileAttributes 0 0 0 0)
                  (attributes !! (s + i)%nat)
           /\ convert_tileset_8x8.tiles m
              = le16s (take 8 (drop ((s + i) * 8) metatiles_data)).
Proof.
  revert s acc. induction n as [|n IH]; intros s acc Hlen.
  - exists []. cbn. rewrite app_nil_r. repeat split; [done..|]. intros i Hi. lia.
  - cbn [seq fmap list_fmap].
    set (chunk := take 8 (drop (s * 8) metatiles_data)).
    set (attrs := default (convert_tileset_8x8.mkMetatileAttributes 0 0 0 0)
                    (attributes !! s)).
    set (rest := (fun i => (i * 8)%nat) <$> seq (S s) n).
    assert (convert_tileset_8x8.parse_metatiles_loop metatiles_data attributes
              ((s * 8)%nat :: rest) acc
            = convert_tileset_8x8.parse_metatiles_loop metatiles_data attributes rest
                (acc ++ [convert_tileset_8x8.mkMetatile (le16s chunk) attrs])) as Hstep.
    { cbn [convert_tileset_8x8.parse_metatiles_loop].
      rewrite slice_take_drop, Nat.div_mul by lia. fold chunk.
      assert (length chunk = 8%nat) as Hchunk.
      { unfold chunk. rewrite length_take, length_drop. lia. }
      assert (forall a, convert_tileset_8x8.Metatile_from_bytes chunk a
                        = Ok (convert_tileset_8x8.mkMetatile (le16s chunk) a)) as Hfrom.
      { intros a.
        destruct chunk as [|b0 [|b1 [|b2 [|b3 [|b4 [|b5 [|b6 [|b7 [|? ?]]]]]]]]];
          try discriminate Hchunk. reflexivity. }
      unfold attrs. destruct (Nat.ltb_spec s (length attributes)) as [Hin|Hout].
      - destruct (lookup_lt_is_Some_2 attributes s Hin) as [a Ha].
        unfold getitem. rewrite Ha. cbn [default from_option id result_bind].
        by rewrite Hfrom.
      - rewrite (lookup_ge_None_2 attributes s Hout).
        cbn [default from_option result_bind]. by rewrite Hfrom. }
    rewrite Hstep. unfold rest.
    destruct (IH (S s) (acc ++ [convert_tileset_8x8.mkMetatile (le16s chunk) attrs]))
      as (ms & Hloop & Hl & Hms); [lia|].
    exists (convert_tileset_8x8.mkMetatile (le16s chunk) attrs :: ms).
    split; [by rewrite Hloop, <- app_assoc|].
    split; [cbn; lia|]. intros i Hi. destruct i as [|i].
    + eexists. split; [done|]. rewrite Nat.add_0_r. done.
    + destruct (Hms i) as (m & Hm & Hattr & Htiles); [lia|].
      exists m. split; [done|].
      by replace (s + S i)%nat with (S s + i)%nat by lia.
Qed.

Lemma load_metatiles_truncated (metatiles_data attributes_data : list Byte.byte) (N : nat) :
  length metatiles_data = (N * 8)%nat ->
  (length attributes_data < N * 4)%nat ->
  exists metatiles,
    convert_tileset_8x8.load_metatiles metatiles_data (Some attributes_data) = Ok metatiles
    /\ length metatiles = N
    /\ forall i, (i < N)%nat -> (length attributes_data <= 4 * i)%nat ->
         exists m, metatiles !! i = Some m
           /\ convert_tileset_8x8.attributes m
              = convert_tileset_8x8.mkMetatileAttributes 0 0 0 0.
Proof.
  intros Hmd Had. unfold convert_tileset_8x8.load_metatiles.
  assert (Nat.div (length metatiles_data) 8 = N) as HN
    by (rewrite Hmd; apply Nat.div_mul; lia).
  destruct (parse_attributes_truncated metatiles_data attributes_data)
    as (attrs & Hattrs & Hl & Hzero); [by rewrite HN|].
  rewrite HN in Hl, Hzero.
  rewrite Hattrs. cbn [result_bind]. rewrite Hmd, range_step_mul by lia.
  destruct (parse_metatiles_loop_spec metatiles_data attrs N 0 [])
    as (ms & Hloop & Hlms & Hms); [lia|].
  exists ms. split; [done|]. split; [done|].
  intros i Hi Hbeyond. destruct (Hms i Hi) as (m & Hm & Hattr & _).
  exists m. split; [done|]. rewrite Hattr. cbn [Nat.add].
  by rewrite (Hzero i Hi Hbeyond).
Qed.

Lemma load_attributes_spec (attributes_data : list Byte.byte) :
  convert_map_8x8.load_attributes attributes_data
    (range_step (length attributes_data) 2) []
  = Ok (convert_map_8x8.MetatileAttributes_init <$> le16s attributes_data).
Proof.
  assert (forall n s acc,
    convert_map_8x8.load_attributes attributes_data
      ((fun k => (k * 2)%nat) <$> seq s n) acc
    = Ok (acc ++ (convert_map_8x8.MetatileAttributes_init
                    <$> le16s (take (2 * n) (drop (s * 2) attributes_data))))) as H.
  { induction n as [|n IH]; intros s acc.
    - cbn. by rewrite app_nil_r.
    - cbn [seq]. rewrite fmap_cons. cbn [convert_map_8x8.load_attributes].
      rewrite slice_take_drop.
      assert (drop (S s * 2) attributes_data
              = drop 2 (drop (s * 2) attributes_data)) as Hdrop
        by (rewrite drop_drop; f_equal; lia).
      replace (2 * S n)%nat with (S (S (2 * n))) by lia.
      destruct (drop (s * 2) attributes_data) as [|lo [|hi d]].
      + cbn [take length]. rewrite decide_False by done.
        rewrite IH, Hdrop. cbn. by destruct n.
      + cbn [take length]. rewrite decide_False by done.
        rewrite IH, Hdrop. cbn. by destruct n.
      + cbn [take length]. rewrite take_0, decide_True by done.
        change (convert_map_8x8.MetatileAttributes_from_bytes [lo; hi])
          with (Ok (convert_map_8x8.MetatileAttributes_init
                      (Z.lor (byte_val lo) (Z.shiftl (byte_val hi) 8)))).
        cbn [result_bind]. rewrite IH, Hdrop. cbn [drop le16s].
        by rewrite fmap_cons, <- app_assoc. }
  unfold range_step. rewrite H. cbn [app Nat.mul]. rewrite drop_0, take_ge; [done|].
  pose proof (Nat.div_mod_eq (length attributes_data + 2 - 1) 2) as Hdm.
  pose proof (Nat.mod_upper_bound (length attributes_data + 2 - 1) 2 ltac:(lia)). lia.
Qed.

Lemma le16s_length (l : list Byte.byte) : length (le16s l) = Nat.div (length l) 2.
Proof.
  remember (length l) as n eqn:Hn. revert l Hn.
  induction (lt_wf n) as [n _ IH]. intros l Hn.
  destruct l as [|x [|y l]]; subst n; [done..|].
  cbn [le16s length]. rewrite (IH (length l)) by (cbn; lia || done).
  change (S (S (length l))) with (1 * 2 + length l)%nat.
  by rewrite Nat.div_add_l.
Qed.

Lemma load_metatile_loop_spec (metatiles_data : list Byte.byte)
    (attributes : list convert_map_8x8.MetatileAttributes) (n s : nat)
    (tileset : convert_map_8x8.TilesetData) :
  ((s + n) * 16 <= length metatiles_data)%nat ->
  exists tileset',
    convert_map_8x8.load_metatile_loop metatiles_data attributes (seq s n) tileset
    = Ok tileset'
    /\ (forall k : Z, ~ (Z.of_nat s <= k < Z.of_nat (s + n)) ->
          convert_map_8x8.metatiles tileset' !! k
          = convert_map_8x8.metatiles tileset !! k)
    /\ forall id, (s <= id < s + n)%nat ->
         exists m,
           convert_map_8x8.metatiles tileset' !! Z.of_nat id = Some m
           /\ convert_map_8x8.metatile_id m = Z.of_nat id
           /\ convert_map_8x8.behavior m
              = convert_map_8x8.attr_behavior
                  (default (convert_map_8x8.MetatileAttributes_init 0) (attributes !! id))
           /\ convert_map_8x8.layer_type m
              = convert_map_8x8.attr_layer_type
                  (default (convert_map_8x8.MetatileAttributes_init 0) (attributes !! id))
           /\ convert_map_8x8.tiles m
              = convert_map_8x8.parse_tile
                  <$> take 4 (le16s (take 16 (drop (id * 16) metatiles_data)))
           /\ convert_map_8x8.top_tiles m
              = convert_map_8x8.parse_tile
                  <$> take 4 (drop 4 (le16s (take 16 (drop (id * 16) metatiles_data)))).
Proof.
  revert s tileset. induction n as [|n IH]; intros s tileset Hlen.
  - exists tileset. split; [done|]. split; [done|]. intros id Hid. lia.
  - cbn [seq].
    set (chunk := take 16 (drop (s * 16) metatiles_data)).
    set (attr := default (convert_map_8x8.MetatileAttributes_init 0) (attributes !! s)).
    set (m := convert_map_8x8.MetatileDefinition_init (Z.of_nat s)
                (convert_map_8x8.parse_tile <$> take 4 (le16s chunk))
                (convert_map_8x8.attr_behavior attr)
                (convert_map_8x8.attr_layer_type attr)
                (Some (convert_map_8x8.parse_tile <$> take 4 (drop 4 (le16s chunk))))).
    assert (length chunk = 16%nat) as Hchunk.
    { unfold chunk. rewrite length_take, length_drop. lia. }
    assert (convert_map_8x8.load_metatile_loop metatiles_data attributes
              (s :: seq (S s) n) tileset
            = convert_map_8x8.load_metatile_loop metatiles_data attributes (seq (S s) n)
                (convert_map_8x8.add_metatile tileset m)) as Hstep.
    { cbn [convert_map_8x8.load_metatile_loop].
      rewrite (proj2 (Nat.ltb_ge _ _)) by lia.
      rewrite slice_take_drop. fold chunk.
      unfold unpack_le_H. rewrite decide_True by (rewrite Hchunk; lia).
      cbn [result_bind]. unfold slice. rewrite drop_0. cbn [Nat.sub].
      destruct (Nat.ltb_spec s (length attributes)) as [Hin|Hout].
      - destruct (lookup_lt_is_Some_2 attributes s Hin) as [a Ha].
        unfold getitem. subst m attr. rewrite Ha. done.
      - subst m attr. rewrite (lookup_ge_None_2 attributes s Hout). done. }
    rewrite Hstep.
    destruct (IH (S s) (convert_map_8x8.add_metatile tileset m))
      as (tileset' & Hloop & Hframe & Hids); [lia|].
    exists tileset'. split; [done|]. split.
    { intros k Hk. rewrite Hframe by lia. cbn. apply lookup_insert_ne. lia. }
    intros id Hid. destruct (decide (id = s)) as [->|Hne].
    + exists m. rewrite Hframe by lia. split; [cbn; apply lookup_insert_eq|].
      split; [done|]. split; [done|]. split; [done|]. split; [done|].
      assert (length (take 4 (drop 4 (le16s chunk))) = 4%nat) as Htop.
      { rewrite length_take, length_drop, le16s_length, Hchunk. done. }
      subst m. cbn [convert_map_8x8.top_tiles convert_map_8x8.MetatileDefinition_init].
      fold chunk.
      destruct (take 4 (drop 4 (le16s chunk))) as [|? ?]; [done|reflexivity].
    + apply Hids. lia.
Qed.

(** C6.  For every metatile table implying [N] records and every
    attributes buffer shorter than [N] times the attribute record size,
    the attribute decoder yields exactly [N] attribute records and every
    record that lies beyond the supplied bytes is the all-zero default; the
    input is not rejected.  First the 4-byte variant of the tileset
    converter (8-byte metatile records), whose [load_metatiles] hands each
    of the [N] metatiles of a whole-record table its attribute record, then
    the 2-byte variant of the map converter (16-byte metatile records),
    whose tileset holds exactly the ids [0 .. N-1], each with the
    attributes of its record. *)
Theorem truncated_attributes (metatiles8 attributes4 metatiles16 attributes2 : list Byte.byte) :
  let N8 := Nat.div (length metatiles8) 8 in
  let N16 := Nat.div (length metatiles16) 16 in
  (length attributes4 < N8 * 4)%nat ->
  (length attributes2 < N16 * 2)%nat ->
  (exists attributes,
      convert_tileset_8x8.parse_attributes metatiles8 attributes4 = Ok attributes
      /\ length attributes = N8
      /\ forall i, (i < N8)%nat -> (length attributes4 <= 4 * i)%nat ->
           attributes !! i = Some (convert_tileset_8x8.mkMetatileAttributes 0 0 0 0))
  /\ (length metatiles8 = (N8 * 8)%nat ->
      exists metatiles,
        convert_tileset_8x8.load_metatiles metatiles8 (Some attributes4) = Ok metatiles
        /\ length metatiles = N8
        /\ forall i, (i < N8)%nat -> (length attributes4 <= 4 * i)%nat ->
             exists m, metatiles !! i = Some m
               /\ convert_tileset_8x8.attributes m
                  = convert_tileset_8x8.mkMetatileAttributes 0 0 0 0)
  /\ (exists tileset,
        convert_map_8x8.load_metatiles_from_pokeemerald
          (Some metatiles16) (Some attributes2) = Ok tileset
        /\ (forall k : Z,
              is_Some (convert_map_8x8.get_metatile tileset k) <-> 0 <= k < Z.of_nat N16)
        /\ forall i, (i < N16)%nat -> (length attributes2 <= 2 * i)%nat ->
             exists m,
               convert_map_8x8.get_metatile tileset (Z.of_nat i) = Some m
               /\ convert_map_8x8.behavior m = 0
               /\ convert_map_8x8.layer_type m = 0).
Proof.
  intros N8 N16 H4 H2. split; [by apply parse_attributes_truncated|].
  split; [intros Hwhole; by apply load_metatiles_truncated|].
  unfold convert_map_8x8.load_metatiles_from_pokeemerald.
  rewrite load_attributes_spec. cbn [result_bind]. fold N16.
  pose proof (Nat.Div0.mul_div_le (length metatiles16) 16) as Hdiv. fold N16 in Hdiv.
  destruct (load_metatile_loop_spec metatiles16
              (convert_map_8x8.MetatileAttributes_init <$> le16s attributes2) N16 0
              convert_map_8x8.TilesetData_init) as (tileset & Hloop & Hframe & Hids);
    [lia|].
  exists tileset. split; [done|]. split.
  - intros k. unfold convert_map_8x8.get_metatile. split.
    + intros Hsome. destruct (decide (0 <= k < Z.of_nat N16)) as [|Hout]; [done|].
      rewrite Hframe in Hsome by (rewrite Nat.add_0_l; exact Hout). cbn in Hsome.
      rewrite lookup_empty in Hsome. by destruct Hsome.
    + intros Hk. destruct (Hids (Z.to_nat k)) as (m & Hm & _); [lia|].
      rewrite Z2Nat.id in Hm by lia. by exists m.
  - intros i Hi Hbeyond. destruct (Hids i) as (m & Hm & _ & Hb & Hl & _); [lia|].
    exists m. split; [done|].
    assert ((convert_map_8x8.MetatileAttributes_init <$> le16s attributes2) !! i = None)
      as Hnone.
    { apply lookup_ge_None_2. rewrite length_fmap, le16s_length.
      pose proof (Nat.Div0.mul_div_le (length attributes2) 2). lia. }
    rewrite Hnone in Hb, Hl. by rewrite Hb, Hl.
Qed.

Lemma truncated_attributes_witness :
  exists attributes,
    convert_tileset_8x8.parse_attributes
      [ x01; x00; x02; x00; x03; x00; x04; x00; x05; x00; x06; x00; x07; x00; x08; x00 ]
      [ x07; x00; x80; x00; x09 ] = Ok attributes
    /\ length attributes = 2%nat.
Proof.
  destruct (truncated_attributes
              [ x01; x00; x02; x00; x03; x00; x04; x00; x05; x00; x06; x00; x07; x00; x08; x00 ]
              [ x07; x00; x80; x00; x09 ]
              [ x01; x00; x02; x00; x03; x00; x04; x00; x05; x00; x06; x00; x07; x00; x08; x00;
                x01; x04; x02; x08; x03; x0c; x04; x10; x05; x00; x06; x00; x07; x00; x08; x00 ]
              [ x33; x10; x01 ])
    as [(attributes & Hparse & Hlen & _) _].
  - vm_compute. lia.
  - vm_compute. lia.
  - exists attributes. split; assumption.
Defined.

(** ** Trailing remainders of record tables (C9) *)

Lemma parse_attributes_total (metatiles_data attributes_data : list Byte.byte) :
  exists attributes,
    convert_tileset_8x8.parse_attributes metatiles_data attributes_data = Ok attributes.
Proof.
  destruct (Nat.lt_ge_cases (length attributes_data)
              (Nat.div (length metatiles_data) 8 * 4)) as [Hshort|Hlong].
  - destruct (parse_attributes_truncated metatiles_data attributes_data Hshort)
      as (attrs & Hattrs & _). by exists attrs.
  - unfold convert_tileset_8x8.parse_attributes.
    rewrite (proj2 (Nat.ltb_ge _ _)) by done.
    rewrite Nat.min_r by done. rewrite range_step_mul by lia.
    destruct (parse_attributes_loop_spec attributes_data
                (Nat.div (length metatiles_data) 8) 0 []) as (attrs & Hloop & _); [lia|].
    by exists attrs.
Qed.

Lemma parse_metatiles_loop_app (metatiles_data : list Byte.byte)
    (attributes : list convert_tileset_8x8.MetatileAttributes) (l1 l2 : list nat)
    (acc : list convert_tileset_8x8.Metatile) :
  convert_tileset_8x8.parse_metatiles_loop metatiles_data attributes (l1 ++ l2) acc
  = result_bind
      (convert_tileset_8x8.parse_metatiles_loop metatiles_data attributes l1 acc)
      (convert_tileset_8x8.parse_metatiles_loop metatiles_data attributes l2).
Proof.
  revert acc. induction l1 as [|i l1 IH]; intros acc; [done|].
  cbn [app convert_tileset_8x8.parse_metatiles_loop].
  destruct (_ <? _)%nat.
  - destruct (getitem attributes _) as [a|e]; [|done]. cbn [result_bind].
    destruct (convert_tileset_8x8.Metatile_from_bytes _ a) as [m|e]; [|done].
    cbn [result_bind]. apply IH.
  - destruct (convert_tileset_8x8.Metatile_from_bytes _ _) as [m|e]; [|done].
    cbn [result_bind]. apply IH.
Qed.

Lemma Metatile_from_bytes_short (data : list Byte.byte)
    (attributes : convert_tileset_8x8.MetatileAttributes) :
  length data ≠ 8%nat ->
  convert_tileset_8x8.Metatile_from_bytes data attributes = Raise StructError.
Proof.
  intros Hlen. unfold convert_tileset_8x8.Metatile_from_bytes, unpack_le_H.
  by rewrite decide_False by lia.
Qed.

(** C9, tileset converter.  A metatile buffer whose length is not a
    multiple of the 8-byte record size is not decoded to its whole records:
    the loop over [range(0, len(metatiles_data), 8)] reaches the trailing
    remainder and [struct.unpack('<4H', ...)] raises on it, whatever the
    attributes file holds. *)
Theorem tileset_decoder_rejects_remainder (metatiles_data : list Byte.byte)
    (attributes_file : option (list Byte.byte)) :
  (length metatiles_data mod 8)%nat ≠ 0%nat ->
  convert_tileset_8x8.load_metatiles metatiles_data attributes_file = Raise StructError.
Proof.
  intros Hrem. unfold convert_tileset_8x8.load_metatiles.
  destruct (parse_attributes_total metatiles_data
              (match attributes_file with
               | Some data => data
               | None => convert_tileset_8x8.zero_records
                           (Nat.div (length metatiles_data) 8)
               end)) as [attrs Hattrs].
  rewrite Hattrs. cbn [result_bind].
  set (q := Nat.div (length metatiles_data) 8).
  pose proof (Nat.div_mod_eq (length metatiles_data) 8) as Hdm. fold q in Hdm.
  pose proof (Nat.mod_upper_bound (length metatiles_data) 8 ltac:(lia)) as Hr.
  assert (range_step (length metatiles_data) 8
          = ((fun i => (i * 8)%nat) <$> seq 0 q) ++ [(q * 8)%nat]) as ->.
  { unfold range_step.
    assert (Nat.div (length metatiles_data + 8 - 1) 8 = S q) as ->.
    { symmetry.
      apply (Nat.div_unique _ _ _ (length metatiles_data mod 8 - 1)); lia. }
    by rewrite seq_S, fmap_app. }
  rewrite parse_metatiles_loop_app.
  destruct (parse_metatiles_loop_spec metatiles_data attrs q 0 [])
    as (ms & Hloop & _); [lia|].
  rewrite Hloop. cbn [result_bind app convert_tileset_8x8.parse_metatiles_loop].
  assert (length (slice metatiles_data (q * 8) (q * 8 + 8)) ≠ 8%nat) as Hshort.
  { rewrite slice_take_drop, length_take, length_drop. lia. }
  destruct (Nat.ltb_spec (Nat.div (q * 8) 8) (length attrs)) as [Hin|Hout].
  - destruct (lookup_lt_is_Some_2 attrs _ Hin) as [a Ha].
    unfold getitem. rewrite Ha. cbn [result_bind].
    by rewrite Metatile_from_bytes_short.
  - by rewrite Metatile_from_bytes_short.
Qed.

Lemma tileset_decoder_rejects_remainder_witness :
  convert_tileset_8x8.load_metatiles
    [ x01; x00; x02; x00; x03; x00; x04; x00; x09 ] (Some [ x07; x00; x00; x00 ])
  = Raise StructError.
Proof.
  apply tileset_decoder_rejects_remainder. vm_compute. discriminate.
Defined.

(** The map converter on the same kind of input: it decodes the
    [len // 16] whole records and drops the remainder, for any attributes
    file, without raising. *)
Lemma map_decoder_whole_records (metatiles_data : list Byte.byte)
    (attributes_bin : option (list Byte.byte)) :
  exists tileset,
    convert_map_8x8.load_metatiles_from_pokeemerald (Some metatiles_data) attributes_bin
    = Ok tileset
    /\ (forall k : Z,
          is_Some (convert_map_8x8.get_metatile tileset k)
          <-> 0 <= k < Z.of_nat (Nat.div (length metatiles_data) 16))
    /\ forall id m,
         convert_map_8x8.get_metatile tileset (Z.of_nat id) = Some m ->
         convert_map_8x8.tiles m
         = convert_map_8x8.parse_tile
             <$> take 4 (le16s (take 16 (drop (id * 16) metatiles_data)))
         /\ convert_map_8x8.top_tiles m
            = convert_map_8x8.parse_tile
                <$> take 4 (drop 4 (le16s (take 16 (drop (id * 16) metatiles_data)))).
Proof.
  unfold convert_map_8x8.load_metatiles_from_pokeemerald.
  set (N := Nat.div (length metatiles_data) 16).
  pose proof (Nat.Div0.mul_div_le (length metatiles_data) 16) as Hdiv. fold N in Hdiv.
  assert (exists attrs,
            match attributes_bin with
            | Some attributes_data =>
                convert_map_8x8.load_attributes attributes_data
                  (range_step (length attributes_data) 2) []
            | None => Ok []
            end = Ok attrs) as [attrs ->].
  { destruct attributes_bin as [ad|]; [|by eexists].
    rewrite load_attributes_spec. by eexists. }
  cbn [result_bind].
  destruct (load_metatile_loop_spec metatiles_data attrs N 0
              convert_map_8x8.TilesetData_init) as (tileset & Hloop & Hframe & Hids);
    [lia|].
  exists tileset. split; [done|].
  assert (forall k : Z, is_Some (convert_map_8x8.get_metatile tileset k)
                        <-> 0 <= k < Z.of_nat N) as Hdom.
  { intros k. unfold convert_map_8x8.get_metatile. split.
    - intros Hsome. destruct (decide (0 <= k < Z.of_nat N)) as [|Hout]; [done|].
      rewrite Hframe in Hsome by (rewrite Nat.add_0_l; exact Hout). cbn in Hsome.
      rewrite lookup_empty in Hsome. by destruct Hsome.
    - intros Hk. destruct (Hids (Z.to_nat k)) as (m & Hm & _); [lia|].
      rewrite Z2Nat.id in Hm by lia. by exists m. }
  split; [done|]. intros id m Hm.
  assert (id < N)%nat as Hid.
  { assert (is_Some (convert_map_8x8.get_metatile tileset (Z.of_nat id))) as Hs
      by (by exists m).
    apply Hdom in Hs. lia. }
  destruct (Hids id) as (m' & Hm' & _ & _ & _ & Ht & Htop); [lia|].
  unfold convert_map_8x8.get_metatile in Hm.
  assert (m' = m) as -> by congruence. done.
Qed.

(** ** Border fallback and the assembled grid (C5) *)

Lemma apply_border_fallback_spec (map_data : list (list Z)) (w : nat)
    (border_tiles : option (list Z)) (default_metatile : Z) :
  Forall (fun row => length row = w) map_data ->
  match border_tile_fix.border_given border_tiles with
  | Some border => length border = 4%nat
  | None => True
  end ->
  exists result,
    border_tile_fix.apply_border_fallback map_data border_tiles default_metatile
    = Ok result
    /\ length result = length map_data
    /\ forall y x row metatile_id,
         map_data !! y = Some row -> row !! x = Some metatile_id ->
         exists row' v,
           result !! y = Some row' /\ length row' = w /\ row' !! x = Some v
           /\ (metatile_id <= 1 ->
               match border_tile_fix.border_given border_tiles with
               | Some border => border !! spec.border_index x y = Some v
               | None => v = default_metatile
               end)
           /\ (1 < metatile_id -> v = metatile_id).
Proof.
  intros Hrect Hborder. unfold border_tile_fix.apply_border_fallback.
  set (width := match map_data with [] => 0%nat | row0 :: _ => length row0 end).
  assert (map_data ≠ [] -> width = w) as Hwidth.
  { destruct map_data as [|row0 rest]; [done|]. intros _.
    by inversion Hrect. }
  destruct (for_each_spec
    (fun y : nat =>
       for_each (fun x : nat =>
         map_row <- getitem map_data y ;;
         metatile_id <- getitem map_row x ;;
         if metatile_id <=? 1 then
           match border_tile_fix.border_given border_tiles with
           | Some border =>
               border_tile_fix.get_border_metatile border (Z.of_nat x) (Z.of_nat y)
           | None => Ok default_metatile
           end
         else Ok metatile_id) (seq 0 width))
    (fun y row' =>
       forall row, map_data !! y = Some row ->
         length row' = w
         /\ forall x metatile_id, row !! x = Some metatile_id ->
              exists v, row' !! x = Some v
                /\ (metatile_id <= 1 ->
                    match border_tile_fix.border_given border_tiles with
                    | Some border => border !! spec.border_index x y = Some v
                    | None => v = default_metatile
                    end)
                /\ (1 < metatile_id -> v = metatile_id))
    (seq 0 (length map_data))) as (result & Hresult & HF).
  { apply Forall_forall. intros y [_ Hy]%elem_of_seq.
    destruct (lookup_lt_is_Some_2 map_data y ltac:(lia)) as [row Hrow].
    pose proof (Forall_lookup_1 _ _ _ _ Hrect Hrow) as Hlenrow. cbn beta in Hlenrow.
    assert (width = w) as -> by (apply Hwidth; by destruct map_data).
    destruct (for_each_spec
      (fun x : nat =>
         map_row <- getitem map_data y ;;
         metatile_id <- getitem map_row x ;;
         if metatile_id <=? 1 then
           match border_tile_fix.border_given border_tiles with
           | Some border =>
               border_tile_fix.get_border_metatile border (Z.of_nat x) (Z.of_nat y)
           | None => Ok default_metatile
           end
         else Ok metatile_id)
      (fun x v =>
         forall metatile_id, row !! x = Some metatile_id ->
           (metatile_id <= 1 ->
            match border_tile_fix.border_given border_tiles with
            | Some border => border !! spec.border_index x y = Some v
            | None => v = default_metatile
            end)
           /\ (1 < metatile_id -> v = metatile_id))
      (seq 0 w)) as (row' & Hrow' & HF').
    { apply Forall_forall. intros x [_ Hx]%elem_of_seq.
      unfold getitem at 1. rewrite Hrow. cbn [result_bind].
      destruct (lookup_lt_is_Some_2 row x ltac:(lia)) as [id Hid].
      unfold getitem. rewrite Hid. cbn [result_bind].
      destruct (Z.leb_spec id 1) as [Hle|Hgt].
      - destruct (border_tile_fix.border_given border_tiles) as [border|].
        + destruct (get_border_metatile_lookup border (Z.of_nat x) (Z.of_nat y) Hborder)
            as (v & Hv & Hlook).
          exists v. split; [done|]. intros id' Hid'.
          assert (id' = id) as -> by congruence. split; [done|lia].
        + exists default_metatile. split; [done|]. intros id' Hid'.
          assert (id' = id) as -> by congruence. split; [done|lia].
      - exists id. split; [done|]. intros id' Hid'.
        assert (id' = id) as -> by congruence. split; [lia|done]. }
    exists row'. split; [done|]. intros row0 Hrow0.
    assert (row0 = row) as -> by congruence.
    apply Forall2_seq_lookup in HF' as [Hl Hcells]. split; [done|].
    intros x id Hid. destruct (Hcells x) as (v & Hv & Hrule).
    { apply lookup_lt_Some in Hid. lia. }
    exists v. split; [done|]. by apply Hrule. }
  exists result. split; [done|].
  apply Forall2_seq_lookup in HF as [Hl Hrows]. split; [done|].
  intros y x row id Hrow Hid.
  destruct (Hrows y) as (row' & Hrow' & Hrule); [by apply lookup_lt_Some in Hrow|].
  destruct (Hrule row Hrow) as [Hlen Hcells].
  destruct (Hcells x id Hid) as (v & Hv & Hr).
  by exists row', v.
Qed.

Lemma layer_cell_decoded (map_data : list (list Z)) (tileset : convert_map_8x8.TilesetData)
    (y x : nat) (row : list Z) (raw_value : Z) :
  map_data !! Nat.div y 2 = Some row ->
  row !! Nat.div x 2 = Some raw_value ->
  convert_map_8x8.layer_cell map_data tileset (y, x)
  = Ok (spec.decoded_refs tileset raw_value ((y mod 2) * 2 + x mod 2)).
Proof.
  intros Hrow Hraw. unfold convert_map_8x8.layer_cell, spec.decoded_refs.
  cbn [fst snd]. unfold getitem. rewrite Hrow. cbn [result_bind].
  rewrite Hraw. cbn [result_bind].
  destruct (convert_map_8x8.get_metatile tileset _) as [m|]; [|done].
  cbn [mbind option_bind fst snd]. f_equal. f_equal.
  - f_equal. destruct (Nat.ltb_spec ((y mod 2) * 2 + x mod 2)
                         (length (convert_map_8x8.tiles m))) as [|Hge]; [done|].
    symmetry. by apply lookup_ge_None_2.
  - f_equal. destruct (Nat.ltb_spec ((y mod 2) * 2 + x mod 2)
                         (length (convert_map_8x8.top_tiles m))) as [|Hge]; [done|].
    symmetry. by apply lookup_ge_None_2.
Qed.

Lemma div_2_lt (a h : nat) : (Nat.div a 2 < h)%nat <-> (a < h * 2)%nat.
Proof.
  pose proof (Nat.div_mod_eq a 2).
  pose proof (Nat.mod_upper_bound a 2 ltac:(lia)). lia.
Qed.

Lemma layer_loop_decoded (map_data : list (list Z)) (w : nat)
    (tileset : convert_map_8x8.TilesetData) :
  Forall (fun row => length row = w) map_data ->
  exists layers,
    for_each (convert_map_8x8.layer_cell map_data tileset)
      (convert_map_8x8.grid_cells (length map_data * 2) (w * 2)) = Ok layers
    /\ length layers = (length map_data * 2 * (w * 2))%nat
    /\ forall y x row raw_value,
         map_data !! Nat.div y 2 = Some row ->
         row !! Nat.div x 2 = Some raw_value ->
         layers !! (y * (w * 2) + x)%nat
         = Some (spec.decoded_refs tileset raw_value ((y mod 2) * 2 + x mod 2)).
Proof.
  intros Hrect.
  destruct (for_each_spec (convert_map_8x8.layer_cell map_data tileset)
    (fun yx refs =>
       forall row raw_value,
         map_data !! Nat.div yx.1 2 = Some row ->
         row !! Nat.div yx.2 2 = Some raw_value ->
         refs = spec.decoded_refs tileset raw_value ((yx.1 mod 2) * 2 + yx.2 mod 2))
    (convert_map_8x8.grid_cells (length map_data * 2) (w * 2))) as (layers & Hl & HF).
  { apply Forall_forall. intros [y x] [Hy Hx]%grid_cells_elem.
    apply div_2_lt in Hy, Hx.
    destruct (lookup_lt_is_Some_2 map_data _ Hy) as [row Hrow].
    pose proof (Forall_lookup_1 _ _ _ _ Hrect Hrow) as Hlenrow. cbn beta in Hlenrow.
    destruct (lookup_lt_is_Some_2 row (Nat.div x 2) ltac:(lia)) as [raw Hraw].
    eexists. split; [by apply (layer_cell_decoded _ _ _ _ row raw)|].
    cbn [fst snd]. intros row' raw' Hrow' Hraw'.
    assert (row' = row) as -> by congruence.
    assert (raw' = raw) as -> by congruence. done. }
  exists layers. split; [done|].
  split; [by rewrite <- (Forall2_length _ _ _ HF), grid_cells_length|].
  intros y x row raw Hrow Hraw.
  pose proof (lookup_lt_Some _ _ _ Hrow) as Hy. apply div_2_lt in Hy.
  pose proof (Forall_lookup_1 _ _ _ _ Hrect Hrow) as Hlenrow. cbn beta in Hlenrow.
  pose proof (lookup_lt_Some _ _ _ Hraw) as Hx. rewrite Hlenrow in Hx.
  apply div_2_lt in Hx.
  destruct (Forall2_lookup_l _ _ _ _ _ HF (grid_cells_lookup _ _ y x Hy Hx))
    as (refs & Hrefs & Hrule).
  rewrite Hrefs. f_equal. by apply (Hrule row raw).
Qed.

Lemma assembler_ignores_border (width height : nat) (map_bin : list Byte.byte)
    (border1 border2 : option (list Byte.byte))
    (primary_metatiles_bin primary_attributes_bin : option (list Byte.byte))
    (secondary : option (option (list Byte.byte) * option (list Byte.byte))) :
  match convert_map_8x8.convert_pokeemerald_map width height map_bin border1
          primary_metatiles_bin primary_attributes_bin secondary,
        convert_map_8x8.convert_pokeemerald_map width height map_bin border2
          primary_metatiles_bin primary_attributes_bin secondary with
  | Ok map1, Ok map2 =>
      convert_map_8x8.bottom_layer_data map1 = convert_map_8x8.bottom_layer_data map2
      /\ convert_map_8x8.top_layer_data map1 = convert_map_8x8.top_layer_data map2
  | Raise e1, Raise e2 => e1 = e2
  | _, _ => False
  end.
Proof.
  unfold convert_map_8x8.convert_pokeemerald_map.
  destruct (convert_map_8x8.load_map_bin _ _ _) as [map_data|e]; [|done].
  cbn [result_bind].
  destruct (convert_map_8x8.load_metatiles_from_pokeemerald _ _) as [primary|e]; [|done].
  cbn [result_bind].
  destruct (match secondary with Some _ => _ | None => _ end) as [sec|e]; [|done].
  cbn [result_bind].
  destruct (for_each _ _) as [layers|e]; [|done]. cbn [result_bind].
  destruct (convert_map_8x8.metatile_object_loop _ _ _ _) as [objs|e]; [|done].
  cbn. done.
Qed.




(** ** Palette lookup and its fallback (C7) *)

Lemma foldr_min_spec (l : list Z) :
  match foldr (fun k acc => Some (from_option (Z.min k) k acc)) None l with
  | None => l = []
  | Some lowest => lowest ∈ l /\ forall j, j ∈ l -> lowest <= j
  end.
Proof.
  induction l as [|k l IH]; [done|]. cbn [foldr].
  destruct (foldr _ None l) as [m|].
  - destruct IH as [Hin Hmin]. cbn [from_option]. split.
    + destruct (Z.min_spec k m) as [[_ ->]|[_ ->]]; [left|by right].
    + intros j [->|Hj]%elem_of_cons; [lia|]. specialize (Hmin j Hj). lia.
  - subst l. cbn. split; [left|]. intros j Hj%list_elem_of_singleton. lia.
Qed.

Lemma min_key_spec (palettes : gmap Z render_tileset_with_palettes.palette) :
  match apply_palettes.min_key palettes with
  | None => palettes = ∅
  | Some lowest =>
      is_Some (palettes !! lowest)
      /\ forall j, is_Some (palettes !! j) -> lowest <= j
  end.
Proof.
  unfold apply_palettes.min_key.
  pose proof (foldr_min_spec (elements (dom palettes))) as H.
  destruct (foldr _ None _) as [lowest|].
  - destruct H as [Hin Hmin]. split.
    + by apply elem_of_dom, elem_of_elements.
    + intros j Hj. by apply Hmin, elem_of_elements, elem_of_dom.
  - apply elements_empty_inv in H. by apply dom_empty_inv in H.
Qed.

Lemma job_prints_no_warning
    (zlib_decompress : list Byte.byte -> result (list Byte.byte))
    (tiles_png palettes_dir output_png : string) (png_data : list Byte.byte)
    (palettes : gmap Z render_tileset_with_palettes.palette)
    (metatiles_data : list Byte.byte) (tile_offset : Z) :
  Forall (fun line => spec.is_warning line = false)
    (render_tileset_with_palettes.render_tileset_with_palettes zlib_decompress
       tiles_png palettes_dir output_png png_data palettes metatiles_data tile_offset).1.
Proof.
  unfold render_tileset_with_palettes.render_tileset_with_palettes.
  destruct (render_tileset_with_palettes.read_png_indexed_data _ _)
    as [[[[width height] pixels] plte]|e]; cbn [fst].
  - destruct (0 <? tile_offset);
      destruct (render_tileset_with_palettes.render_rows _ _ _ _ _ _); cbn [fst app];
      repeat constructor.
  - repeat constructor.
Qed.

(** C7, as the code has it.  In the renderer a requested key that is
    absent from a store holding palette 0 resolves to palette 0 without an
    error, and 0 is the lowest-numbered key of a store whose keys are not
    negative.  In [apply_palette_to_png] the palette applied from a
    non-empty store is palette 0 when present and otherwise the palette of
    the lowest-numbered key.  No line printed by a rendering job is a
    warning, whichever keys are missing. *)
Theorem palette_fallback (palettes : gmap Z render_tileset_with_palettes.palette) :
  (forall palette_idx palette0,
      palettes !! 0 = Some palette0 ->
      palettes !! palette_idx = None ->
      render_tileset_with_palettes.palettes_get palettes palette_idx = Ok palette0
      /\ ((forall j, is_Some (palettes !! j) -> 0 <= j) ->
          apply_palettes.min_key palettes = Some 0))
  /\ (palettes ≠ ∅ ->
      exists lowest palette,
        apply_palettes.min_key palettes = Some lowest
        /\ (forall j, is_Some (palettes !! j) -> lowest <= j)
        /\ apply_palettes.default_palette palettes = Ok palette
        /\ palettes !! (if decide (is_Some (palettes !! 0)) then 0 else lowest)
           = Some palette)
  /\ (forall zlib_decompress tiles_png palettes_dir output_png png_data
             metatiles_data tile_offset,
        Forall (fun line => spec.is_warning line = false)
          (render_tileset_with_palettes.render_tileset_with_palettes zlib_decompress
             tiles_png palettes_dir output_png png_data palettes metatiles_data
             tile_offset).1).
Proof.
  split; [|split].
  - intros k p0 H0 Hk. split.
    + unfold render_tileset_with_palettes.palettes_get. by rewrite H0, Hk.
    + intros Hnonneg. pose proof (min_key_spec palettes) as Hmin.
      destruct (apply_palettes.min_key palettes) as [lowest|].
      * destruct Hmin as [Hin Hle]. f_equal.
        specialize (Hnonneg lowest Hin). specialize (Hle 0 ltac:(by exists p0)). lia.
      * subst palettes. by rewrite lookup_empty in H0.
  - intros Hne. pose proof (min_key_spec palettes) as Hmin.
    unfold apply_palettes.default_palette. rewrite decide_False by done.
    destruct (apply_palettes.min_key palettes) as [lowest|]; [|done].
    destruct Hmin as [[pl Hpl] Hle]. cbn [from_option result_bind].
    rewrite Hpl. cbn [from_option result_bind].
    exists lowest. eexists. split; [done|]. split; [done|]. split; [done|].
    destruct (decide (is_Some (palettes !! 0))) as [[p0 H0]|Hnone].
    + by rewrite H0.
    + apply eq_None_not_Some in Hnone. by rewrite Hnone.
  - intros. apply job_prints_no_warning.
Qed.

(** A job whose only tile asks for palette key 3 while the store holds
    palette 0 only: the job completes with the fallback, and the lines it
    prints contain no warning for the missing key. *)
Lemma missing_key_records_no_warning :
  render_tileset_with_palettes.get_tile_palette_index samples.metatiles_key3 0 = Ok 3
  /\ samples.palette_store !! 3 = None
  /\ (exists rgba_pixels,
       render_tileset_with_palettes.render_tileset_with_palettes zlib.decompress_stored
         "tiles.png" "palettes" "out.png" samples.indexed_png samples.palette_store
         samples.metatiles_key3 0
       = ([ "Loading indexed PNG: tiles.png"; "Loading palettes from: palettes";
            "Loaded 1 palettes"; "[OK] Rendered tileset to out.png" ],
          Ok rgba_pixels))
  /\ List.filter spec.is_warning
       [ "Loading indexed PNG: tiles.png"; "Loading palettes from: palettes";
         "Loaded 1 palettes"; "[OK] Rendered tileset to out.png" ] = [].
Proof.
  split; [reflexivity|]. split; [reflexivity|]. split; [|reflexivity].
  eexists. vm_compute. reflexivity.
Qed.

(** ** The indexed decoder and the declared colour mode (C8) *)

Lemma read_chunks_step (fuel : nat) (png_data : list Byte.byte) (pos : nat)
    (palette_data : option (list Byte.byte)) (idat_data : list Byte.byte) :
  (pos < length png_data)%nat ->
  render_tileset_with_palettes.read_chunks (S fuel) png_data pos palette_data idat_data
  = result_bind (unpack_be_I (slice png_data pos (pos + 4))) (fun len =>
      let chunk_type := slice png_data (pos + 4) (pos + 8) in
      let chunk_data := slice png_data (pos + 8) (pos + 8 + Z.to_nat len) in
      let next := (pos + (12 + Z.to_nat len))%nat in
      if decide (chunk_type = render_tileset_with_palettes.PLTE) then
        render_tileset_with_palettes.read_chunks fuel png_data next
          (Some chunk_data) idat_data
      else if decide (chunk_type = render_tileset_with_palettes.IDAT) then
        render_tileset_with_palettes.read_chunks fuel png_data next palette_data
          (idat_data ++ chunk_data)
      else
        render_tileset_with_palettes.read_chunks fuel png_data next palette_data
          idat_data).
Proof.
  intros Hpos. cbn [render_tileset_with_palettes.read_chunks].
  by rewrite (proj2 (Nat.ltb_lt _ _) Hpos).
Qed.

Lemma read_chunks_done (fuel : nat) (png_data : list Byte.byte) (pos : nat)
    (palette_data : option (list Byte.byte)) (idat_data : list Byte.byte) :
  (length png_data <= pos)%nat ->
  render_tileset_with_palettes.read_chunks fuel png_data pos palette_data idat_data
  = Ok (palette_data, idat_data).
Proof.
  intros Hpos. destruct fuel; cbn [render_tileset_with_palettes.read_chunks];
    by rewrite (proj2 (Nat.ltb_ge _ _) Hpos).
Qed.

(** The fuel of the chunk loop is never the reason it stops: any two
    amounts that cover the bytes left give the same result. *)
Lemma read_chunks_fuel (fuel1 fuel2 : nat) (png_data : list Byte.byte) (pos : nat)
    (palette_data : option (list Byte.byte)) (idat_data : list Byte.byte) :
  (length png_data - pos <= fuel1)%nat ->
  (length png_data - pos <= fuel2)%nat ->
  render_tileset_with_palettes.read_chunks fuel1 png_data pos palette_data idat_data
  = render_tileset_with_palettes.read_chunks fuel2 png_data pos palette_data idat_data.
Proof.
  revert fuel2 pos palette_data idat_data.
  induction fuel1 as [|fuel1 IH]; intros fuel2 pos palette_data idat_data H1 H2.
  - by rewrite !read_chunks_done by lia.
  - destruct (Nat.lt_ge_cases pos (length png_data)) as [Hlt|Hge];
      [|by rewrite !read_chunks_done by lia].
    destruct fuel2 as [|fuel2]; [lia|].
    rewrite !read_chunks_step by done.
    destruct (unpack_be_I _) as [len|e]; [|done]. cbn [result_bind].
    repeat case_decide; apply IH; lia.
Qed.

Lemma slice_agree {A : Type} (l1 l2 : list A) (pos a b : nat) :
  drop pos l1 = drop pos l2 -> (pos <= a)%nat -> slice l1 a b = slice l2 a b.
Proof.
  intros Hdrop Ha. unfold slice. f_equal.
  replace a with (pos + (a - pos))%nat by lia.
  by rewrite <- !drop_drop, Hdrop.
Qed.

Lemma read_chunks_agree (fuel : nat) (png1 png2 : list Byte.byte) (pos : nat)
    (palette_data : option (list Byte.byte)) (idat_data : list Byte.byte) :
  length png1 = length png2 ->
  drop pos png1 = drop pos png2 ->
  render_tileset_with_palettes.read_chunks fuel png1 pos palette_data idat_data
  = render_tileset_with_palettes.read_chunks fuel png2 pos palette_data idat_data.
Proof.
  intros Hlen. revert pos palette_data idat_data.
  induction fuel as [|fuel IH]; intros pos palette_data idat_data Hdrop.
  - cbn. by rewrite Hlen.
  - destruct (Nat.lt_ge_cases pos (length png1)) as [Hlt|Hge];
      [|by rewrite !read_chunks_done by lia].
    rewrite !read_chunks_step by lia.
    rewrite (slice_agree png1 png2 pos pos) by done.
    destruct (unpack_be_I _) as [len|e]; [|done]. cbn [result_bind].
    rewrite (slice_agree png1 png2 pos (pos + 4)) by (done || lia).
    rewrite (slice_agree png1 png2 pos (pos + 8)) by (done || lia).
    assert (drop (pos + (12 + Z.to_nat len)) png1
            = drop (pos + (12 + Z.to_nat len)) png2) as Hnext
      by (by rewrite <- !drop_drop, Hdrop).
    repeat case_decide; by apply IH.
Qed.

(** C8, as the code has it.  The indexed-path decoder never looks at the
    colour mode that the header chunk declares: replacing the declared bit
    depth and colour type by any other pair leaves its result unchanged,
    for any DEFLATE implementation and any container, so a container that
    decodes as 4-bit indexed also decodes, to the same raster, when it
    declares another mode. *)
Theorem decoder_ignores_color_mode
    (zlib_decompress : list Byte.byte -> result (list Byte.byte))
    (w3 w2 w1 w0 h3 h2 h1 h0 bit_depth color_type bit_depth' color_type' : Byte.byte)
    (rest : list Byte.byte) :
  render_tileset_with_palettes.read_png_indexed_data zlib_decompress
    (spec.container w3 w2 w1 w0 h3 h2 h1 h0 bit_depth color_type rest)
  = render_tileset_with_palettes.read_png_indexed_data zlib_decompress
      (spec.container w3 w2 w1 w0 h3 h2 h1 h0 bit_depth' color_type' rest).
Proof.
  set (png1 := spec.container _ _ _ _ _ _ _ _ bit_depth color_type rest).
  set (png2 := spec.container _ _ _ _ _ _ _ _ bit_depth' color_type' rest).
  assert (length png1 = S (25 + length rest)) as Hlen1 by reflexivity.
  assert (length png2 = S (25 + length rest)) as Hlen2 by reflexivity.
  assert (take 24 png1 = take 24 png2) as Htake by reflexivity.
  assert (slice png1 8 (8 + 4) = [x00; x00; x00; x0d]) as Hl1 by reflexivity.
  assert (slice png2 8 (8 + 4) = [x00; x00; x00; x0d]) as Hl2 by reflexivity.
  assert (slice png1 (8 + 4) (8 + 8) = [x49; x48; x44; x52]) as Ht1 by reflexivity.
  assert (slice png2 (8 + 4) (8 + 8) = [x49; x48; x44; x52]) as Ht2 by reflexivity.
  assert (drop 33 png1 = drop 33 png2) as Hdrop by reflexivity.
  clearbody png1 png2.
  assert (forall a b, (a <= b <= 24)%nat -> slice png1 a b = slice png2 a b) as Hhead.
  { intros a b Hb. unfold slice.
    rewrite (take_drop_commute png1), (take_drop_commute png2). f_equal.
    replace (take (a + (b - a)) png1) with (take (a + (b - a)) (take 24 png1))
      by (rewrite take_take; f_equal; lia).
    replace (take (a + (b - a)) png2) with (take (a + (b - a)) (take 24 png2))
      by (rewrite take_take; f_equal; lia).
    by rewrite Htake. }
  assert (render_tileset_with_palettes.read_chunks (length png1) png1 8 None []
          = render_tileset_with_palettes.read_chunks (length png2) png2 8 None [])
    as Hchunks.
  { rewrite Hlen1, Hlen2.
    rewrite !read_chunks_step by lia.
    rewrite Hl1, Hl2, Ht1, Ht2.
    change (unpack_be_I [x00; x00; x00; x0d]) with (@Ok Z 13).
    cbn [result_bind]. cbv zeta.
    rewrite !decide_False by discriminate.
    apply read_chunks_agree; [congruence|].
    change (8 + (12 + Z.to_nat 13))%nat with 33%nat. exact Hdrop. }
  unfold render_tileset_with_palettes.read_png_indexed_data.
  rewrite (Hhead 0%nat 8%nat), (Hhead 16%nat 20%nat), (Hhead 20%nat 24%nat) by lia.
  rewrite Hchunks. reflexivity.
Qed.

(** A well-formed 2x1 container that declares 8-bit truecolor (colour
    type 2) with the scanline [00 12 34 56 ab cd ef]: the decoder does not
    raise; it returns the two nibbles of the first colour byte as if they
    were two 4-bit palette indices. *)
Lemma truecolor_container_is_reinterpreted :
  render_tileset_with_palettes.read_png_indexed_data zlib.decompress_stored
    samples.truecolor_png = Ok (2, 1, [[1; 2]], None).
Proof. vm_compute. reflexivity. Qed.

(** ** Decoded rasters *)

Lemma unpack_nibbles_range (v : Z) :
  Forall (fun c => 0 <= c < 16) (render_tileset_with_palettes.unpack_nibbles v).
Proof.
  unfold render_tileset_with_palettes.unpack_nibbles.
  change 15 with (Z.ones 4). rewrite !Z.land_ones by lia.
  repeat constructor; apply Z.mod_pos_bound; lia.
Qed.

(** Every raster the decoder returns has [height] rows of colour indices
    between 0 and 15, which is what the compositing path assumes of its
    pixels. *)
Lemma read_png_pixels_range
    (zlib_decompress : list Byte.byte -> result (list Byte.byte))
    (png_data : list Byte.byte) (width height : Z) (pixels : list (list Z))
    (palette_data : option (list Byte.byte)) :
  render_tileset_with_palettes.read_png_indexed_data zlib_decompress png_data
  = Ok (width, height, pixels, palette_data) ->
  length pixels = Z.to_nat height
  /\ Forall (Forall (fun c => 0 <= c < 16)) pixels.
Proof.
  unfold render_tileset_with_palettes.read_png_indexed_data.
  case_decide; [done|].
  destruct (unpack_be_I _) as [w|e]; [|done]. cbn [result_bind].
  destruct (unpack_be_I _) as [h|e]; [|done]. cbn [result_bind].
  destruct (render_tileset_with_palettes.read_chunks _ _ _ _ _) as [chunks|e]; [|done].
  cbn [result_bind].
  destruct (zlib_decompress _) as [raw_data|e]; [|done]. cbn [result_bind].
  intros [= -> -> <- <-]. split; [by rewrite length_fmap, length_seq|].
  apply Forall_fmap, Forall_forall. intros y _. cbn beta.
  apply Forall_take, Forall_bind, Forall_forall. intros b _.
  apply unpack_nibbles_range.
Qed.

Example indexed_png_decodes :
  render_tileset_with_palettes.read_png_indexed_data zlib.decompress_stored
    samples.indexed_png
  = Ok (8, 8, samples.indexed_pixels,
        Some [x00; x00; x00; xff; x00; x00; x00; xff; x00]).
Proof. vm_compute. reflexivity. Qed.

(** * Further properties of the tools *)

(** ** Bytes and [struct] *)

Lemma byte_val_range (b : Byte.byte) : 0 <= byte_val b < 256.
Proof. unfold byte_val. pose proof (Byte.to_N_bounded b). lia. Qed.

Lemma byte_val_of_Z (z : Z) : byte_val (byte_of_Z z) = z mod 256.
Proof.
  unfold byte_val, byte_of_Z.
  pose proof (Z.mod_pos_bound z 256 ltac:(lia)) as Hm.
  destruct (Byte.of_N (Z.to_N (z mod 256))) as [b|] eqn:Hb.
  - apply Byte.to_of_N in Hb. cbn [default from_option id]. rewrite Hb. lia.
  - apply Byte.of_N_None_iff in Hb. lia.
Qed.

Lemma byte_of_Z_val (b : Byte.byte) : byte_of_Z (byte_val b) = b.
Proof.
  unfold byte_of_Z, byte_val.
  pose proof (Byte.to_N_bounded b).
  rewrite Z.mod_small by lia. rewrite N2Z.id, Byte.of_to_N. done.
Qed.

Lemma mod_256_testbit (z k : Z) :
  0 <= k -> Z.testbit (z mod 256) k = if k <? 8 then Z.testbit z k else false.
Proof.
  intros Hk. change 256 with (2 ^ 8).
  destruct (Z.ltb_spec k 8).
  - by rewrite Z.mod_pow2_bits_low.
  - by rewrite Z.mod_pow2_bits_high.
Qed.

Lemma unpack_pack_be_I (n : Z) :
  0 <= n < 2 ^ 32 ->
  exists b3 b2 b1 b0,
    pack_be_I n = Ok [b3; b2; b1; b0] /\ unpack_be_I [b3; b2; b1; b0] = Ok n.
Proof.
  intros Hn. unfold pack_be_I.
  rewrite (proj2 (Z.leb_le 0 n)), (proj2 (Z.ltb_lt n (2 ^ 32))) by lia.
  cbn [andb]. do 4 eexists. split; [done|].
  cbn [unpack_be_I]. f_equal. rewrite !byte_val_of_Z.
  apply Z.bits_inj'. intros k Hk.
  rewrite !Z.lor_spec.
  destruct (Z.lt_ge_cases k 8).
  { rewrite !Z.shiftl_spec_low by lia. rewrite mod_256_testbit by lia.
    rewrite (proj2 (Z.ltb_lt k 8)) by lia. done. }
  rewrite (mod_256_testbit n) by lia. rewrite (proj2 (Z.ltb_ge k 8)) by lia.
  rewrite orb_false_r.
  destruct (Z.lt_ge_cases k 16).
  { rewrite !Z.shiftl_spec_low by lia. rewrite Z.shiftl_spec by lia.
    rewrite mod_256_testbit, Z.shiftr_spec by lia.
    rewrite (proj2 (Z.ltb_lt (k - 8) 8)) by lia. cbn [orb]. f_equal. lia. }
  rewrite (Z.shiftl_spec _ 8) by lia. rewrite mod_256_testbit by lia.
  rewrite (proj2 (Z.ltb_ge (k - 8) 8)) by lia. rewrite orb_false_r.
  destruct (Z.lt_ge_cases k 24).
  { rewrite Z.shiftl_spec_low by lia. rewrite Z.shiftl_spec by lia.
    rewrite mod_256_testbit, Z.shiftr_spec by lia.
    rewrite (proj2 (Z.ltb_lt (k - 16) 8)) by lia. cbn [orb]. f_equal. lia. }
  rewrite (Z.shiftl_spec _ 16) by lia. rewrite mod_256_testbit by lia.
  rewrite (proj2 (Z.ltb_ge (k - 16) 8)) by lia. rewrite orb_false_r.
  rewrite Z.shiftl_spec by lia. rewrite mod_256_testbit, Z.shiftr_spec by lia.
  destruct (Z.ltb_spec (k - 24) 8).
  - f_equal. lia.
  - symmetry. apply (testbit_high n k 32); lia.
Qed.

Lemma pack_be_I_length (n : Z) (bs : list Byte.byte) :
  pack_be_I n = Ok bs -> length bs = 4%nat /\ 0 <= n < 2 ^ 32.
Proof.
  unfold pack_be_I. destruct (Z.leb_spec 0 n); [|done].
  destruct (Z.ltb_spec n (2 ^ 32)); [|done]. cbn [andb].
  intros [= <-]. split; [done|lia].
Qed.

Lemma le16_value (lo hi : Byte.byte) :
  Z.lor (byte_val lo) (Z.shiftl (byte_val hi) 8) = byte_val lo + 256 * byte_val hi.
Proof.
  pose proof (byte_val_range lo) as Hlo. pose proof (byte_val_range hi) as Hhi.
  rewrite <- Z.lxor_lor, <- Z.add_nocarry_lxor.
  - rewrite Z.shiftl_mul_pow2 by lia. change (2 ^ 8) with 256. lia.
  - apply Z.bits_inj'. intros k Hk. rewrite Z.land_spec, Z.bits_0.
    destruct (Z.lt_ge_cases k 8).
    + rewrite Z.shiftl_spec_low by lia. apply andb_false_r.
    + rewrite (testbit_high (byte_val lo) k 8) by lia. done.
  - apply Z.bits_inj'. intros k Hk. rewrite Z.land_spec, Z.bits_0.
    destruct (Z.lt_ge_cases k 8).
    + rewrite Z.shiftl_spec_low by lia. apply andb_false_r.
    + rewrite (testbit_high (byte_val lo) k 8) by lia. done.
Qed.

Lemma le16s_lookup (data : list Byte.byte) (k : nat) (lo hi : Byte.byte) :
  data !! (2 * k)%nat = Some lo -> data !! (2 * k + 1)%nat = Some hi ->
  le16s data !! k = Some (byte_val lo + 256 * byte_val hi).
Proof.
  revert data. induction k as [|k IH]; intros data Hlo Hhi.
  - destruct data as [|x [|y data]]; try done. cbn in Hlo, Hhi.
    injection Hlo as ->. injection Hhi as ->. cbn. by rewrite le16_value.
  - destruct data as [|x [|y data]];
      [apply lookup_lt_Some in Hlo; cbn in Hlo; lia..|].
    cbn [le16s]. cbn [lookup list_lookup]. apply IH.
    + replace (2 * S k)%nat with (S (S (2 * k))) in Hlo by lia. done.
    + replace (2 * S k + 1)%nat with (S (S (2 * k + 1))) in Hhi by lia. done.
Qed.

(** ** border.bin and map.bin *)

(** A border file shorter than 8 bytes is rejected with [ValueError].
    Otherwise the pattern has exactly four ids, id [i] being the low 10
    bits of the little-endian word at byte offset [2 * i] (whatever follows
    the first 8 bytes is ignored), and the checkerboard lookup then
    succeeds at every coordinate with one of the four ids. *)
Theorem load_border_bin_pattern (file : list Byte.byte) :
  ((length file < 8)%nat /\ border_tile_fix.load_border_bin file = Raise ValueError)
  \/ ((8 <= length file)%nat
      /\ exists border,
           border_tile_fix.load_border_bin file = Ok border
           /\ length border = 4%nat
           /\ (forall i id, border !! i = Some id ->
                 exists lo hi,
                   file !! (2 * i)%nat = Some lo /\ file !! (2 * i + 1)%nat = Some hi
                   /\ id = (byte_val lo + 256 * byte_val hi) mod 1024)
           /\ forall x y, exists v,
                border_tile_fix.get_border_metatile border x y = Ok v /\ v ∈ border).
Proof.
  destruct (Nat.lt_ge_cases (length file) 8) as [Hshort|Hlong].
  - left. split; [done|]. unfold border_tile_fix.load_border_bin.
    rewrite (proj2 (Nat.ltb_lt _ _)); [done|]. rewrite length_take. lia.
  - right. split; [done|].
    destruct file as [|b0 [|b1 [|b2 [|b3 [|b4 [|b5 [|b6 [|b7 rest]]]]]]]];
      try (cbn in Hlong; lia).
    exists [ Z.land (Z.lor (byte_val b0) (Z.shiftl (byte_val b1) 8)) 0x3FF;
             Z.land (Z.lor (byte_val b2) (Z.shiftl (byte_val b3) 8)) 0x3FF;
             Z.land (Z.lor (byte_val b4) (Z.shiftl (byte_val b5) 8)) 0x3FF;
             Z.land (Z.lor (byte_val b6) (Z.shiftl (byte_val b7) 8)) 0x3FF ].
    split; [reflexivity|]. split; [done|]. split.
    + intros i id Hid.
      assert (forall lo hi, Z.land (Z.lor (byte_val lo) (Z.shiftl (byte_val hi) 8)) 1023
                            = (byte_val lo + 256 * byte_val hi) mod 1024) as Hword.
      { intros lo hi. change 1023 with (Z.ones 10).
        by rewrite Z.land_ones, le16_value by lia. }
      destruct i as [|[|[|[|i]]]]; cbn in Hid; try done;
        injection Hid as <-; do 2 eexists; (split; [reflexivity|]);
        (split; [reflexivity|]); apply Hword.
    + intros x y.
      destruct (get_border_metatile_lookup
                  [ Z.land (Z.lor (byte_val b0) (Z.shiftl (byte_val b1) 8)) 0x3FF;
                    Z.land (Z.lor (byte_val b2) (Z.shiftl (byte_val b3) 8)) 0x3FF;
                    Z.land (Z.lor (byte_val b4) (Z.shiftl (byte_val b5) 8)) 0x3FF;
                    Z.land (Z.lor (byte_val b6) (Z.shiftl (byte_val b7) 8)) 0x3FF ]
                  x y) as (v & Hv & Hlook); [done|].
      exists v. split; [exact Hv|]. by apply list_elem_of_lookup_2 in Hlook.
Qed.

Lemma load_map_bin_short (data : list Byte.byte) (width height : nat) :
  (length data < 2 * (width * height))%nat ->
  convert_map_8x8.load_map_bin data width height = Raise StructError.
Proof.
  intros Hshort. unfold convert_map_8x8.load_map_bin, unpack_le_H, slice.
  rewrite drop_0, decide_False; [done|]. rewrite length_take. lia.
Qed.

Lemma load_map_bin_rows (data : list Byte.byte) (width height : nat) :
  (2 * (width * height) <= length data)%nat ->
  exists rows,
    convert_map_8x8.load_map_bin data width height = Ok rows
    /\ length rows = height
    /\ Forall (fun row => length row = width) rows
    /\ forall y x, (y < height)%nat -> (x < width)%nat ->
         exists row lo hi,
           rows !! y = Some row
           /\ data !! (2 * (y * width + x))%nat = Some lo
           /\ data !! (2 * (y * width + x) + 1)%nat = Some hi
           /\ row !! x = Some (byte_val lo + 256 * byte_val hi).
Proof.
  intros Hlong. unfold convert_map_8x8.load_map_bin, unpack_le_H, slice.
  rewrite drop_0.
  replace (width * height * 2 - 0)%nat with (2 * (width * height))%nat by lia.
  rewrite decide_True by (rewrite length_take; lia). cbn [result_bind].
  set (raw_values := le16s (take (2 * (width * height)) data)).
  assert (forall y x, (y < height)%nat -> (x < width)%nat ->
            exists lo hi,
              data !! (2 * (y * width + x))%nat = Some lo
              /\ data !! (2 * (y * width + x) + 1)%nat = Some hi
              /\ raw_values !! (y * width + x)%nat
                 = Some (byte_val lo + 256 * byte_val hi)) as Hcell.
  { intros y x Hy Hx. assert (y * width + x < width * height)%nat as Hidx by nia.
    destruct (lookup_lt_is_Some_2 data (2 * (y * width + x)) ltac:(lia)) as [lo Hlo].
    destruct (lookup_lt_is_Some_2 data (2 * (y * width + x) + 1) ltac:(lia)) as [hi Hhi].
    exists lo, hi. split; [done|]. split; [done|].
    apply le16s_lookup; by rewrite lookup_take_lt by lia. }
  destruct (for_each_spec
    (fun y : nat =>
       for_each (fun x : nat => getitem raw_values (y * width + x)) (seq 0 width))
    (fun y row =>
       length row = width
       /\ forall x, (x < width)%nat -> row !! x = raw_values !! (y * width + x)%nat)
    (seq 0 height)) as (rows & Hrows & HF).
  { apply Forall_forall. intros y [_ Hy]%elem_of_seq.
    destruct (for_each_spec (fun x : nat => getitem raw_values (y * width + x))
                (fun x v => raw_values !! (y * width + x)%nat = Some v) (seq 0 width))
      as (row & Hrow & HFrow).
    { apply Forall_forall. intros x [_ Hx]%elem_of_seq.
      destruct (Hcell y x) as (lo & hi & _ & _ & Hv); [lia..|].
      eexists. unfold getitem. rewrite Hv. done. }
    exists row. split; [done|]. apply Forall2_seq_lookup in HFrow as [Hl Hx].
    split; [done|]. intros x Hlt. destruct (Hx x Hlt) as (v & -> & ->). done. }
  exists rows. split; [done|]. apply Forall2_seq_lookup in HF as [Hl Hy].
  split; [done|]. split.
  - apply Forall_lookup_2. intros y row Hrow.
    destruct (Hy y) as (row' & Hrow' & Hlen & _); [apply lookup_lt_Some in Hrow; lia|].
    assert (row' = row) as -> by congruence. done.
  - intros y x Hylt Hxlt. destruct (Hy y Hylt) as (row & Hrow & _ & Hx).
    destruct (Hcell y x Hylt Hxlt) as (lo & hi & Hlo & Hhi & Hv).
    exists row, lo, hi. repeat (split; [done|]). by rewrite Hx.
Qed.

(** [load_map_bin] fails, with the error of [struct.unpack], exactly when
    the file holds fewer than [2 * width * height] bytes.  Otherwise it
    returns [height] rows of [width] cells, cell [(x, y)] being the
    little-endian word at byte offset [2 * (y * width + x)]; bytes beyond
    the grid are ignored. *)
Theorem load_map_bin_grid (data : list Byte.byte) (width height : nat) :
  ((length data < 2 * (width * height))%nat
   /\ convert_map_8x8.load_map_bin data width height = Raise StructError)
  \/ ((2 * (width * height) <= length data)%nat
      /\ exists rows,
           convert_map_8x8.load_map_bin data width height = Ok rows
           /\ length rows = height
           /\ Forall (fun row => length row = width) rows
           /\ forall y x, (y < height)%nat -> (x < width)%nat ->
                exists row lo hi,
                  rows !! y = Some row
                  /\ data !! (2 * (y * width + x))%nat = Some lo
                  /\ data !! (2 * (y * width + x) + 1)%nat = Some hi
                  /\ row !! x = Some (byte_val lo + 256 * byte_val hi)).
Proof.
  destruct (Nat.lt_ge_cases (length data) (2 * (width * height))) as [Hshort|Hlong].
  - left. split; [done|]. by apply load_map_bin_short.
  - right. split; [done|]. by apply load_map_bin_rows.
Qed.

(** ** Tile references and their flip flags *)

Lemma lor_pow2_disjoint (a n : Z) :
  0 <= n -> Z.testbit a n = false -> Z.lor a (2 ^ n) = a + 2 ^ n.
Proof.
  intros Hn Hbit. rewrite <- Z.lxor_lor, <- Z.add_nocarry_lxor; [done| |];
    rewrite land_pow2_testbit by lia; by rewrite Hbit.
Qed.

(** A decoded TileBitfield, written to a tile layer: the global tile id is
    the tile index plus one in the low 30 bits, bit 31 is the horizontal
    and bit 30 the vertical flip of the bitfield, and the value is never 0,
    so a decoded reference is never taken for an empty cell. *)
Theorem tile_gid_flags (raw : Z) :
  let g := convert_map_8x8.apply_flip (Some (convert_map_8x8.parse_tile raw)) in
  Z.land g 0x3FFFFFFF = Z.land raw 0x3FF + 1
  /\ Z.testbit g 31 = Z.testbit raw 10
  /\ Z.testbit g 30 = Z.testbit raw 11
  /\ 1 <= g < 2 ^ 32.
Proof.
  assert (0 <= Z.land raw 0x3FF < 1024) as Ht.
  { change 1023 with (Z.ones 10). rewrite Z.land_ones by lia.
    apply Z.mod_pos_bound. lia. }
  cbv zeta. unfold convert_map_8x8.apply_flip, convert_map_8x8.parse_tile.
  cbn [convert_map_8x8.gid convert_map_8x8.h_flip convert_map_8x8.v_flip].
  set (gid := Z.land raw 1023 + 1) in *.
  assert (0 <= gid < 2 ^ 11) as Hgid by (change (2 ^ 11) with 2048; lia).
  destruct (Z.eqb_spec gid 0) as [|_]; [lia|].
  change 1024 with (2 ^ 10). change 2048 with (2 ^ 11).
  rewrite !truthy_land_pow2 by lia.
  unfold convert_map_8x8.H_FLIP_BIT, convert_map_8x8.V_FLIP_BIT.
  change 2147483648 with (2 ^ 31). change 1073741824 with (2 ^ 30).
  change 1073741823 with (Z.ones 30).
  assert (Z.testbit gid 30 = false) as H30 by (apply (testbit_high gid 30 11); lia).
  assert (Z.testbit gid 31 = false) as H31 by (apply (testbit_high gid 31 11); lia).
  assert (gid mod 2 ^ 30 = gid) as Hmod by (apply Z.mod_small; lia).
  assert (Z.lor gid (2 ^ 31) = gid + 2 ^ 31) as Hh by (by apply lor_pow2_disjoint).
  assert (Z.lor gid (2 ^ 30) = gid + 2 ^ 30) as Hv by (by apply lor_pow2_disjoint).
  assert (Z.lor (Z.lor gid (2 ^ 31)) (2 ^ 30) = gid + 3 * 2 ^ 30) as Hhv.
  { rewrite lor_pow2_disjoint; [rewrite Hh; lia|lia|].
    by rewrite Z.lor_spec, H30, Z.pow2_bits_eqb by lia. }
  destruct (Z.testbit raw 10), (Z.testbit raw 11).
  - rewrite !Z.lor_spec, !Z.pow2_bits_eqb, H30, H31 by lia.
    rewrite Hhv, Z.land_ones, Z_mod_plus_full, Hmod by lia. repeat split; lia.
  - rewrite !Z.lor_spec, !Z.pow2_bits_eqb, H30, H31 by lia.
    rewrite Hh. replace (gid + 2 ^ 31) with (gid + 2 * 2 ^ 30) by lia.
    rewrite Z.land_ones, Z_mod_plus_full, Hmod by lia. repeat split; lia.
  - rewrite !Z.lor_spec, !Z.pow2_bits_eqb, H30, H31 by lia.
    rewrite Hv. replace (gid + 2 ^ 30) with (gid + 1 * 2 ^ 30) by lia.
    rewrite Z.land_ones, Z_mod_plus_full, Hmod by lia. repeat split; lia.
  - rewrite Z.land_ones, H30, H31, Hmod by lia. repeat split; lia.
Qed.

(** ** Loading a tileset for the map converter *)

Lemma load_metatile_loop_exact (metatiles_data : list Byte.byte)
    (attributes : list convert_map_8x8.MetatileAttributes) (n s : nat)
    (tileset : convert_map_8x8.TilesetData) :
  ((s + n) * 16 <= length metatiles_data)%nat ->
  exists tileset',
    convert_map_8x8.load_metatile_loop metatiles_data attributes (seq s n) tileset
    = Ok tileset'
    /\ (forall k : Z, ~ (Z.of_nat s <= k < Z.of_nat (s + n)) ->
          convert_map_8x8.metatiles tileset' !! k
          = convert_map_8x8.metatiles tileset !! k)
    /\ forall id, (s <= id < s + n)%nat ->
         let words := le16s (take 16 (drop (id * 16) metatiles_data)) in
         let attr := default (convert_map_8x8.MetatileAttributes_init 0)
                       (attributes !! id) in
         length words = 8%nat
         /\ convert_map_8x8.metatiles tileset' !! Z.of_nat id
            = Some (convert_map_8x8.MetatileDefinition_init (Z.of_nat id)
                      (convert_map_8x8.parse_tile <$> take 4 words)
                      (convert_map_8x8.attr_behavior attr)
                      (convert_map_8x8.attr_layer_type attr)
                      (Some (convert_map_8x8.parse_tile <$> take 4 (drop 4 words)))).
Proof.
  revert s tileset. induction n as [|n IH]; intros s tileset Hlen.
  - exists tileset. split; [done|]. split; [done|]. intros id Hid. lia.
  - cbn [seq].
    set (chunk := take 16 (drop (s * 16) metatiles_data)).
    set (attr := default (convert_map_8x8.MetatileAttributes_init 0) (attributes !! s)).
    set (m := convert_map_8x8.MetatileDefinition_init (Z.of_nat s)
                (convert_map_8x8.parse_tile <$> take 4 (le16s chunk))
                (convert_map_8x8.attr_behavior attr)
                (convert_map_8x8.attr_layer_type attr)
                (Some (convert_map_8x8.parse_tile <$> take 4 (drop 4 (le16s chunk))))).
    assert (length chunk = 16%nat) as Hchunk.
    { unfold chunk. rewrite length_take, length_drop. lia. }
    assert (convert_map_8x8.load_metatile_loop metatiles_data attributes
              (s :: seq (S s) n) tileset
            = convert_map_8x8.load_metatile_loop metatiles_data attributes (seq (S s) n)
                (convert_map_8x8.add_metatile tileset m)) as Hstep.
    { cbn [convert_map_8x8.load_metatile_loop].
      rewrite (proj2 (Nat.ltb_ge _ _)) by lia.
      rewrite slice_take_drop. fold chunk.
      unfold unpack_le_H. rewrite decide_True by (rewrite Hchunk; lia).
      cbn [result_bind]. unfold slice. rewrite drop_0. cbn [Nat.sub].
      destruct (Nat.ltb_spec s (length attributes)) as [Hin|Hout].
      - destruct (lookup_lt_is_Some_2 attributes s Hin) as [a Ha].
        unfold getitem. subst m attr. rewrite Ha. done.
      - subst m attr. rewrite (lookup_ge_None_2 attributes s Hout). done. }
    rewrite Hstep.
    destruct (IH (S s) (convert_map_8x8.add_metatile tileset m))
      as (tileset' & Hloop & Hframe & Hids); [lia|].
    exists tileset'. split; [done|]. split.
    { intros k Hk. rewrite Hframe by lia. cbn. apply lookup_insert_ne. lia. }
    intros id Hid. destruct (decide (id = s)) as [->|Hne].
    + cbv zeta. fold chunk attr. split; [by rewrite le16s_length, Hchunk|].
      rewrite Hframe by lia. cbn. apply lookup_insert_eq.
    + apply Hids. lia.
Qed.

Lemma tileset_loaded (metatiles_bin attributes_bin : option (list Byte.byte)) :
  exists tileset,
    convert_map_8x8.load_metatiles_from_pokeemerald metatiles_bin attributes_bin
    = Ok tileset
    /\ let N := Nat.div (length (default [] metatiles_bin)) 16 in
       let attributes :=
         convert_map_8x8.MetatileAttributes_init <$> le16s (default [] attributes_bin) in
       (forall k : Z, ~ (0 <= k < Z.of_nat N) ->
          convert_map_8x8.get_metatile tileset k = None)
       /\ forall id, (id < N)%nat ->
            let words := le16s (take 16 (drop (id * 16) (default [] metatiles_bin))) in
            let attr := default (convert_map_8x8.MetatileAttributes_init 0)
                          (attributes !! id) in
            length words = 8%nat
            /\ convert_map_8x8.get_metatile tileset (Z.of_nat id)
               = Some (convert_map_8x8.MetatileDefinition_init (Z.of_nat id)
                         (convert_map_8x8.parse_tile <$> take 4 words)
                         (convert_map_8x8.attr_behavior attr)
                         (convert_map_8x8.attr_layer_type attr)
                         (Some (convert_map_8x8.parse_tile <$> take 4 (drop 4 words)))).
Proof.
  unfold convert_map_8x8.load_metatiles_from_pokeemerald.
  destruct metatiles_bin as [metatiles_data|].
  - cbn [default from_option id].
    assert (match attributes_bin with
            | Some attributes_data =>
                convert_map_8x8.load_attributes attributes_data
                  (range_step (length attributes_data) 2) []
            | None => Ok []
            end
            = Ok (convert_map_8x8.MetatileAttributes_init
                    <$> le16s (default [] attributes_bin))) as ->.
    { destruct attributes_bin as [ad|]; [|done]. by rewrite load_attributes_spec. }
    cbn [result_bind].
    pose proof (Nat.Div0.mul_div_le (length metatiles_data) 16) as Hdiv.
    destruct (load_metatile_loop_exact metatiles_data
                (convert_map_8x8.MetatileAttributes_init <$> le16s (default [] attributes_bin))
                (Nat.div (length metatiles_data) 16) 0 convert_map_8x8.TilesetData_init)
      as (tileset & Hloop & Hframe & Hids); [lia|].
    exists tileset. split; [done|]. cbv zeta. split.
    + intros k Hk. unfold convert_map_8x8.get_metatile.
      rewrite Hframe by (rewrite Nat.add_0_l; exact Hk). apply lookup_empty.
    + intros id Hid. apply Hids. lia.
  - exists convert_map_8x8.TilesetData_init. split; [done|]. cbv zeta. split.
    + intros k _. apply lookup_empty.
    + intros id Hid. cbn in Hid. lia.
Qed.

Lemma parse_tile_gid_range (raw : Z) :
  1 <= convert_map_8x8.gid (convert_map_8x8.parse_tile raw) <= 1024.
Proof.
  cbn. change 1023 with (Z.ones 10). rewrite Z.land_ones by lia.
  pose proof (Z.mod_pos_bound raw (2 ^ 10) ltac:(lia)). change (2 ^ 10) with 1024 in *.
  lia.
Qed.

(** Loading a tileset never fails, whatever the two files hold (or when
    one is absent).  The tileset has exactly the ids [0 .. N-1] for [N]
    whole 16-byte records, and the metatile with id [i] has four bottom and
    four top references with global ids between 1 and 1024, the behavior
    and layer type of the [i]-th 16-bit word of the attributes file (of 0
    when that word is missing), and the name of that behavior. *)
Theorem loaded_metatile_fields (metatiles_bin attributes_bin : option (list Byte.byte)) :
  exists tileset,
    convert_map_8x8.load_metatiles_from_pokeemerald metatiles_bin attributes_bin
    = Ok tileset
    /\ (forall k : Z,
          is_Some (convert_map_8x8.get_metatile tileset k)
          <-> 0 <= k < Z.of_nat (Nat.div (length (default [] metatiles_bin)) 16))
    /\ forall id m,
         convert_map_8x8.get_metatile tileset (Z.of_nat id) = Some m ->
         let w := default 0 (le16s (default [] attributes_bin) !! id) in
         convert_map_8x8.metatile_id m = Z.of_nat id
         /\ convert_map_8x8.behavior m = w mod 256
         /\ convert_map_8x8.layer_type m = (w / 4096) mod 16
         /\ convert_map_8x8.behavior_name m
            = convert_map_8x8.behavior_name_of (w mod 256)
         /\ length (convert_map_8x8.tiles m) = 4%nat
         /\ length (convert_map_8x8.top_tiles m) = 4%nat
         /\ Forall (fun t => 1 <= convert_map_8x8.gid t <= 1024)
              (convert_map_8x8.tiles m ++ convert_map_8x8.top_tiles m).
Proof.
  destruct (tileset_loaded metatiles_bin attributes_bin) as (tileset & Hload & Hout & Hin).
  cbv zeta in Hout, Hin.
  set (N := Nat.div (length (default [] metatiles_bin)) 16) in *.
  exists tileset. split; [done|].
  assert (forall k : Z, is_Some (convert_map_8x8.get_metatile tileset k)
                        <-> 0 <= k < Z.of_nat N) as Hdom.
  { intros k. split.
    - intros Hsome. destruct (decide (0 <= k < Z.of_nat N)) as [|Hk]; [done|].
      rewrite (Hout k Hk) in Hsome. by destruct Hsome.
    - intros Hk. destruct (Hin (Z.to_nat k)) as [_ Hm]; [lia|].
      rewrite Z2Nat.id in Hm by lia. by eexists. }
  split; [done|]. intros id m Hm w.
  assert (id < N)%nat as Hid.
  { assert (is_Some (convert_map_8x8.get_metatile tileset (Z.of_nat id))) as Hs
      by (by exists m).
    apply Hdom in Hs. lia. }
  destruct (Hin id Hid) as [Hwords Hget].
  rewrite Hget in Hm. injection Hm as <-.
  set (words := le16s (take 16 (drop (id * 16) (default [] metatiles_bin)))) in *.
  assert (default (convert_map_8x8.MetatileAttributes_init 0)
            ((convert_map_8x8.MetatileAttributes_init
                <$> le16s (default [] attributes_bin)) !! id)
          = convert_map_8x8.MetatileAttributes_init w) as ->.
  { rewrite list_lookup_fmap. unfold w. by destruct (_ !! id). }
  assert (length (take 4 (drop 4 words)) = 4%nat) as Htop
    by (rewrite length_take, length_drop; lia).
  assert (length (take 4 words) = 4%nat) as Hbot by (rewrite length_take; lia).
  assert (convert_map_8x8.top_tiles
            (convert_map_8x8.MetatileDefinition_init (Z.of_nat id)
               (convert_map_8x8.parse_tile <$> take 4 words)
               (convert_map_8x8.attr_behavior (convert_map_8x8.MetatileAttributes_init w))
               (convert_map_8x8.attr_layer_type (convert_map_8x8.MetatileAttributes_init w))
               (Some (convert_map_8x8.parse_tile <$> take 4 (drop 4 words))))
          = convert_map_8x8.parse_tile <$> take 4 (drop 4 words)) as Htt.
  { cbn. destruct (take 4 (drop 4 words)); [done|reflexivity]. }
  rewrite Htt.
  cbn [convert_map_8x8.metatile_id convert_map_8x8.behavior convert_map_8x8.layer_type
       convert_map_8x8.behavior_name convert_map_8x8.tiles
       convert_map_8x8.MetatileDefinition_init convert_map_8x8.MetatileAttributes_init
       convert_map_8x8.attr_behavior convert_map_8x8.attr_layer_type].
  assert (Z.land w 255 = w mod 256) as Hb
    by (change 255 with (Z.ones 8); by rewrite Z.land_ones).
  assert (Z.land (Z.shiftr w 12) 15 = (w / 4096) mod 16) as Hl
    by (change 15 with (Z.ones 4); by rewrite Z.land_ones, Z.shiftr_div_pow2).
  rewrite Hb, Hl, !length_fmap. repeat (split; [done|]).
  apply Forall_app. split; apply Forall_fmap, Forall_forall; intros raw _;
    apply parse_tile_gid_range.
Qed.

(** ** Merging the primary and the secondary tileset *)

Lemma foldl_add_metatile {A : Type} (mk : A -> convert_map_8x8.MetatileDefinition)
    (l : list A) (tileset : convert_map_8x8.TilesetData) (k : Z) :
  NoDup ((fun a => convert_map_8x8.metatile_id (mk a)) <$> l) ->
  convert_map_8x8.metatiles
    (foldl (fun acc a => convert_map_8x8.add_metatile acc (mk a)) tileset l) !! k
  = match list_find (fun a => convert_map_8x8.metatile_id (mk a) = k) l with
    | Some (_, a) => Some (mk a)
    | None => convert_map_8x8.metatiles tileset !! k
    end.
Proof.
  revert tileset. induction l as [|a l IH]; intros tileset Hnd; [done|].
  rewrite fmap_cons in Hnd. apply NoDup_cons in Hnd as [Hnotin Hnd].
  cbn [foldl list_find]. rewrite IH by done.
  destruct (decide (convert_map_8x8.metatile_id (mk a) = k)) as [Hk|Hk].
  - assert (list_find (fun a0 => convert_map_8x8.metatile_id (mk a0) = k) l = None) as ->.
    { apply list_find_None, Forall_forall. intros b Hb Hbk. apply Hnotin.
      apply list_elem_of_fmap. exists b. split; [congruence|done]. }
    cbn. rewrite Hk. apply lookup_insert_eq.
  - destruct (list_find _ l) as [[i b]|]; [done|].
    cbn. by apply lookup_insert_ne.
Qed.

Lemma combine_tilesets_lookup (primary secondary : convert_map_8x8.TilesetData) (k : Z) :
  (forall j m, convert_map_8x8.metatiles primary !! j = Some m ->
               convert_map_8x8.metatile_id m = j) ->
  convert_map_8x8.get_metatile (convert_map_8x8.combine_tilesets primary secondary) k
  = match convert_map_8x8.metatiles secondary !! (k - 512) with
    | Some m =>
        Some (convert_map_8x8.MetatileDefinition_init k
                (convert_map_8x8.tiles m) (convert_map_8x8.behavior m)
                (convert_map_8x8.layer_type m) (Some (convert_map_8x8.top_tiles m)))
    | None => convert_map_8x8.metatiles primary !! k
    end.
Proof.
  intros Hinv. unfold convert_map_8x8.get_metatile, convert_map_8x8.combine_tilesets.
  rewrite (foldl_add_metatile
             (fun kv : Z * convert_map_8x8.MetatileDefinition =>
                convert_map_8x8.MetatileDefinition_init (kv.1 + 512)
                  (convert_map_8x8.tiles kv.2) (convert_map_8x8.behavior kv.2)
                  (convert_map_8x8.layer_type kv.2)
                  (Some (convert_map_8x8.top_tiles kv.2)))).
  2:{ cbn [convert_map_8x8.metatile_id convert_map_8x8.MetatileDefinition_init].
      change (fun a : Z * convert_map_8x8.MetatileDefinition => a.1 + 512)
        with ((fun j => j + 512) ∘ (fst : Z * convert_map_8x8.MetatileDefinition -> Z)).
      rewrite list_fmap_compose. apply NoDup_fmap_2; [intros x y; lia|].
      apply NoDup_fst_map_to_list. }
  rewrite (foldl_add_metatile (fun kv : Z * convert_map_8x8.MetatileDefinition => kv.2)).
  2:{ assert ((fun a : Z * convert_map_8x8.MetatileDefinition =>
                 convert_map_8x8.metatile_id a.2)
                <$> map_to_list (convert_map_8x8.metatiles primary)
              = fst <$> map_to_list (convert_map_8x8.metatiles primary)) as ->.
      { apply list_fmap_ext. intros i [j m] Hjm. cbn.
        apply list_elem_of_lookup_2, elem_of_map_to_list in Hjm. by apply Hinv. }
      apply NoDup_fst_map_to_list. }
  cbn [convert_map_8x8.metatile_id convert_map_8x8.MetatileDefinition_init].
  destruct (list_find _ (map_to_list (convert_map_8x8.metatiles secondary)))
    as [[i [j m]]|] eqn:Hsec.
  - apply list_find_Some in Hsec as (Hi & Hj & _). cbn in Hj.
    apply list_elem_of_lookup_2, elem_of_map_to_list in Hi.
    replace (k - 512) with j by lia. rewrite Hi. cbn [fst snd]. by rewrite Hj.
  - apply list_find_None in Hsec.
    assert (convert_map_8x8.metatiles secondary !! (k - 512) = None) as ->.
    { apply eq_None_not_Some. intros [m Hm].
      apply elem_of_map_to_list in Hm.
      apply (Forall_forall _ _) with (x := (k - 512, m)) in Hsec; [|done].
      cbn in Hsec. lia. }
    destruct (list_find _ (map_to_list (convert_map_8x8.metatiles primary)))
      as [[i [j m]]|] eqn:Hpri.
    + apply list_find_Some in Hpri as (Hi & Hj & _). cbn in Hj.
      apply list_elem_of_lookup_2, elem_of_map_to_list in Hi.
      rewrite (Hinv j m Hi) in Hj. subst j. cbn [snd]. by rewrite Hi.
    + apply list_find_None in Hpri. cbn. rewrite lookup_empty.
      symmetry. apply eq_None_not_Some. intros [m Hm].
      pose proof (Hinv k m Hm) as Hid.
      apply elem_of_map_to_list in Hm.
      apply (Forall_forall _ _) with (x := (k, m)) in Hpri; [|done].
      by cbn in Hpri.
Qed.

Lemma tileset_loaded_ids (metatiles_bin attributes_bin : option (list Byte.byte))
    (tileset : convert_map_8x8.TilesetData) :
  convert_map_8x8.load_metatiles_from_pokeemerald metatiles_bin attributes_bin
  = Ok tileset ->
  forall j m, convert_map_8x8.metatiles tileset !! j = Some m ->
              convert_map_8x8.metatile_id m = j.
Proof.
  intros Hload j m Hm.
  destruct (tileset_loaded metatiles_bin attributes_bin) as (tileset' & Hload' & Hout & Hin).
  assert (tileset' = tileset) as -> by congruence. cbv zeta in Hout, Hin.
  set (N := Nat.div (length (default [] metatiles_bin)) 16) in *.
  destruct (decide (0 <= j < Z.of_nat N)) as [Hj|Hj].
  - destruct (Hin (Z.to_nat j)) as [_ Hget]; [lia|].
    rewrite Z2Nat.id in Hget by lia. unfold convert_map_8x8.get_metatile in Hget.
    rewrite Hget in Hm. by injection Hm as <-.
  - pose proof (Hout j Hj) as Hnone. unfold convert_map_8x8.get_metatile in Hnone.
    congruence.
Qed.

(** In the lookup space the map converter builds from a primary and a
    secondary tileset, id [k] resolves to the secondary record [k - 512]
    (re-keyed to [k], its references and attributes unchanged) whenever the
    secondary tileset has such a record, also when the primary tileset has a
    record [k] of its own, and to the primary record [k] otherwise. *)
Theorem combined_tileset_lookup
    (primary_metatiles primary_attributes secondary_metatiles secondary_attributes
       : option (list Byte.byte)) :
  exists primary secondary,
    convert_map_8x8.load_metatiles_from_pokeemerald primary_metatiles primary_attributes
    = Ok primary
    /\ convert_map_8x8.load_metatiles_from_pokeemerald secondary_metatiles
         secondary_attributes = Ok secondary
    /\ forall k,
         convert_map_8x8.get_metatile
           (convert_map_8x8.combine_tilesets primary secondary) k
         = match convert_map_8x8.get_metatile secondary (k - 512) with
           | Some m =>
               Some (convert_map_8x8.mkMetatileDefinition k
                       (convert_map_8x8.tiles m) (convert_map_8x8.top_tiles m)
                       (convert_map_8x8.behavior m) (convert_map_8x8.behavior_name m)
                       (convert_map_8x8.layer_type m))
           | None => convert_map_8x8.get_metatile primary k
           end.
Proof.
  destruct (tileset_loaded primary_metatiles primary_attributes)
    as (primary & Hp & _ & _).
  destruct (tileset_loaded secondary_metatiles secondary_attributes)
    as (secondary & Hs & Hout & Hin).
  exists primary, secondary. split; [done|]. split; [done|]. intros k.
  rewrite combine_tilesets_lookup by (by apply (tileset_loaded_ids _ _ _ Hp)).
  unfold convert_map_8x8.get_metatile.
  destruct (convert_map_8x8.metatiles secondary !! (k - 512)) as [m|] eqn:Hm; [|done].
  f_equal. cbv zeta in Hout, Hin.
  set (N := Nat.div (length (default [] secondary_metatiles)) 16) in *.
  destruct (decide (0 <= k - 512 < Z.of_nat N)) as [Hk|Hk].
  - destruct (Hin (Z.to_nat (k - 512))) as [Hwords Hget]; [lia|].
    rewrite Z2Nat.id in Hget by lia. unfold convert_map_8x8.get_metatile in Hget.
    rewrite Hget in Hm. injection Hm as <-.
    set (words := le16s (take 16 _)) in *.
    assert (length (convert_map_8x8.parse_tile <$> take 4 (drop 4 words)) = 4%nat)
      as Htop by (rewrite length_fmap, length_take, length_drop; lia).
    unfold convert_map_8x8.MetatileDefinition_init.
    cbn [convert_map_8x8.tiles convert_map_8x8.top_tiles convert_map_8x8.behavior
         convert_map_8x8.layer_type convert_map_8x8.behavior_name].
    destruct (convert_map_8x8.parse_tile <$> take 4 (drop 4 words)) as [|t ts];
      [done|]. reflexivity.
  - pose proof (Hout (k - 512) Hk) as Hnone.
    unfold convert_map_8x8.get_metatile in Hnone. congruence.
Qed.

(** ** The map converter as a whole *)

Lemma load_border_bin_cases (file : list Byte.byte) :
  ((length file < 8)%nat /\ border_tile_fix.load_border_bin file = Raise ValueError)
  \/ ((8 <= length file)%nat
      /\ exists border,
           border_tile_fix.load_border_bin file = Ok border /\ length border = 4%nat).
Proof.
  destruct (Nat.lt_ge_cases (length file) 8) as [Hshort|Hlong].
  - left. split; [done|]. unfold border_tile_fix.load_border_bin.
    rewrite (proj2 (Nat.ltb_lt _ _)); [done|]. rewrite length_take. lia.
  - right. split; [done|].
    destruct file as [|b0 [|b1 [|b2 [|b3 [|b4 [|b5 [|b6 [|b7 rest]]]]]]]];
      try (cbn in Hlong; lia).
    eexists. split; [reflexivity|]. done.
Qed.

(** The converter fails, with the error of [struct.unpack], exactly when
    map.bin holds fewer than [2 * width * height] bytes; the border file
    and the tileset files, present or not and whatever their content, never
    make it fail.  On success the map is [2 * height] tiles high and
    [2 * width] wide (0 wide when [height] is 0), each tile layer has one
    entry per tile, the object layer has one object per map cell, and the
    border pattern is passed on exactly when a border file of at least 8
    bytes exists. *)
Theorem convert_pokeemerald_map_outcome (width height : nat) (map_bin : list Byte.byte)
    (border_bin : option (list Byte.byte))
    (primary_metatiles_bin primary_attributes_bin : option (list Byte.byte))
    (secondary : option (option (list Byte.byte) * option (list Byte.byte))) :
  ((length map_bin < 2 * (width * height))%nat
   /\ convert_map_8x8.convert_pokeemerald_map width height map_bin border_bin
        primary_metatiles_bin primary_attributes_bin secondary = Raise StructError)
  \/ ((2 * (width * height) <= length map_bin)%nat
      /\ exists tiled_map,
           convert_map_8x8.convert_pokeemerald_map width height map_bin border_bin
             primary_metatiles_bin primary_attributes_bin secondary = Ok tiled_map
           /\ convert_map_8x8.map_height tiled_map = (2 * height)%nat
           /\ convert_map_8x8.map_width tiled_map
              = (if height is O then 0 else 2 * width)%nat
           /\ length (convert_map_8x8.bottom_layer_data tiled_map)
              = (4 * (width * height))%nat
           /\ length (convert_map_8x8.top_layer_data tiled_map)
              = (4 * (width * height))%nat
           /\ length (convert_map_8x8.metatile_objects tiled_map) = (width * height)%nat
           /\ (is_Some (convert_map_8x8.border_pattern_metatiles tiled_map)
               <-> exists file, border_bin = Some file /\ (8 <= length file)%nat)).
Proof.
  destruct (Nat.lt_ge_cases (length map_bin) (2 * (width * height))) as [Hshort|Hlong].
  { left. split; [done|]. unfold convert_map_8x8.convert_pokeemerald_map.
    by rewrite load_map_bin_short. }
  right. split; [done|]. unfold convert_map_8x8.convert_pokeemerald_map.
  destruct (load_map_bin_rows map_bin width height Hlong)
    as (map_data & Hmap & Hh & Hrect & _).
  rewrite Hmap. cbn [result_bind].
  destruct (tileset_loaded primary_metatiles_bin primary_attributes_bin)
    as (primary & -> & _). cbn [result_bind].
  assert (exists secondary_tileset,
            match secondary with
            | Some (secondary_metatiles_bin, secondary_attributes_bin) =>
                convert_map_8x8.load_metatiles_from_pokeemerald secondary_metatiles_bin
                  secondary_attributes_bin
            | None => Ok convert_map_8x8.TilesetData_init
            end = Ok secondary_tileset) as [secondary_tileset ->].
  { destruct secondary as [[sm sa]|]; [|by eexists].
    destruct (tileset_loaded sm sa) as (ts & -> & _). by eexists. }
  cbn [result_bind].
  set (w' := match map_data with [] => 0%nat | row0 :: _ => length row0 end).
  assert (w' = if height is O then 0 else width)%nat as Hw'.
  { unfold w'. destruct map_data as [|row0 rest]; [by subst height|].
    cbn in Hh. subst height. by inversion Hrect. }
  assert (Forall (fun row => length row = w') map_data) as Hrect'.
  { destruct height as [|h]; [by destruct map_data|]. by rewrite Hw'. }
  assert (w' * height = width * height)%nat as Hcells
    by (rewrite Hw'; destruct height; lia).
  set (tileset := convert_map_8x8.combine_tilesets primary secondary_tileset).
  destruct (layer_loop_decoded map_data w' tileset Hrect') as (layers & Hlayers & Hll & _).
  rewrite Hlayers. cbn [result_bind].
  destruct (metatile_object_loop_spec map_data tileset
              (convert_map_8x8.grid_cells (length map_data) w') 1)
    as (objs & Hobjs & Hlo & _).
  { apply Forall_forall. intros [a b] [Ha Hb]%grid_cells_elem. cbn.
    destruct (lookup_lt_is_Some_2 map_data a Ha) as [row Hrow].
    pose proof (Forall_lookup_1 _ _ _ _ Hrect' Hrow) as Hlenrow. cbn beta in Hlenrow.
    destruct (lookup_lt_is_Some_2 row b ltac:(lia)) as [raw Hraw]. eauto. }
  rewrite Hobjs. cbn [result_bind]. eexists. split; [done|].
  cbn [convert_map_8x8.map_height convert_map_8x8.map_width
       convert_map_8x8.bottom_layer_data convert_map_8x8.top_layer_data
       convert_map_8x8.metatile_objects convert_map_8x8.border_pattern_metatiles].
  rewrite !length_fmap, Hll, Hlo, grid_cells_length, Hh.
  split; [lia|]. split; [rewrite Hw'; destruct height; lia|].
  split; [lia|]. split; [lia|]. split; [lia|].
  destruct border_bin as [file|].
  - destruct (load_border_bin_cases file) as [[Hs ->]|[Hl (b & -> & Hb4)]].
    + cbn. split; [by intros [? [=]]|]. intros (f & [= <-] & Hf). lia.
    + destruct b as [|b0 bs]; [done|]. cbn. split; [|by eexists].
      intros _. by exists file.
  - cbn. split; [by intros [? [=]]|]. by intros (f & [=] & _).
Qed.

(** ** Metatile statistics *)

Lemma get_statistics_fold (cells : list Z) (stats : border_tile_fix.Statistics) :
  let stats' :=
    foldl (fun stats metatile_id =>
      {| border_tile_fix.total_metatiles := border_tile_fix.total_metatiles stats + 1;
         border_tile_fix.empty_count :=
           if metatile_id <=? 1 then border_tile_fix.empty_count stats + 1
           else border_tile_fix.empty_count stats;
         border_tile_fix.unique_ids :=
           border_tile_fix.unique_ids stats ∪ {[ metatile_id ]} |}) stats cells in
  border_tile_fix.total_metatiles stats'
  = border_tile_fix.total_metatiles stats + Z.of_nat (length cells)
  /\ border_tile_fix.empty_count stats'
     = border_tile_fix.empty_count stats
       + Z.of_nat (length (filter (fun v => v <= 1) cells))
  /\ border_tile_fix.unique_ids stats'
     = border_tile_fix.unique_ids stats ∪ list_to_set cells.
Proof.
  revert stats. induction cells as [|v cells IH]; intros stats; cbn zeta.
  { cbn. repeat split; [lia|lia|set_solver]. }
  cbn [foldl]. destruct (IH
    {| border_tile_fix.total_metatiles := border_tile_fix.total_metatiles stats + 1;
       border_tile_fix.empty_count :=
         if v <=? 1 then border_tile_fix.empty_count stats + 1
         else border_tile_fix.empty_count stats;
       border_tile_fix.unique_ids := border_tile_fix.unique_ids stats ∪ {[ v ]} |})
    as (-> & -> & ->).
  cbn [border_tile_fix.total_metatiles border_tile_fix.empty_count
       border_tile_fix.unique_ids length list_to_set].
  rewrite filter_cons. split; [lia|]. split; [|set_solver].
  destruct (Z.leb_spec v 1); destruct (decide (v <= 1)); cbn [length]; lia.
Qed.

Lemma get_statistics_cells (map_data : list (list Z)) :
  border_tile_fix.total_metatiles (border_tile_fix.get_statistics map_data)
  = Z.of_nat (length (concat map_data))
  /\ border_tile_fix.empty_count (border_tile_fix.get_statistics map_data)
     = Z.of_nat (length (filter (fun v => v <= 1) (concat map_data)))
  /\ border_tile_fix.unique_ids (border_tile_fix.get_statistics map_data)
     = list_to_set (concat map_data).
Proof.
  unfold border_tile_fix.get_statistics.
  assert (forall stats,
    foldl (fun stats row =>
      foldl (fun stats metatile_id =>
        {| border_tile_fix.total_metatiles := border_tile_fix.total_metatiles stats + 1;
           border_tile_fix.empty_count :=
             if metatile_id <=? 1 then border_tile_fix.empty_count stats + 1
             else border_tile_fix.empty_count stats;
           border_tile_fix.unique_ids :=
             border_tile_fix.unique_ids stats ∪ {[ metatile_id ]} |}) stats row)
      stats map_data
    = foldl (fun stats metatile_id =>
        {| border_tile_fix.total_metatiles := border_tile_fix.total_metatiles stats + 1;
           border_tile_fix.empty_count :=
             if metatile_id <=? 1 then border_tile_fix.empty_count stats + 1
             else border_tile_fix.empty_count stats;
           border_tile_fix.unique_ids :=
             border_tile_fix.unique_ids stats ∪ {[ metatile_id ]} |})
        stats (concat map_data)) as ->.
  { induction map_data as [|row rows IH]; intros stats; [done|].
    cbn [foldl concat]. by rewrite foldl_app, IH. }
  destruct (get_statistics_fold (concat map_data) (border_tile_fix.mkStatistics 0 0 ∅))
    as (-> & -> & ->).
  cbn. split; [lia|]. split; [lia|]. set_solver.
Qed.

(** The statistics count every cell of every row, whatever the row lengths:
    the total is the number of cells, the empty count is the number of
    cells whose id is 0, 1 or negative and so lies between 0 and the
    total, and the set of ids holds exactly the ids that occur in some
    row.  No cell is counted empty exactly when every id of the set
    exceeds 1. *)
Theorem get_statistics_counts (map_data : list (list Z)) :
  let stats := border_tile_fix.get_statistics map_data in
  border_tile_fix.total_metatiles stats = Z.of_nat (sum_list (length <$> map_data))
  /\ border_tile_fix.empty_count stats
     = Z.of_nat (sum_list ((fun row => length (filter (fun v => v <= 1) row)) <$> map_data))
  /\ 0 <= border_tile_fix.empty_count stats <= border_tile_fix.total_metatiles stats
  /\ (forall v, v ∈ border_tile_fix.unique_ids stats
                <-> exists row, row ∈ map_data /\ v ∈ row)
  /\ (border_tile_fix.empty_count stats = 0
      <-> forall v, v ∈ border_tile_fix.unique_ids stats -> 1 < v).
Proof.
  cbn zeta. destruct (get_statistics_cells map_data) as (-> & -> & ->).
  assert (length (concat map_data) = sum_list (length <$> map_data)) as Htotal.
  { induction map_data as [|row rows IH]; [done|].
    cbn [concat]. rewrite length_app, IH. done. }
  assert (length (filter (fun v => v <= 1) (concat map_data))
          = sum_list ((fun row => length (filter (fun v => v <= 1) row)) <$> map_data))
    as Hempty.
  { clear Htotal. induction map_data as [|row rows IH]; [done|].
    cbn [concat]. by rewrite filter_app, length_app, IH. }
  split; [by rewrite Htotal|]. split; [by rewrite Hempty|].
  split.
  { pose proof (length_filter (fun v => v <= 1) (concat map_data)). lia. }
  split.
  { intros v. rewrite elem_of_list_to_set, list_elem_of_In, in_concat.
    setoid_rewrite <- list_elem_of_In. naive_solver. }
  split.
  - intros H0 v Hv%elem_of_list_to_set.
    destruct (decide (v <= 1)) as [Hle|]; [|lia].
    assert (v ∈ filter (fun v => v <= 1) (concat map_data)) as Hin
      by (by apply list_elem_of_filter).
    destruct (filter _ (concat map_data)); [by apply elem_of_nil in Hin|cbn in H0; lia].
  - intros Hall.
    destruct (filter (fun v => v <= 1) (concat map_data)) as [|v l] eqn:Hf; [done|].
    assert (v ∈ filter (fun v => v <= 1) (concat map_data)) as Hin
      by (rewrite Hf; left).
    apply list_elem_of_filter in Hin as [Hle Hin].
    specialize (Hall v). rewrite elem_of_list_to_set in Hall. specialize (Hall Hin). lia.
Qed.

Lemma apply_border_fallback_cells (map_data : list (list Z)) (w : nat)
    (border_tiles : option (list Z)) (default_metatile : Z) :
  Forall (fun row => length row = w) map_data ->
  match border_tile_fix.border_given border_tiles with
  | Some border => length border = 4%nat
  | None => True
  end ->
  exists result,
    border_tile_fix.apply_border_fallback map_data border_tiles default_metatile
    = Ok result
    /\ Forall2 (Forall2 (fun metatile_id v =>
                  (metatile_id <= 1 ->
                   match border_tile_fix.border_given border_tiles with
                   | Some border => v ∈ border
                   | None => v = default_metatile
                   end)
                  /\ (1 < metatile_id -> v = metatile_id))) map_data result.
Proof.
  intros Hrect Hborder. unfold border_tile_fix.apply_border_fallback.
  set (width := match map_data with [] => 0%nat | row0 :: _ => length row0 end).
  assert (map_data ≠ [] -> width = w) as Hwidth.
  { destruct map_data as [|row0 rest]; [done|]. intros _. by inversion Hrect. }
  set (Q := fun metatile_id v : Z =>
              (metatile_id <= 1 ->
               match border_tile_fix.border_given border_tiles with
               | Some border => v ∈ border
               | None => v = default_metatile
               end)
              /\ (1 < metatile_id -> v = metatile_id)).
  destruct (for_each_spec
    (fun y : nat =>
       for_each (fun x : nat =>
         map_row <- getitem map_data y ;;
         metatile_id <- getitem map_row x ;;
         if metatile_id <=? 1 then
           match border_tile_fix.border_given border_tiles with
           | Some border =>
               border_tile_fix.get_border_metatile border (Z.of_nat x) (Z.of_nat y)
           | None => Ok default_metatile
           end
         else Ok metatile_id) (seq 0 width))
    (fun y row' => forall row, map_data !! y = Some row -> Forall2 Q row row')
    (seq 0 (length map_data))) as (result & Hresult & HF).
  { apply Forall_forall. intros y [_ Hy]%elem_of_seq.
    destruct (lookup_lt_is_Some_2 map_data y ltac:(lia)) as [row Hrow].
    pose proof (Forall_lookup_1 _ _ _ _ Hrect Hrow) as Hlenrow. cbn beta in Hlenrow.
    assert (width = w) as -> by (apply Hwidth; by destruct map_data).
    destruct (for_each_spec
      (fun x : nat =>
         map_row <- getitem map_data y ;;
         metatile_id <- getitem map_row x ;;
         if metatile_id <=? 1 then
           match border_tile_fix.border_given border_tiles with
           | Some border =>
               border_tile_fix.get_border_metatile border (Z.of_nat x) (Z.of_nat y)
           | None => Ok default_metatile
           end
         else Ok metatile_id)
      (fun x v => forall metatile_id, row !! x = Some metatile_id -> Q metatile_id v)
      (seq 0 w)) as (row' & Hrow' & HF').
    { apply Forall_forall. intros x [_ Hx]%elem_of_seq.
      unfold getitem at 1. rewrite Hrow. cbn [result_bind].
      destruct (lookup_lt_is_Some_2 row x ltac:(lia)) as [id Hid].
      unfold getitem. rewrite Hid. cbn [result_bind]. unfold Q.
      destruct (Z.leb_spec id 1) as [Hle|Hgt].
      - destruct (border_tile_fix.border_given border_tiles) as [border|].
        + destruct (get_border_metatile_lookup border (Z.of_nat x) (Z.of_nat y) Hborder)
            as (v & Hv & Hlook).
          exists v. split; [done|]. intros id' Hid'.
          assert (id' = id) as -> by congruence.
          split; [intros _; by eapply list_elem_of_lookup_2|lia].
        + exists default_metatile. split; [done|]. intros id' Hid'.
          assert (id' = id) as -> by congruence. split; [done|lia].
      - exists id. split; [done|]. intros id' Hid'.
        assert (id' = id) as -> by congruence. split; [lia|done]. }
    exists row'. split; [done|]. intros row0 Hrow0.
    assert (row0 = row) as -> by congruence.
    apply Forall2_seq_lookup in HF' as [Hlen' Hcells].
    apply Forall2_same_length_lookup_2; [lia|].
    intros x id v Hid Hv.
    destruct (Hcells x) as (v' & Hv' & HQ); [apply lookup_lt_Some in Hid; lia|].
    assert (v' = v) as -> by congruence. by apply HQ. }
  exists result. split; [done|].
  pose proof (Forall2_length _ _ _ HF) as Hlen. rewrite length_seq in Hlen.
  apply Forall2_same_length_lookup_2; [done|].
  intros y row row' Hrow Hrow'.
  eapply (Forall2_lookup_lr _ _ _ y y) in HF; [by apply HF| |done].
  apply lookup_seq_lt. by apply lookup_lt_Some in Hrow.
Qed.

Lemma Forall2_concat_length {A B : Type} (P : A -> B -> Prop) (ls : list (list A))
    (ks : list (list B)) :
  Forall2 (Forall2 P) ls ks -> length (concat ls) = length (concat ks).
Proof.
  induction 1 as [|l k ls ks Hlk _ IH]; [done|].
  cbn [concat]. rewrite !length_app, IH. by rewrite (Forall2_length _ _ _ Hlk).
Qed.

(** Replacing the empty cells and then counting: on a rectangular grid,
    when the four border ids (or, without a border pattern, the default
    metatile) all exceed 1, the fallback succeeds, keeps the number of cells
    and leaves no empty cell, and every id of the result is an id of the
    input above 1, a border id or the default. *)
Theorem fallback_leaves_no_empty_cell (map_data : list (list Z)) (w : nat)
    (border_tiles : option (list Z)) (default_metatile : Z) :
  Forall (fun row => length row = w) map_data ->
  match border_tile_fix.border_given border_tiles with
  | Some border => length border = 4%nat /\ Forall (fun v => 1 < v) border
  | None => 1 < default_metatile
  end ->
  exists result,
    border_tile_fix.apply_border_fallback map_data border_tiles default_metatile
    = Ok result
    /\ border_tile_fix.total_metatiles (border_tile_fix.get_statistics result)
       = border_tile_fix.total_metatiles (border_tile_fix.get_statistics map_data)
    /\ border_tile_fix.empty_count (border_tile_fix.get_statistics result) = 0
    /\ forall v, v ∈ border_tile_fix.unique_ids (border_tile_fix.get_statistics result) ->
         1 < v
         /\ (v ∈ border_tile_fix.unique_ids (border_tile_fix.get_statistics map_data)
             \/ match border_tile_fix.border_given border_tiles with
                | Some border => v ∈ border
                | None => v = default_metatile
                end).
Proof.
  intros Hrect Hborder.
  destruct (apply_border_fallback_cells map_data w border_tiles default_metatile Hrect)
    as (result & Hresult & HF).
  { destruct (border_tile_fix.border_given border_tiles); [by destruct Hborder|done]. }
  exists result. split; [done|].
  destruct (get_statistics_cells result) as (-> & -> & ->).
  destruct (get_statistics_cells map_data) as (-> & _ & ->).
  assert (forall v, v ∈ concat result ->
            1 < v
            /\ (v ∈ concat map_data
                \/ match border_tile_fix.border_given border_tiles with
                   | Some border => v ∈ border
                   | None => v = default_metatile
                   end)) as Hcells.
  { intros v. rewrite list_elem_of_In, in_concat.
    intros (row' & Hrow'%list_elem_of_In & Hv%list_elem_of_In).
    apply list_elem_of_lookup in Hrow' as [y Hy], Hv as [x Hx].
    destruct (Forall2_lookup_r _ _ _ _ _ HF Hy) as (row & Hrow & HFrow).
    destruct (Forall2_lookup_r _ _ _ _ _ HFrow Hx) as (id & Hid & Hle & Hgt).
    destruct (decide (id <= 1)) as [Hid1|Hid1].
    - specialize (Hle Hid1).
      destruct (border_tile_fix.border_given border_tiles) as [border|].
      + destruct Hborder as [_ Hall]. split; [|by right].
        rewrite Forall_forall in Hall. by apply Hall.
      + subst v. split; [done|by right].
    - rewrite (Hgt ltac:(lia)). split; [lia|]. left.
      rewrite list_elem_of_In, in_concat. exists row.
      split; apply list_elem_of_In; by eapply list_elem_of_lookup_2. }
  split; [by rewrite (Forall2_concat_length _ _ _ HF)|]. split.
  - destruct (filter (fun v => v <= 1) (concat result)) as [|v l] eqn:Hf; [done|].
    assert (v ∈ filter (fun v => v <= 1) (concat result)) as Hin by (rewrite Hf; left).
    apply list_elem_of_filter in Hin as [Hle Hin]. apply Hcells in Hin. lia.
  - intros v Hv%elem_of_list_to_set. destruct (Hcells v Hv) as [Hgt Hor].
    split; [done|]. rewrite elem_of_list_to_set. done.
Qed.

Lemma fallback_leaves_no_empty_cell_witness :
  exists result,
    border_tile_fix.apply_border_fallback [[0; 7]; [1; 9]] (Some [2; 3; 4; 5]) 2
    = Ok result
    /\ border_tile_fix.total_metatiles (border_tile_fix.get_statistics result)
       = border_tile_fix.total_metatiles
           (border_tile_fix.get_statistics [[0; 7]; [1; 9]])
    /\ border_tile_fix.empty_count (border_tile_fix.get_statistics result) = 0
    /\ forall v, v ∈ border_tile_fix.unique_ids (border_tile_fix.get_statistics result) ->
         1 < v
         /\ (v ∈ border_tile_fix.unique_ids
                   (border_tile_fix.get_statistics [[0; 7]; [1; 9]])
             \/ v ∈ [2; 3; 4; 5]).
Proof.
  apply (fallback_leaves_no_empty_cell [[0; 7]; [1; 9]] 2 (Some [2; 3; 4; 5]) 2).
  - repeat constructor.
  - cbn. split; [reflexivity|]. repeat constructor.
Defined.

(** ** Writing a PNG file and reading its chunks back *)

Lemma slice_app_shift {A : Type} (pre l : list A) (a b : nat) :
  slice (pre ++ l) (length pre + a) (length pre + b) = slice l a b.
Proof.
  unfold slice. rewrite drop_app_add. f_equal. lia.
Qed.

Lemma read_chunks_shift (fuel : nat) (pre l : list Byte.byte) (pos : nat)
    (palette_data : option (list Byte.byte)) (idat_data : list Byte.byte) :
  render_tileset_with_palettes.read_chunks fuel (pre ++ l) (length pre + pos)
    palette_data idat_data
  = render_tileset_with_palettes.read_chunks fuel l pos palette_data idat_data.
Proof.
  revert pos palette_data idat_data.
  induction fuel as [|fuel IH]; intros pos palette_data idat_data.
  - cbn [render_tileset_with_palettes.read_chunks]. rewrite length_app.
    destruct (Nat.ltb_spec (length pre + pos) (length pre + length l));
      destruct (Nat.ltb_spec pos (length l)); done || lia.
  - destruct (Nat.lt_ge_cases pos (length l)) as [Hlt|Hge].
    + rewrite !read_chunks_step by (rewrite ?length_app; lia).
      rewrite <- !Nat.add_assoc, !slice_app_shift.
      destruct (unpack_be_I _) as [len|e]; [|done]. cbn [result_bind].
      cbv zeta. rewrite <- !Nat.add_assoc, !slice_app_shift.
      rewrite !(Nat.add_assoc pos 8). by rewrite !IH.
    + by rewrite !read_chunks_done by (rewrite ?length_app; lia).
Qed.

Lemma slice_full {A : Type} (l k : list A) (n : nat) :
  n = length l -> slice (l ++ k) 0 n = l.
Proof. intros ->. unfold slice. rewrite drop_0, Nat.sub_0_r. apply take_app_length. Qed.

(** One iteration of the reader over a chunk laid out as [make_chunk]
    does. *)
Lemma read_chunks_chunk (fuel : nat) (len chunk_type data crc rest : list Byte.byte)
    (palette_data : option (list Byte.byte)) (idat_data : list Byte.byte) :
  unpack_be_I len = Ok (Z.of_nat (length data)) ->
  length chunk_type = 4%nat ->
  length crc = 4%nat ->
  render_tileset_with_palettes.read_chunks (S fuel)
    ((len ++ chunk_type ++ data ++ crc) ++ rest) 0 palette_data idat_data
  = render_tileset_with_palettes.read_chunks fuel rest 0
      (if decide (chunk_type = render_tileset_with_palettes.PLTE) then Some data
       else palette_data)
      (if decide (chunk_type = render_tileset_with_palettes.PLTE) then idat_data
       else if decide (chunk_type = render_tileset_with_palettes.IDAT)
            then idat_data ++ data else idat_data).
Proof.
  intros Hunpack Hty Hcrc.
  assert (length len = 4%nat) as Hlen
    by (by destruct len as [|? [|? [|? [|? [|? ?]]]]]).
  rewrite read_chunks_step by (rewrite !length_app; lia).
  rewrite <- !(assoc_L (++)).
  rewrite (slice_full len) by done. rewrite Hunpack. cbn [result_bind]. cbv zeta.
  rewrite Nat2Z.id.
  assert (slice (len ++ chunk_type ++ data ++ crc ++ rest) (0 + 4) (0 + 8) = chunk_type)
    as ->.
  { change (0 + 4)%nat with 4%nat. rewrite <- Hlen at 1.
    replace (0 + 8)%nat with (length len + 4)%nat by lia.
    rewrite <- (Nat.add_0_r (length len)) at 1. rewrite slice_app_shift.
    by apply slice_full. }
  assert (slice (len ++ chunk_type ++ data ++ crc ++ rest) (0 + 8) (0 + 8 + length data)
          = data) as ->.
  { rewrite (assoc_L (++) len). 
    replace (0 + 8)%nat with (length (len ++ chunk_type) + 0)%nat
      by (rewrite length_app; lia).
    replace (length (len ++ chunk_type) + 0 + length data)%nat
      with (length (len ++ chunk_type) + length data)%nat by lia.
    rewrite slice_app_shift. by apply slice_full. }
  replace (0 + (12 + length data))%nat
    with (length (len ++ chunk_type ++ data ++ crc) + 0)%nat
    by (rewrite !length_app; lia).
  rewrite !(assoc_L (++) len), !(assoc_L (++) (len ++ chunk_type)),
    !(assoc_L (++) ((len ++ chunk_type) ++ data)).
  rewrite <- !(assoc_L (++) len chunk_type), <- !(assoc_L (++) len (chunk_type ++ data)),
    <- !(assoc_L (++) chunk_type data crc).
  rewrite !read_chunks_shift.
  repeat case_decide; done.
Qed.

Lemma bytes_of_ints_spec (values : list Z) :
  (Forall (fun v => 0 <= v < 256) values
   /\ bytes_of_ints values = Ok (byte_of_Z <$> values))
  \/ (~ Forall (fun v => 0 <= v < 256) values
      /\ bytes_of_ints values = Raise ValueError).
Proof.
  unfold bytes_of_ints. induction values as [|v values IH]; [by left|].
  cbn [for_each].
  destruct (Z.leb_spec 0 v) as [H0|H0]; cbn [andb].
  2:{ right. split; [|done]. intros HF. inversion HF; lia. }
  destruct (Z.ltb_spec v 256) as [H1|H1].
  2:{ right. split; [|done]. intros HF. inversion HF; lia. }
  cbn [result_bind]. destruct IH as [[HF ->]|[HF ->]].
  - left. split; [constructor; [lia|done]|done].
  - right. split; [|done]. intros HF'. by inversion HF'.
Qed.

Lemma raw_scanlines_spec (rgba_pixels : list (list Z)) (raw_data : list Byte.byte) :
  (Forall (Forall (fun v => 0 <= v < 256)) rgba_pixels
   /\ render_tileset_with_palettes.raw_scanlines rgba_pixels raw_data
      = Ok (raw_data ++ mjoin ((fun row => x00 :: (byte_of_Z <$> row)) <$> rgba_pixels)))
  \/ (~ Forall (Forall (fun v => 0 <= v < 256)) rgba_pixels
      /\ render_tileset_with_palettes.raw_scanlines rgba_pixels raw_data
         = Raise ValueError).
Proof.
  revert raw_data. induction rgba_pixels as [|row rows IH]; intros raw_data.
  { left. split; [done|]. cbn. by rewrite app_nil_r. }
  cbn [render_tileset_with_palettes.raw_scanlines].
  destruct (bytes_of_ints_spec row) as [[Hrow ->]|[Hrow ->]]; cbn [result_bind].
  2:{ right. split; [|done]. intros HF. by inversion HF. }
  destruct (IH (raw_data ++ x00 :: (byte_of_Z <$> row))) as [[HF ->]|[HF ->]].
  - left. split; [by constructor|]. rewrite fmap_cons.
    change (mjoin (?b :: ?l)) with (b ++ mjoin l). by rewrite <- (assoc_L (++)).
  - right. split; [|done]. intros HF'. by inversion HF'.
Qed.

Lemma make_chunk_layout (zlib_crc32 : list Byte.byte -> Z)
    (chunk_type data : list Byte.byte) :
  Z.of_nat (length data) < 2 ^ 32 ->
  exists len crc,
    render_tileset_with_palettes.make_chunk zlib_crc32 chunk_type data
    = Ok (len ++ chunk_type ++ data ++ crc)
    /\ unpack_be_I len = Ok (Z.of_nat (length data))
    /\ length len = 4%nat /\ length crc = 4%nat.
Proof.
  intros Hlen. unfold render_tileset_with_palettes.make_chunk.
  destruct (unpack_pack_be_I (Z.of_nat (length data))) as (b3 & b2 & b1 & b0 & -> & Hun);
    [lia|]. cbn [result_bind].
  destruct (unpack_pack_be_I (Z.land (zlib_crc32 (chunk_type ++ data)) 0xffffffff))
    as (c3 & c2 & c1 & c0 & -> & _).
  { change 0xffffffff with (Z.ones 32). rewrite Z.land_ones by lia.
    apply Z.mod_pos_bound. lia. }
  cbn [result_bind]. by do 2 eexists.
Qed.

Lemma make_chunk_too_long (zlib_crc32 : list Byte.byte -> Z)
    (chunk_type data : list Byte.byte) :
  2 ^ 32 <= Z.of_nat (length data) ->
  render_tileset_with_palettes.make_chunk zlib_crc32 chunk_type data = Raise StructError.
Proof.
  intros Hlen. unfold render_tileset_with_palettes.make_chunk, pack_be_I.
  rewrite (proj2 (Z.ltb_ge _ _) Hlen). by rewrite andb_false_r.
Qed.

Lemma pack_be_I_cases (n : Z) :
  (0 <= n < 2 ^ 32
   /\ exists b3 b2 b1 b0,
        pack_be_I n = Ok [b3; b2; b1; b0] /\ unpack_be_I [b3; b2; b1; b0] = Ok n)
  \/ (~ 0 <= n < 2 ^ 32 /\ pack_be_I n = Raise StructError).
Proof.
  destruct (decide (0 <= n < 2 ^ 32)) as [Hn|Hn].
  - left. split; [done|]. by apply unpack_pack_be_I.
  - right. split; [done|]. unfold pack_be_I.
    destruct (Z.leb_spec 0 n); [|done]. destruct (Z.ltb_spec n (2 ^ 32)); [lia|done].
Qed.

(** What the PNG writer produces.  It raises the error of [struct.pack]
    when the width or the height does not fit 32 unsigned bits or the
    compressed data is 4 GiB or longer, and [ValueError] when a value of
    some row is not a byte.  Otherwise it returns a file of the signature
    and exactly three chunks that the chunk reader of the same script walks
    to the end: it finds no palette and, as image data, the compressed
    scanlines (a filter byte 0 before each row); the header words at
    offsets 16 and 20 read back as the width and the height, and with a
    decompressor that inverts the compressor the decoder accepts the
    file. *)
Theorem write_rgba_png_outcome (zlib_crc32 : list Byte.byte -> Z)
    (zlib_compress : list Byte.byte -> list Byte.byte)
    (width height : Z) (rgba_pixels : list (list Z)) :
  let written :=
    render_tileset_with_palettes.write_rgba_png zlib_crc32 zlib_compress width height
      rgba_pixels in
  let raw_data := mjoin ((fun row => x00 :: (byte_of_Z <$> row)) <$> rgba_pixels) in
  (~ (0 <= width < 2 ^ 32 /\ 0 <= height < 2 ^ 32) /\ written = Raise StructError)
  \/ (0 <= width < 2 ^ 32 /\ 0 <= height < 2 ^ 32
      /\ ~ Forall (Forall (fun v => 0 <= v < 256)) rgba_pixels
      /\ written = Raise ValueError)
  \/ (0 <= width < 2 ^ 32 /\ 0 <= height < 2 ^ 32
      /\ Forall (Forall (fun v => 0 <= v < 256)) rgba_pixels
      /\ 2 ^ 32 <= Z.of_nat (length (zlib_compress raw_data))
      /\ written = Raise StructError)
  \/ (0 <= width < 2 ^ 32 /\ 0 <= height < 2 ^ 32
      /\ Forall (Forall (fun v => 0 <= v < 256)) rgba_pixels
      /\ Z.of_nat (length (zlib_compress raw_data)) < 2 ^ 32
      /\ exists png_data,
           written = Ok png_data
           /\ length png_data = (57 + length (zlib_compress raw_data))%nat
           /\ slice png_data 0 8 = render_tileset_with_palettes.PNG_SIGNATURE
           /\ unpack_be_I (slice png_data 16 20) = Ok width
           /\ unpack_be_I (slice png_data 20 24) = Ok height
           /\ (forall fuel, (3 <= fuel)%nat ->
                 render_tileset_with_palettes.read_chunks fuel png_data 8 None []
                 = Ok (None, zlib_compress raw_data))
           /\ forall zlib_decompress : list Byte.byte -> result (list Byte.byte),
                zlib_decompress (zlib_compress raw_data) = Ok raw_data ->
                exists pixels,
                  render_tileset_with_palettes.read_png_indexed_data zlib_decompress
                    png_data = Ok (width, height, pixels, None)).
Proof.
  cbv zeta. unfold render_tileset_with_palettes.write_rgba_png.
  destruct (pack_be_I_cases width) as [[Hw (w3 & w2 & w1 & w0 & -> & Hwun)]|[Hw ->]];
    [|left; split; [tauto|done]].
  cbn [result_bind].
  destruct (pack_be_I_cases height) as [[Hh (h3 & h2 & h1 & h0 & -> & Hhun)]|[Hh ->]];
    [|left; split; [tauto|done]].
  cbn [result_bind]. right.
  destruct (make_chunk_layout zlib_crc32 render_tileset_with_palettes.IHDR
              ([w3; w2; w1; w0] ++ [h3; h2; h1; h0] ++ [x08; x06; x00; x00; x00]))
    as (len1 & crc1 & -> & Hun1 & Hlen1 & Hcrc1); [cbn; lia|].
  cbn [result_bind].
  destruct (raw_scanlines_spec rgba_pixels []) as [[Hpix ->]|[Hpix ->]];
    [|left; done].
  cbn [result_bind]. right. rewrite app_nil_l.
  set (raw_data := mjoin ((fun row => x00 :: (byte_of_Z <$> row)) <$> rgba_pixels)).
  destruct (Z.lt_ge_cases (Z.of_nat (length (zlib_compress raw_data))) (2 ^ 32))
    as [Hcomp|Hcomp].
  2:{ left. rewrite make_chunk_too_long by done. done. }
  right. do 4 (split; [done|]).
  destruct (make_chunk_layout zlib_crc32 render_tileset_with_palettes.IDAT
              (zlib_compress raw_data) Hcomp)
    as (len2 & crc2 & -> & Hun2 & Hlen2 & Hcrc2).
  cbn [result_bind].
  destruct (make_chunk_layout zlib_crc32 render_tileset_with_palettes.IEND [])
    as (len3 & crc3 & -> & Hun3 & Hlen3 & Hcrc3); [cbn; lia|].
  cbn [result_bind]. eexists. split; [reflexivity|].
  set (ihdr_data := [w3; w2; w1; w0] ++ [h3; h2; h1; h0] ++ [x08; x06; x00; x00; x00])
    in *.
  assert (forall fuel, (3 <= fuel)%nat ->
            render_tileset_with_palettes.read_chunks fuel
              (((render_tileset_with_palettes.PNG_SIGNATURE
                 ++ len1 ++ render_tileset_with_palettes.IHDR ++ ihdr_data ++ crc1)
                ++ len2 ++ render_tileset_with_palettes.IDAT ++ zlib_compress raw_data
                   ++ crc2)
               ++ len3 ++ render_tileset_with_palettes.IEND ++ [] ++ crc3) 8 None []
            = Ok (None, zlib_compress raw_data)) as Hchunks.
  { intros [|[|[|fuel]]] Hfuel; try lia.
    rewrite <- !(assoc_L (++) render_tileset_with_palettes.PNG_SIGNATURE).
    change 8%nat with (length render_tileset_with_palettes.PNG_SIGNATURE + 0)%nat.
    rewrite read_chunks_shift.
    rewrite <- (assoc_L (++) (len1 ++ _)).
    rewrite read_chunks_chunk by done.
    rewrite read_chunks_chunk by done.
    rewrite <- (app_nil_r (len3 ++ _)).
    rewrite read_chunks_chunk by done.
    rewrite read_chunks_done by (cbn; lia).
    repeat case_decide; done. }
  assert (length (((render_tileset_with_palettes.PNG_SIGNATURE
                 ++ len1 ++ render_tileset_with_palettes.IHDR ++ ihdr_data ++ crc1)
                ++ len2 ++ render_tileset_with_palettes.IDAT ++ zlib_compress raw_data
                   ++ crc2)
               ++ len3 ++ render_tileset_with_palettes.IEND ++ [] ++ crc3)
          = (57 + length (zlib_compress raw_data))%nat) as Hlength.
  { rewrite !length_app, Hlen1, Hlen2, Hlen3, Hcrc1, Hcrc2, Hcrc3. cbn. lia. }
  destruct len1 as [|l3 [|l2 [|l1 [|l0 [|? ?]]]]]; try done.
  assert (forall tail,
            slice (((render_tileset_with_palettes.PNG_SIGNATURE
                     ++ [l3; l2; l1; l0] ++ render_tileset_with_palettes.IHDR
                     ++ ihdr_data ++ crc1) ++ tail)) 0 8
            = render_tileset_with_palettes.PNG_SIGNATURE
            /\ slice (((render_tileset_with_palettes.PNG_SIGNATURE
                     ++ [l3; l2; l1; l0] ++ render_tileset_with_palettes.IHDR
                     ++ ihdr_data ++ crc1) ++ tail)) 16 20 = [w3; w2; w1; w0]
            /\ slice (((render_tileset_with_palettes.PNG_SIGNATURE
                     ++ [l3; l2; l1; l0] ++ render_tileset_with_palettes.IHDR
                     ++ ihdr_data ++ crc1) ++ tail)) 20 24 = [h3; h2; h1; h0])
    as Hhead by (intros tail; done).
  rewrite <- (assoc_L (++) (_ ++ [l3; l2; l1; l0] ++ _)).
  destruct (Hhead ((len2 ++ render_tileset_with_palettes.IDAT ++ zlib_compress raw_data
                    ++ crc2)
                   ++ len3 ++ render_tileset_with_palettes.IEND ++ [] ++ crc3))
    as (Hsig & Hws & Hhs).
  rewrite (assoc_L (++) (_ ++ [l3; l2; l1; l0] ++ _)) in Hsig, Hws, Hhs |- *.
  split; [done|]. split; [done|]. rewrite Hws, Hhs.
  split; [done|]. split; [done|]. split; [done|].
  intros zlib_decompress Hinv.
  unfold render_tileset_with_palettes.read_png_indexed_data.
  rewrite Hsig, Hws, Hhs, Hwun, Hhun. cbn [result_bind].
  destruct (decide (render_tileset_with_palettes.PNG_SIGNATURE
                    ≠ render_tileset_with_palettes.PNG_SIGNATURE)) as [Hne|_]; [done|].
  rewrite Hchunks by (rewrite Hlength; lia).
  cbn [result_bind snd fst]. rewrite Hinv. cbn [result_bind]. by eexists.
Qed.

(** ** Replacing the palette chunk of a PNG file *)

Lemma read_chunks_drop (fuel : nat) (l : list Byte.byte) (pos : nat)
    (palette_data : option (list Byte.byte)) (idat_data : list Byte.byte) :
  render_tileset_with_palettes.read_chunks fuel l pos palette_data idat_data
  = render_tileset_with_palettes.read_chunks fuel (drop pos l) 0 palette_data idat_data.
Proof.
  destruct (Nat.le_gt_cases pos (length l)) as [Hle|Hgt].
  - rewrite <- (read_chunks_shift fuel (take pos l) (drop pos l) 0).
    by rewrite take_drop, length_take_le, Nat.add_0_r.
  - rewrite !read_chunks_done; [done| |lia]. rewrite length_drop. lia.
Qed.

Lemma replace_chunks_step (zlib_crc32 : list Byte.byte -> Z) (fuel : nat)
    (png_data : list Byte.byte) (palette : list (Z * Z * Z)) (pos : nat)
    (output_chunks : list Byte.byte) (plte_replaced : bool) :
  (pos < length png_data)%nat ->
  replace_png_palette.replace_chunks zlib_crc32 (S fuel) png_data palette pos
    output_chunks plte_replaced
  = result_bind (unpack_be_I (slice png_data pos (pos + 4))) (fun len =>
      let chunk_type := slice png_data (pos + 4) (pos + 8) in
      if decide (chunk_type = render_tileset_with_palettes.PLTE) then
        result_bind (replace_png_palette.new_plte_data palette) (fun plte =>
        result_bind (pack_be_I (Z.land (zlib_crc32
                       (render_tileset_with_palettes.PLTE ++ plte)) 0xffffffff))
          (fun new_crc =>
        result_bind (pack_be_I (Z.of_nat (length plte))) (fun new_len =>
          replace_png_palette.replace_chunks zlib_crc32 fuel png_data palette
            (pos + (12 + Z.to_nat len))
            (output_chunks ++ new_len ++ render_tileset_with_palettes.PLTE ++ plte
               ++ new_crc) true)))
      else
        replace_png_palette.replace_chunks zlib_crc32 fuel png_data palette
          (pos + (12 + Z.to_nat len))
          (output_chunks ++ slice png_data pos (pos + (12 + Z.to_nat len)))
          plte_replaced).
Proof.
  intros Hpos. cbn [replace_png_palette.replace_chunks].
  by rewrite (proj2 (Nat.ltb_lt _ _) Hpos).
Qed.

Lemma replace_chunks_done (zlib_crc32 : list Byte.byte -> Z) (fuel : nat)
    (png_data : list Byte.byte) (palette : list (Z * Z * Z)) (pos : nat)
    (output_chunks : list Byte.byte) (plte_replaced : bool) :
  (length png_data <= pos)%nat ->
  replace_png_palette.replace_chunks zlib_crc32 fuel png_data palette pos
    output_chunks plte_replaced
  = Ok (output_chunks, plte_replaced).
Proof.
  intros Hpos. destruct fuel; cbn [replace_png_palette.replace_chunks];
    by rewrite (proj2 (Nat.ltb_ge _ _) Hpos).
Qed.

Lemma replace_chunks_shift (zlib_crc32 : list Byte.byte -> Z) (fuel : nat)
    (pre l : list Byte.byte) (palette : list (Z * Z * Z)) (pos : nat)
    (output_chunks : list Byte.byte) (plte_replaced : bool) :
  replace_png_palette.replace_chunks zlib_crc32 fuel (pre ++ l) palette
    (length pre + pos) output_chunks plte_replaced
  = replace_png_palette.replace_chunks zlib_crc32 fuel l palette pos
      output_chunks plte_replaced.
Proof.
  revert pos output_chunks plte_replaced.
  induction fuel as [|fuel IH]; intros pos output_chunks plte_replaced.
  - cbn [replace_png_palette.replace_chunks]. rewrite length_app.
    destruct (Nat.ltb_spec (length pre + pos) (length pre + length l));
      destruct (Nat.ltb_spec pos (length l)); done || lia.
  - destruct (Nat.lt_ge_cases pos (length l)) as [Hlt|Hge].
    + rewrite !replace_chunks_step by (rewrite ?length_app; lia).
      rewrite <- !Nat.add_assoc, !slice_app_shift.
      destruct (unpack_be_I _) as [len|e]; [|done]. cbn [result_bind].
      cbv zeta. rewrite <- !Nat.add_assoc, !slice_app_shift.
      case_decide.
      * destruct (replace_png_palette.new_plte_data palette) as [plte|e]; [|done].
        cbn [result_bind]. destruct (pack_be_I _) as [new_crc|e]; [|done].
        cbn [result_bind]. destruct (pack_be_I _) as [new_len|e]; [|done].
        cbn [result_bind]. by rewrite IH.
      * by rewrite IH.
    + by rewrite !replace_chunks_done by (rewrite ?length_app; lia).
Qed.

Lemma replace_chunks_drop (zlib_crc32 : list Byte.byte -> Z) (fuel : nat)
    (l : list Byte.byte) (palette : list (Z * Z * Z)) (pos : nat)
    (output_chunks : list Byte.byte) (plte_replaced : bool) :
  replace_png_palette.replace_chunks zlib_crc32 fuel l palette pos
    output_chunks plte_replaced
  = replace_png_palette.replace_chunks zlib_crc32 fuel (drop pos l) palette 0
      output_chunks plte_replaced.
Proof.
  destruct (Nat.le_gt_cases pos (length l)) as [Hle|Hgt].
  - rewrite <- (replace_chunks_shift zlib_crc32 fuel (take pos l) (drop pos l) palette 0).
    by rewrite take_drop, length_take_le, Nat.add_0_r.
  - rewrite !replace_chunks_done; [done| |lia]. rewrite length_drop. lia.
Qed.

Lemma replace_chunks_acc (zlib_crc32 : list Byte.byte -> Z) (fuel : nat)
    (l : list Byte.byte) (palette : list (Z * Z * Z)) (pos : nat)
    (output_chunks : list Byte.byte) (plte_replaced : bool) :
  replace_png_palette.replace_chunks zlib_crc32 fuel l palette pos
    output_chunks plte_replaced
  = result_bind
      (replace_png_palette.replace_chunks zlib_crc32 fuel l palette pos [] false)
      (fun r => Ok (output_chunks ++ r.1, plte_replaced || r.2)).
Proof.
  revert pos output_chunks plte_replaced.
  induction fuel as [|fuel IH]; intros pos output_chunks plte_replaced.
  { cbn [replace_png_palette.replace_chunks]. destruct (_ <? _)%nat;
      cbn; by rewrite app_nil_r, orb_false_r. }
  destruct (Nat.lt_ge_cases pos (length l)) as [Hlt|Hge].
  2:{ rewrite !replace_chunks_done by done. cbn. by rewrite app_nil_r, orb_false_r. }
  rewrite !replace_chunks_step by done.
  destruct (unpack_be_I _) as [len|e]; [|done]. cbn [result_bind]. cbv zeta.
  case_decide.
  - destruct (replace_png_palette.new_plte_data palette) as [plte|e]; [|done].
    cbn [result_bind]. destruct (pack_be_I _) as [new_crc|e]; [|done].
    cbn [result_bind]. destruct (pack_be_I _) as [new_len|e]; [|done].
    cbn [result_bind]. rewrite IH. rewrite (IH _ ([] ++ _)).
    destruct (replace_png_palette.replace_chunks _ _ _ _ _ [] false) as [[o b]|e];
      [|done].
    cbn [result_bind fst snd]. by rewrite orb_true_r, <- !(assoc_L (++)).
  - rewrite IH. rewrite (IH _ ([] ++ _)).
    destruct (replace_png_palette.replace_chunks _ _ _ _ _ [] false) as [[o b]|e];
      [|done].
    cbn [result_bind fst snd orb]. by rewrite <- !(assoc_L (++)).
Qed.

Lemma slice_take_app {A : Type} (l k : list A) (n a b : nat) :
  (b <= n <= length l)%nat -> slice (take n l ++ k) a b = slice l a b.
Proof.
  intros Hb. unfold slice.
  destruct (Nat.le_gt_cases a b) as [Hab|Hab].
  - rewrite drop_app_le by (rewrite length_take; lia).
    rewrite take_app_le by (rewrite length_drop, length_take; lia).
    rewrite !take_drop_commute, take_take. do 2 f_equal. lia.
  - replace (b - a)%nat with 0%nat by lia. by rewrite !take_0.
Qed.

Lemma replace_chunks_read_back (zlib_crc32 : list Byte.byte -> Z)
    (palette : list (Z * Z * Z)) (n : nat) :
  forall l, (length l <= n)%nat ->
  forall fuel, (length l <= fuel)%nat ->
  forall out replaced,
    replace_png_palette.replace_chunks zlib_crc32 fuel l palette 0 [] false
    = Ok (out, replaced) ->
  forall idat_data, exists idat_data' last plte,
    (replaced = true -> replace_png_palette.new_plte_data palette = Ok plte)
    /\ (replaced = false -> out = l)
    /\ forall palette_data,
         (forall f, (length l <= f)%nat ->
            render_tileset_with_palettes.read_chunks f l 0 palette_data idat_data
            = Ok (if replaced then Some last else palette_data, idat_data'))
         /\ (forall f, (length out <= f)%nat ->
               render_tileset_with_palettes.read_chunks f out 0 palette_data idat_data
               = Ok (if replaced then Some plte else palette_data, idat_data')).
Proof.
  induction n as [|n IH]; intros l Hn fuel Hfuel out replaced Hrep idat_data.
  { destruct l; [|cbn in Hn; lia].
    rewrite replace_chunks_done in Hrep by done. injection Hrep as <- <-.
    exists idat_data, [], []. split; [done|]. split; [done|]. intros palette_data.
    split; intros f _; by rewrite read_chunks_done. }
  destruct (decide (length l = 0)%nat) as [Hl0|Hl0].
  { destruct l; [|done].
    rewrite replace_chunks_done in Hrep by done. injection Hrep as <- <-.
    exists idat_data, [], []. split; [done|]. split; [done|]. intros palette_data.
    split; intros f _; by rewrite read_chunks_done. }
  destruct fuel as [|fuel]; [lia|].
  rewrite replace_chunks_step in Hrep by lia.
  destruct (unpack_be_I (slice l 0 (0 + 4))) as [len|e] eqn:Hunpack; [|done].
  cbn [result_bind] in Hrep. cbv zeta in Hrep.
  set (next := (0 + (12 + Z.to_nat len))%nat) in *.
  assert (length (drop next l) <= n)%nat as Hrestn by (rewrite length_drop; lia).
  assert (length (drop next l) <= fuel)%nat as Hrestf by (rewrite length_drop; lia).
  destruct (decide (slice l (0 + 4) (0 + 8) = render_tileset_with_palettes.PLTE))
    as [Hty|Hty].
  - destruct (replace_png_palette.new_plte_data palette) as [plte|e] eqn:Hplte; [|done].
    cbn [result_bind] in Hrep.
    destruct (pack_be_I (Z.land _ _)) as [new_crc|e] eqn:Hcrc; [|done].
    cbn [result_bind] in Hrep.
    destruct (pack_be_I_cases (Z.of_nat (length plte)))
      as [[_ (b3 & b2 & b1 & b0 & Hpack & Hun)]|[_ Hpack]];
      rewrite Hpack in Hrep; [|done].
    cbn [result_bind] in Hrep.
    rewrite replace_chunks_acc, replace_chunks_drop in Hrep.
    destruct (replace_png_palette.replace_chunks zlib_crc32 fuel (drop next l) palette
                0 [] false) as [[o br]|e] eqn:Hrest; [|done].
    cbn [result_bind fst snd orb] in Hrep. injection Hrep as <- <-.
    destruct (IH (drop next l) Hrestn fuel Hrestf o br Hrest idat_data)
      as (idat_data' & last & plte_r & Hb & Hout & Hreads).
    exists idat_data',
      (if br then last else slice l (0 + 8) (0 + 8 + Z.to_nat len)), plte.
    split; [done|]. split; [done|]. intros palette_data. split.
    + intros [|f] Hf; [lia|]. rewrite read_chunks_step by lia.
      rewrite Hunpack. cbn [result_bind]. cbv zeta.
      destruct (decide (slice l (0 + 4) (0 + 8) = render_tileset_with_palettes.PLTE));
        [|done].
      fold next. rewrite read_chunks_drop.
      destruct (Hreads (Some (slice l (0 + 8) (0 + 8 + Z.to_nat len)))) as [Hr _].
      rewrite Hr by (rewrite length_drop; lia). by destruct br.
    + apply pack_be_I_length in Hcrc as [Hcrclen _].
      change (b3 :: b2 :: b1 :: b0 :: x50 :: x4c :: x54 :: x45 :: (plte ++ new_crc) ++ o)
        with (([b3; b2; b1; b0] ++ render_tileset_with_palettes.PLTE ++ plte ++ new_crc)
              ++ o).
      intros [|f] Hf; [rewrite !length_app in Hf; cbn in Hf; lia|].
      rewrite !length_app in Hf. cbn [length] in Hf.
      rewrite read_chunks_chunk by done.
      destruct (decide (render_tileset_with_palettes.PLTE
                        = render_tileset_with_palettes.PLTE)); [|done].
      destruct (Hreads (Some plte)) as [_ Hr]. rewrite Hr by lia.
      destruct br; [|done]. specialize (Hb eq_refl). by injection Hb as <-.
  - rewrite replace_chunks_acc, replace_chunks_drop in Hrep.
    destruct (replace_png_palette.replace_chunks zlib_crc32 fuel (drop next l) palette
                0 [] false) as [[o br]|e] eqn:Hrest; [|done].
    cbn [result_bind fst snd orb] in Hrep. injection Hrep as <- <-.
    rewrite ?app_nil_l.
    assert (slice l 0 next = take next l) as Hcopy
      by (unfold slice; by rewrite drop_0, Nat.sub_0_r).
    rewrite Hcopy.
    destruct (IH (drop next l) Hrestn fuel Hrestf o br Hrest
                (if decide (slice l (0 + 4) (0 + 8) = render_tileset_with_palettes.IDAT)
                 then idat_data ++ slice l (0 + 8) (0 + 8 + Z.to_nat len)
                 else idat_data))
      as (idat_data' & last & plte & Hb & Hout & Hreads).
    exists idat_data', last, plte. split; [done|].
    assert (br = false -> take next l ++ o = l) as Hsame
      by (intros Hbr; rewrite (Hout Hbr); apply take_drop).
    split; [done|]. intros palette_data.
    assert (forall f, (length l <= f)%nat ->
              render_tileset_with_palettes.read_chunks f l 0 palette_data idat_data
              = Ok (if br then Some last else palette_data, idat_data')) as Hin.
    { intros [|f] Hf; [lia|]. rewrite read_chunks_step by lia.
      rewrite Hunpack. cbn [result_bind]. cbv zeta.
      destruct (decide (slice l (0 + 4) (0 + 8) = render_tileset_with_palettes.PLTE));
        [done|].
      fold next.
      destruct (decide (slice l (0 + 4) (0 + 8) = render_tileset_with_palettes.IDAT));
        rewrite read_chunks_drop; destruct (Hreads palette_data) as [Hr _];
        by rewrite Hr by (rewrite length_drop; lia). }
    split; [done|]. destruct br.
    2:{ rewrite Hsame by done. exact Hin. }
    assert (next <= length l)%nat as Hnext.
    { destruct (Nat.le_gt_cases next (length l)) as [|Hgt]; [done|].
      rewrite replace_chunks_done in Hrest by (rewrite length_drop; lia). done. }
    intros [|f] Hf; [rewrite length_app, length_take in Hf; lia|].
    rewrite length_app, length_take_le in Hf by done.
    rewrite read_chunks_step by (rewrite length_app, length_take; lia).
    rewrite (slice_take_app l o next) by (unfold next; lia).
    rewrite Hunpack. cbn [result_bind]. cbv zeta.
    rewrite !(slice_take_app l o next) by (unfold next; lia).
    fold next.
    destruct (decide (slice l (0 + 4) (0 + 8) = render_tileset_with_palettes.PLTE));
      [done|].
    destruct (decide (slice l (0 + 4) (0 + 8) = render_tileset_with_palettes.IDAT));
      rewrite read_chunks_drop, (drop_app_length' _ _ next)
        by (by rewrite length_take_le);
      destruct (Hreads palette_data) as [_ Hr]; by rewrite Hr by lia.
Qed.

Lemma new_plte_data_spec (palette : list (Z * Z * Z)) (plte : list Byte.byte) :
  replace_png_palette.new_plte_data palette = Ok plte ->
  plte = mjoin ((fun rgb : Z * Z * Z => byte_of_Z <$> [rgb.1.1; rgb.1.2; rgb.2])
                  <$> palette)
  /\ length plte = (3 * length palette)%nat
  /\ Forall (fun rgb : Z * Z * Z =>
               0 <= rgb.1.1 < 256 /\ 0 <= rgb.1.2 < 256 /\ 0 <= rgb.2 < 256) palette.
Proof.
  unfold replace_png_palette.new_plte_data. revert plte.
  induction palette as [|rgb palette IH]; intros plte.
  { cbn. by intros [= <-]. }
  cbn [for_each].
  destruct (bytes_of_ints_spec [rgb.1.1; rgb.1.2; rgb.2]) as [[Hrgb ->]|[_ ->]]; [|done].
  cbn [result_bind].
  destruct (for_each _ palette) as [blocks|e]; [|done]. cbn [result_bind].
  intros [= <-]. destruct (IH (mjoin blocks) eq_refl) as (Hblocks & Hlen & HF).
  change (mjoin (?b :: ?l)) with (b ++ mjoin l).
  rewrite fmap_cons. change (mjoin (?b :: ?l)) with (b ++ mjoin l).
  split; [by rewrite Hblocks at 1|]. split.
  - cbn [length]. rewrite Hlen. lia.
  - constructor; [|done].
    inversion Hrgb as [|? ? ? H1]; subst. inversion H1 as [|? ? ? H2]; subst.
    by inversion H2; subst.
Qed.

(** Replacing the palette and reading the result back.  Whenever the tool
    succeeds, its output starts with the PNG signature; if it reports that no
    palette chunk was found the output is the input, byte for byte;
    otherwise the new palette is three bytes per colour of the palette file,
    in order, and the chunk reader of the renderer finds in the output
    exactly this palette, together with the same image data, chunk by
    chunk, as in the input. *)
Theorem replaced_palette_read_back (zlib_crc32 : list Byte.byte -> Z)
    (png_data : list Byte.byte) (palette : list (Z * Z * Z))
    (output : list Byte.byte) (plte_replaced : bool) :
  replace_png_palette.replace_png_palette zlib_crc32 png_data palette
  = Ok (output, plte_replaced) ->
  slice output 0 8 = render_tileset_with_palettes.PNG_SIGNATURE
  /\ (plte_replaced = false -> output = png_data)
  /\ exists idat_data old_plte,
       let new_plte :=
         mjoin ((fun rgb : Z * Z * Z => byte_of_Z <$> [rgb.1.1; rgb.1.2; rgb.2])
                  <$> palette) in
       render_tileset_with_palettes.read_chunks (length png_data) png_data 8 None []
       = Ok (if plte_replaced then Some old_plte else None, idat_data)
       /\ render_tileset_with_palettes.read_chunks (length output) output 8 None []
          = Ok (if plte_replaced then Some new_plte else None, idat_data)
       /\ (plte_replaced = true ->
           length new_plte = (3 * length palette)%nat
           /\ Forall (fun rgb : Z * Z * Z =>
                        0 <= rgb.1.1 < 256 /\ 0 <= rgb.1.2 < 256 /\ 0 <= rgb.2 < 256)
                palette).
Proof.
  unfold replace_png_palette.replace_png_palette.
  destruct (decide (slice png_data 0 8 ≠ render_tileset_with_palettes.PNG_SIGNATURE))
    as [|Hsig%dec_stable]; [done|].
  rewrite replace_chunks_acc, replace_chunks_drop.
  destruct (replace_png_palette.replace_chunks zlib_crc32 (length png_data)
              (drop 8 png_data) palette 0 [] false) as [[o br]|e] eqn:Hrest; [|done].
  cbn [result_bind fst snd orb]. intros [= <- <-].
  assert (length (slice png_data 0 8) = 8%nat) as Hlen8 by (by rewrite Hsig).
  assert (slice png_data 0 8 = take 8 png_data) as Htake
    by (unfold slice; by rewrite drop_0).
  destruct (replace_chunks_read_back zlib_crc32 palette (length (drop 8 png_data))
              (drop 8 png_data) ltac:(done) (length png_data)
              ltac:(rewrite length_drop; lia) o br Hrest [])
    as (idat_data & last & plte & Hb & Hout & Hreads).
  split.
  { by rewrite slice_full. }
  split.
  { intros Hbr. rewrite (Hout Hbr), Htake. apply take_drop. }
  exists idat_data, last. cbv zeta.
  destruct (Hreads None) as [Hin Hres].
  split; [|split].
  - rewrite read_chunks_drop. rewrite Hin by (rewrite length_drop; lia). done.
  - rewrite read_chunks_drop, (drop_app_length' _ _ 8) by done.
    rewrite Hres by (rewrite length_app; lia).
    destruct br; [|done]. destruct (new_plte_data_spec palette plte (Hb eq_refl))
      as (-> & _). done.
  - intros ->. destruct (new_plte_data_spec palette plte (Hb eq_refl))
      as (-> & Hlen & HF). done.
Qed.

Lemma replaced_palette_read_back_witness :
  exists output plte_replaced,
    replace_png_palette.replace_png_palette (fun _ => 0) samples.indexed_png
      [(8, 16, 24); (255, 0, 0)] = Ok (output, plte_replaced)
    /\ slice output 0 8 = render_tileset_with_palettes.PNG_SIGNATURE
    /\ (plte_replaced = false -> output = samples.indexed_png)
    /\ exists idat_data old_plte,
         let new_plte :=
           mjoin ((fun rgb : Z * Z * Z => byte_of_Z <$> [rgb.1.1; rgb.1.2; rgb.2])
                    <$> [(8, 16, 24); (255, 0, 0)]) in
         render_tileset_with_palettes.read_chunks (length samples.indexed_png)
           samples.indexed_png 8 None []
         = Ok (if plte_replaced then Some old_plte else None, idat_data)
         /\ render_tileset_with_palettes.read_chunks (length output) output 8 None []
            = Ok (if plte_replaced then Some new_plte else None, idat_data)
         /\ (plte_replaced = true ->
             length new_plte = (3 * length [(8, 16, 24); (255, 0, 0)])%nat
             /\ Forall (fun rgb : Z * Z * Z =>
                          0 <= rgb.1.1 < 256 /\ 0 <= rgb.1.2 < 256 /\ 0 <= rgb.2 < 256)
                  [(8, 16, 24); (255, 0, 0)]).
Proof.
  do 2 eexists. split; [vm_compute; reflexivity|].
  apply (replaced_palette_read_back (fun _ => 0) samples.indexed_png
           [(8, 16, 24); (255, 0, 0)]).
  vm_compute. reflexivity.
Defined.

(** ** The rendering job *)

Lemma for_each_inv {A B : Type} (f : A -> result B) (l : list A) (bs : list B) :
  for_each f l = Ok bs -> Forall2 (fun a b => f a = Ok b) l bs.
Proof.
  revert bs. induction l as [|a l IH]; intros bs; cbn [for_each].
  { intros [= <-]. constructor. }
  destruct (f a) as [b|e] eqn:Hb; [|done]. cbn [result_bind].
  destruct (for_each f l) as [bs'|e]; [|done]. cbn [result_bind].
  intros [= <-]. constructor; [done|]. by apply IH.
Qed.

Lemma for_each_raise_head {A B : Type} (f : A -> result B) (a : A) (l : list A) (e : exn) :
  f a = Raise e -> for_each f (a :: l) = Raise e.
Proof. intros Hfa. cbn [for_each]. by rewrite Hfa. Qed.

(** A palette store without key 0 ends every rendering of an image of at
    least one tile with [KeyError], at the first tile and before any pixel
    is produced, also when the store holds the palette that the tile asks
    for: the default [palettes[0]] is evaluated on every lookup. *)
Theorem render_without_palette_0 (width height : Z) (pixels : list (list Z))
    (palettes : gmap Z render_tileset_with_palettes.palette)
    (metatiles_data : list Byte.byte) (tile_offset : Z) :
  palettes !! 0 = None ->
  8 <= width -> 8 <= height ->
  render_tileset_with_palettes.render_rows width height pixels palettes metatiles_data
    tile_offset = Raise KeyError.
Proof.
  intros H0 Hw Hh. unfold render_tileset_with_palettes.render_rows.
  pose proof (Z.div_le_mono 8 width 8 ltac:(lia) Hw) as Hw8.
  pose proof (Z.div_le_mono 8 height 8 ltac:(lia) Hh) as Hh8.
  change (8 / 8) with 1 in Hw8, Hh8.
  destruct (Z.to_nat (width / 8)) as [|tpr] eqn:Htpr; [lia|].
  destruct (Z.to_nat (height / 8)) as [|tpc] eqn:Htpc; [lia|].
  assert (exists cells, convert_map_8x8.grid_cells (S tpc) 8 = (0%nat, 0%nat) :: cells)
    as [cells ->] by (by eexists).
  apply for_each_raise_head. cbn [fst snd].
  rewrite <- cons_seq.
  rewrite (for_each_raise_head _ _ _ KeyError); [done|].
  unfold render_tileset_with_palettes.render_tile_row.
  rewrite get_tile_palette_index_spec. cbn [result_bind].
  unfold render_tileset_with_palettes.palettes_get. by rewrite H0.
Qed.

Lemma render_without_palette_0_witness :
  render_tileset_with_palettes.render_rows 8 8 samples.indexed_pixels
    {[ 3 := [(8, 16, 24)] ]} samples.metatiles_key3 0 = Raise KeyError.
Proof.
  apply (render_without_palette_0 8 8 samples.indexed_pixels
           {[ 3 := [(8, 16, 24)] ]} samples.metatiles_key3 0); [reflexivity|lia|lia].
Defined.

Lemma for_each_Forall {A B : Type} (f : A -> result B) (Q : B -> Prop) (l : list A)
    (bs : list B) :
  (forall a b, f a = Ok b -> Q b) -> for_each f l = Ok bs -> Forall Q bs.
Proof.
  intros Hf Hbs. apply for_each_inv in Hbs.
  induction Hbs as [|a b l bs Hab _ IH]; constructor; [by eapply Hf|done].
Qed.

Lemma py_getitem_elem {A : Type} (l : list A) (i : Z) (a : A) :
  py_getitem l i = Ok a -> a ∈ l.
Proof.
  assert (forall k, getitem l k = Ok a -> a ∈ l) as Hk.
  { intros k. unfold getitem. destruct (l !! k) as [a'|] eqn:Hl; [|done].
    intros [= <-]. by eapply list_elem_of_lookup_2. }
  unfold py_getitem. destruct (0 <=? i); [apply Hk|].
  destruct (_ <=? i); [apply Hk|done].
Qed.

Lemma render_pixel_bytes (palette : render_tileset_with_palettes.palette) (color_idx : Z)
    (quad : list Z) :
  Forall (fun rgb : Z * Z * Z =>
            0 <= rgb.1.1 < 256 /\ 0 <= rgb.1.2 < 256 /\ 0 <= rgb.2 < 256) palette ->
  render_tileset_with_palettes.render_pixel palette color_idx = Ok quad ->
  Forall (fun v => 0 <= v < 256) quad.
Proof.
  intros Hpal. unfold render_tileset_with_palettes.render_pixel.
  destruct (color_idx =? 0); [intros [= <-]; repeat constructor; lia|].
  destruct (color_idx <? _); [|intros [= <-]; repeat constructor; lia].
  destruct (py_getitem palette color_idx) as [rgb|e] eqn:Hget; [|done].
  cbn [result_bind]. intros [= <-].
  apply py_getitem_elem in Hget. rewrite Forall_forall in Hpal.
  destruct (Hpal rgb Hget) as (Hr & Hg & Hb). repeat constructor; lia.
Qed.

(** What the renderer hands to the writer.  When every colour of every
    palette of the store has its three components between 0 and 255, each
    value of each row a successful rendering returns is a byte, so the
    writer's scanline loop accepts the rows: it yields, for every row, a
    filter byte 0 followed by the row's values. *)
Theorem rendered_rows_are_writable (width height : Z) (pixels : list (list Z))
    (palettes : gmap Z render_tileset_with_palettes.palette)
    (metatiles_data : list Byte.byte) (tile_offset : Z) (rgba_pixels : list (list Z)) :
  (forall k palette, palettes !! k = Some palette ->
     Forall (fun rgb : Z * Z * Z =>
               0 <= rgb.1.1 < 256 /\ 0 <= rgb.1.2 < 256 /\ 0 <= rgb.2 < 256) palette) ->
  render_tileset_with_palettes.render_rows width height pixels palettes metatiles_data
    tile_offset = Ok rgba_pixels ->
  Forall (Forall (fun v => 0 <= v < 256)) rgba_pixels
  /\ render_tileset_with_palettes.raw_scanlines rgba_pixels []
     = Ok (mjoin ((fun row => x00 :: (byte_of_Z <$> row)) <$> rgba_pixels)).
Proof.
  intros Hstore Hrows.
  assert (Forall (Forall (fun v => 0 <= v < 256)) rgba_pixels) as Hbytes.
  { unfold render_tileset_with_palettes.render_rows in Hrows.
    eapply for_each_Forall; [|exact Hrows].
    intros cell row. cbv beta zeta.
    destruct (for_each _ (seq 0 _)) as [parts|e] eqn:Hparts; [|done].
    cbn [result_bind]. intros [= <-]. apply Forall_join.
    eapply for_each_Forall; [|exact Hparts].
    intros tile_x part. unfold render_tileset_with_palettes.render_tile_row.
    rewrite get_tile_palette_index_spec. cbn [result_bind].
    destruct (render_tileset_with_palettes.palettes_get palettes _)
      as [palette|e] eqn:Hget; [|done].
    cbn [result_bind].
    assert (Forall (fun rgb : Z * Z * Z =>
                      0 <= rgb.1.1 < 256 /\ 0 <= rgb.1.2 < 256 /\ 0 <= rgb.2 < 256)
              palette) as Hpal.
    { unfold render_tileset_with_palettes.palettes_get in Hget.
      destruct (palettes !! 0) as [palette0|] eqn:H0; [|done].
      injection Hget as <-.
      destruct (palettes !! spec.first_match_palette _ _) as [p|] eqn:Hp;
        cbn [default from_option id];
        [exact (Hstore _ _ Hp)|exact (Hstore _ _ H0)]. }
    destruct (for_each _ (seq 0 8)) as [quads|e] eqn:Hquads; [|done].
    cbn [result_bind]. intros [= <-]. apply Forall_join.
    eapply for_each_Forall; [|exact Hquads].
    intros col quad. cbv beta zeta.
    destruct (getitem pixels _) as [pixel_row|e]; [|done]. cbn [result_bind].
    destruct (getitem pixel_row _) as [color_idx|e]; [|done]. cbn [result_bind].
    by apply render_pixel_bytes. }
  split; [done|].
  destruct (raw_scanlines_spec rgba_pixels []) as [[_ ->]|[Hne _]]; [done|].
  by destruct Hne.
Qed.

Lemma rendered_rows_are_writable_witness :
  exists rgba_pixels,
    render_tileset_with_palettes.render_rows 8 8 samples.indexed_pixels
      samples.palette_store samples.metatiles_key3 0 = Ok rgba_pixels
    /\ Forall (Forall (fun v => 0 <= v < 256)) rgba_pixels
    /\ render_tileset_with_palettes.raw_scanlines rgba_pixels []
       = Ok (mjoin ((fun row => x00 :: (byte_of_Z <$> row)) <$> rgba_pixels)).
Proof.
  eexists. split; [vm_compute; reflexivity|].
  apply (rendered_rows_are_writable 8 8 samples.indexed_pixels samples.palette_store
           samples.metatiles_key3 0).
  - unfold samples.palette_store. intros k palette [<- <-]%lookup_singleton_Some.
    repeat constructor; cbn; lia.
  - vm_compute. reflexivity.
Defined.

(** ** The decoded raster *)

Lemma lor_lt_pow2 (a b k : Z) :
  0 <= k -> 0 <= a < 2 ^ k -> 0 <= b < 2 ^ k -> 0 <= Z.lor a b < 2 ^ k.
Proof.
  intros Hk Ha Hb.
  assert (0 <= Z.lor a b) as Hnn by (apply Z.lor_nonneg; lia).
  split; [done|].
  destruct (Z.lt_ge_cases (Z.lor a b) (2 ^ k)) as [|Hge]; [done|].
  assert (0 < Z.lor a b) as Hpos by lia.
  pose proof (Z.bit_log2 _ Hpos) as Hbit.
  pose proof (proj1 (Z.log2_le_pow2 (Z.lor a b) k Hpos) Hge) as Hlog.
  rewrite Z.lor_spec, (testbit_high a _ k), (testbit_high b _ k) in Hbit by done.
  done.
Qed.

Lemma unpack_be_I_range (data : list Byte.byte) (n : Z) :
  unpack_be_I data = Ok n -> length data = 4%nat /\ 0 <= n < 2 ^ 32.
Proof.
  destruct data as [|b3 [|b2 [|b1 [|b0 [|? ?]]]]]; try done.
  cbn [unpack_be_I]. intros [= <-]. split; [done|].
  pose proof (byte_val_range b3). pose proof (byte_val_range b2).
  pose proof (byte_val_range b1). pose proof (byte_val_range b0).
  rewrite !Z.shiftl_mul_pow2 by lia.
  repeat apply lor_lt_pow2; lia.
Qed.

Lemma unpack_nibbles_lookup (scanline : list Byte.byte) (x : nat) (c : Z) :
  (scanline ≫= fun b => render_tileset_with_palettes.unpack_nibbles (byte_val b)) !! x
  = Some c ->
  exists b, scanline !! Nat.div x 2 = Some b
    /\ c = if Nat.even x then byte_val b / 16 else byte_val b mod 16.
Proof.
  revert x. induction scanline as [|b scanline IH]; intros x; [done|].
  rewrite bind_cons. unfold render_tileset_with_palettes.unpack_nibbles at 1.
  pose proof (byte_val_range b) as Hb.
  destruct x as [|[|x]].
  - cbn. intros [= <-]. exists b. split; [done|].
    change 15 with (Z.ones 4). rewrite Z.land_ones, Z.shiftr_div_pow2 by lia.
    change (2 ^ 4) with 16. apply Z.mod_small.
    split; [apply Z.div_pos; lia|apply Z.div_lt_upper_bound; lia].
  - cbn. intros [= <-]. exists b. split; [done|].
    change 15 with (Z.ones 4). by rewrite Z.land_ones by lia.
  - change ([?p; ?q] ++ ?l) with (p :: q :: l). cbn [lookup list_lookup].
    intros Hx. destruct (IH x Hx) as (b' & Hb' & Hc). exists b'.
    change (S (S x)) with (1 * 2 + x)%nat.
    rewrite Nat.div_add_l by lia. cbn [Nat.add Nat.mul Nat.even]. by split.
Qed.

(** The raster a successful decode returns.  The file starts with the PNG
    signature and holds at least 24 bytes; the width and the height are the
    32-bit words at offsets 16 and 20; there are [height] rows, none longer
    than [width], every entry between 0 and 15.  Pixel [x] of row [y] is
    the high (even [x]) or low (odd [x]) nibble of byte
    [y * (bytes_per_scanline + 1) + 1 + x / 2] of the decompressed image
    data, so the filter byte of a scanline is skipped and never applied; a
    row has exactly [width] entries when the decompressed data reaches the
    end of its scanline, and is silently shorter otherwise. *)
Theorem decoded_raster_shape
    (zlib_decompress : list Byte.byte -> result (list Byte.byte))
    (png_data : list Byte.byte) (width height : Z) (pixels : list (list Z))
    (palette_data : option (list Byte.byte)) :
  render_tileset_with_palettes.read_png_indexed_data zlib_decompress png_data
  = Ok (width, height, pixels, palette_data) ->
  let bytes_per_scanline := Z.to_nat ((width + 1) / 2) in
  slice png_data 0 8 = render_tileset_with_palettes.PNG_SIGNATURE
  /\ (24 <= length png_data)%nat
  /\ unpack_be_I (slice png_data 16 20) = Ok width
  /\ unpack_be_I (slice png_data 20 24) = Ok height
  /\ 0 <= width < 2 ^ 32 /\ 0 <= height < 2 ^ 32
  /\ length pixels = Z.to_nat height
  /\ Forall (fun row => (length row <= Z.to_nat width)%nat
                        /\ Forall (fun c => 0 <= c < 16) row) pixels
  /\ exists idat_data raw_data,
       render_tileset_with_palettes.read_chunks (length png_data) png_data 8 None []
       = Ok (palette_data, idat_data)
       /\ zlib_decompress idat_data = Ok raw_data
       /\ (forall y x row c,
             pixels !! y = Some row -> row !! x = Some c ->
             exists b,
               raw_data !! (y * (bytes_per_scanline + 1) + 1 + Nat.div x 2)%nat = Some b
               /\ c = if Nat.even x then byte_val b / 16 else byte_val b mod 16)
       /\ (forall y row,
             pixels !! y = Some row ->
             ((y + 1) * (bytes_per_scanline + 1) <= length raw_data)%nat ->
             length row = Z.to_nat width).
Proof.
  intros Hread. pose proof Hread as Hrange. apply read_png_pixels_range in Hrange.
  destruct Hrange as [Hrows Hidx]. revert Hread.
  unfold render_tileset_with_palettes.read_png_indexed_data.
  destruct (decide (slice png_data 0 8 ≠ render_tileset_with_palettes.PNG_SIGNATURE))
    as [|Hsig%dec_stable]; [done|].
  destruct (unpack_be_I (slice png_data 16 20)) as [w|e] eqn:Hw; [|done].
  cbn [result_bind].
  destruct (unpack_be_I (slice png_data 20 24)) as [h|e] eqn:Hh; [|done].
  cbn [result_bind].
  destruct (render_tileset_with_palettes.read_chunks _ _ _ _ _) as [[pal idat]|e]
    eqn:Hchunks; [|done].
  cbn [result_bind fst snd].
  destruct (zlib_decompress idat) as [raw_data|e] eqn:Hraw; [|done].
  cbn [result_bind]. intros [= -> -> Hpixels ->]. cbv zeta.
  destruct (unpack_be_I_range _ _ Hw) as [_ Hwr].
  destruct (unpack_be_I_range _ _ Hh) as [Hlen24 Hhr].
  split; [done|]. split.
  { unfold slice in Hlen24. rewrite length_take, length_drop in Hlen24. lia. }
  do 5 (split; [done|]).
  set (bps := Z.to_nat ((width + 1) / 2)) in *.
  assert (forall y row, pixels !! y = Some row ->
            row = take (Z.to_nat width)
                    (take bps (drop (y * (bps + 1) + 1) raw_data)
                     ≫= fun b => render_tileset_with_palettes.unpack_nibbles (byte_val b)))
    as Hrow.
  { intros y row Hy. rewrite <- Hpixels in Hy.
    pose proof (lookup_lt_Some _ _ _ Hy) as Hlt.
    rewrite length_fmap, length_seq in Hlt.
    rewrite list_lookup_fmap, lookup_seq_lt in Hy by done.
    cbn [fmap option_fmap option_map Nat.add] in Hy. injection Hy as <-.
    by rewrite slice_take_drop. }
  split.
  { rewrite Forall_forall in Hidx. apply Forall_forall. intros row Hin.
    split; [|by apply Hidx].
    apply list_elem_of_lookup in Hin as [y Hy]. rewrite (Hrow y row Hy).
    rewrite length_take. lia. }
  exists idat, raw_data. split; [done|]. split; [done|]. split.
  - intros y x row c Hy Hx. rewrite (Hrow y row Hy) in Hx.
    apply lookup_take_Some in Hx as [Hx Hxw].
    apply unpack_nibbles_lookup in Hx as (b & Hb & Hc).
    exists b. split; [|done].
    apply lookup_take_Some in Hb as [Hb _]. by rewrite lookup_drop in Hb.
  - intros y row Hy Hlong. rewrite (Hrow y row Hy).
    assert (forall l : list Byte.byte,
              length (l ≫= fun b => render_tileset_with_palettes.unpack_nibbles
                                      (byte_val b)) = (2 * length l)%nat) as Hnib.
    { induction l as [|b l IHl]; [done|]. rewrite bind_cons, length_app, IHl.
      cbn. lia. }
    rewrite length_take, Hnib, length_take, length_drop.
    assert (Z.to_nat width <= 2 * bps)%nat; [|lia].
    unfold bps. apply Nat2Z.inj_le. rewrite Nat2Z.inj_mul, !Z2Nat.id.
    + pose proof (Z.div_mod (width + 1) 2 ltac:(lia)).
      pose proof (Z.mod_pos_bound (width + 1) 2 ltac:(lia)). lia.
    + apply Z.div_pos; lia.
    + lia.
Qed.

Lemma decoded_raster_shape_witness :
  let bytes_per_scanline := Z.to_nat ((8 + 1) / 2) in
  slice samples.indexed_png 0 8 = render_tileset_with_palettes.PNG_SIGNATURE
  /\ (24 <= length samples.indexed_png)%nat
  /\ unpack_be_I (slice samples.indexed_png 16 20) = Ok 8
  /\ unpack_be_I (slice samples.indexed_png 20 24) = Ok 8
  /\ 0 <= 8 < 2 ^ 32 /\ 0 <= 8 < 2 ^ 32
  /\ length samples.indexed_pixels = Z.to_nat 8
  /\ Forall (fun row => (length row <= Z.to_nat 8)%nat
                        /\ Forall (fun c => 0 <= c < 16) row) samples.indexed_pixels
  /\ exists idat_data raw_data,
       render_tileset_with_palettes.read_chunks (length samples.indexed_png)
         samples.indexed_png 8 None []
       = Ok (Some [x00; x00; x00; xff; x00; x00; x00; xff; x00], idat_data)
       /\ zlib.decompress_stored idat_data = Ok raw_data
       /\ (forall y x row c,
             samples.indexed_pixels !! y = Some row -> row !! x = Some c ->
             exists b,
               raw_data !! (y * (bytes_per_scanline + 1) + 1 + Nat.div x 2)%nat = Some b
               /\ c = if Nat.even x then byte_val b / 16 else byte_val b mod 16)
       /\ (forall y row,
             samples.indexed_pixels !! y = Some row ->
             ((y + 1) * (bytes_per_scanline + 1) <= length raw_data)%nat ->
             length row = Z.to_nat 8).
Proof.
  apply (decoded_raster_shape zlib.decompress_stored samples.indexed_png 8 8
           samples.indexed_pixels (Some [x00; x00; x00; xff; x00; x00; x00; xff; x00])).
  vm_compute. reflexivity.
Defined.

(** ** The palette handed to the imaging library *)

Lemma bind_as_join {A B : Type} (f : A -> list B) (l : list A) :
  l ≫= f = mjoin (f <$> l).
Proof.
  induction l as [|a l IH]; [done|].
  rewrite bind_cons, fmap_cons. change (mjoin (?b :: ?k)) with (b ++ mjoin k).
  by rewrite IH.
Qed.

(** The table passed to [putpalette] always has 768 entries.  Slot [i]
    (entries [3i .. 3i+2]) holds colour [i] of the default palette when the
    palette has one and black otherwise; colours beyond the 256th are
    dropped. *)
Theorem pil_palette_layout (default_palette : render_tileset_with_palettes.palette) :
  length (apply_palettes.pil_palette default_palette) = 768%nat
  /\ forall i, (i < 256)%nat ->
       take 3 (drop (3 * i) (apply_palettes.pil_palette default_palette))
       = match default_palette !! i with
         | Some rgb => [rgb.1.1; rgb.1.2; rgb.2]
         | None => [0; 0; 0]
         end.
Proof.
  unfold apply_palettes.pil_palette. rewrite bind_as_join.
  set (slot := fun i : nat =>
         if (i <? length default_palette)%nat then
           match default_palette !! i with
           | Some rgb => [rgb.1.1; rgb.1.2; rgb.2]
           | None => []
           end
         else [0; 0; 0]).
  assert (forall i, slot i = match default_palette !! i with
                             | Some rgb => [rgb.1.1; rgb.1.2; rgb.2]
                             | None => [0; 0; 0]
                             end) as Hslot.
  { intros i. unfold slot. destruct (Nat.ltb_spec i (length default_palette)) as [Hi|Hi].
    - destruct (default_palette !! i) as [rgb|] eqn:E; [done|].
      apply lookup_ge_None in E. lia.
    - destruct (default_palette !! i) as [rgb|] eqn:E; [|done].
      apply lookup_lt_Some in E. lia. }
  assert (Forall (fun b : list Z => length b = 3%nat) (slot <$> seq 0 256)) as Hthree.
  { apply Forall_fmap, Forall_forall. intros i _. change (length (slot i) = 3%nat). rewrite Hslot.
    by destruct (default_palette !! i). }
  split.
  - rewrite (join_uniform_length _ 3 Hthree), length_fmap, length_seq. done.
  - intros i Hi.
    pose proof (join_uniform_slice (slot <$> seq 0 256) 3 i 0 3 (slot i) Hthree) as Hs.
    rewrite Nat.add_0_r, drop_0 in Hs. rewrite (Nat.mul_comm 3 i), Hs.
    + rewrite Hslot. by destruct (default_palette !! i).
    + by rewrite list_lookup_fmap, lookup_seq_lt.
    + lia.
Qed.

(** ** The tileset converter *)

Lemma take_drop_prefix {A : Type} (l l' : list A) (n a k : nat) :
  take n l = take n l' -> (a + k <= n)%nat ->
  take k (drop a l) = take k (drop a l').
Proof.
  intros Heq Hak. rewrite !take_drop_commute.
  assert (forall l0 : list A, take (a + k) l0 = take (a + k) (take n l0)) as Htake
    by (intros l0; rewrite take_take; f_equal; lia).
  by rewrite (Htake l), (Htake l'), Heq.
Qed.

Lemma parse_attributes_records (metatiles_data attributes_data : list Byte.byte) :
  let N := Nat.div (length metatiles_data) 8 in
  exists attributes,
    convert_tileset_8x8.parse_attributes metatiles_data attributes_data = Ok attributes
    /\ length attributes = N
    /\ forall i, (i < N)%nat ->
         exists a, attributes !! i = Some a
           /\ convert_tileset_8x8.MetatileAttributes_from_bytes
                (take 4 (drop (4 * i) (attributes_data ++ replicate (4 * N) x00)))
              = Ok a.
Proof.
  intros N. unfold convert_tileset_8x8.parse_attributes. fold N.
  destruct (Nat.ltb_spec (length attributes_data) (N * 4)) as [Hshort|Hlong].
  - rewrite zero_records_replicate.
    set (padded := attributes_data ++ replicate _ x00).
    pose proof (Nat.Div0.mul_div_le (length attributes_data) 4) as Hdiv.
    assert (N * 4 <= length padded)%nat as Hpad.
    { unfold padded. rewrite length_app, length_replicate. lia. }
    rewrite Nat.min_r by done. rewrite range_step_mul by lia.
    destruct (parse_attributes_loop_spec padded N 0 []) as (attrs & Hloop & Hl & Hattrs);
      [lia|].
    exists attrs. split; [done|]. split; [done|].
    intros i Hi. destruct (Hattrs i Hi) as (a & Ha & Hfrom).
    exists a. split; [done|]. rewrite <- Hfrom. cbn [Nat.add].
    rewrite (Nat.mul_comm i 4). f_equal.
    apply (take_drop_prefix _ _ (4 * N)); [|lia].
    unfold padded. rewrite !take_app_ge, !take_replicate by lia.
    do 2 f_equal. lia.
  - rewrite Nat.min_r by done. rewrite range_step_mul by lia.
    destruct (parse_attributes_loop_spec attributes_data N 0 [])
      as (attrs & Hloop & Hl & Hattrs); [lia|].
    exists attrs. split; [done|]. split; [done|].
    intros i Hi. destruct (Hattrs i Hi) as (a & Ha & Hfrom).
    exists a. split; [done|]. rewrite <- Hfrom. cbn [Nat.add].
    rewrite (Nat.mul_comm i 4). f_equal.
    apply (take_drop_prefix _ _ (4 * N)); [|lia].
    by rewrite take_app_le by lia.
Qed.

(** Loading a tileset whose metatile table consists of whole 8-byte
    records always succeeds, whatever the attributes file holds and whether
    or not it exists, with one metatile per record.  Metatile [i] keeps the
    four 16-bit little-endian words of its record unmasked, flip and
    palette bits included, and the four position names select them in
    order; its attributes are decoded from bytes [4i .. 4i+3] of the
    attributes file continued with zero bytes, so a missing, short or
    partly cut record reads as zeros and bytes beyond the last record are
    ignored. *)
Theorem tileset_metatile_records (metatiles_data : list Byte.byte)
    (attributes_file : option (list Byte.byte)) (N : nat) :
  length metatiles_data = (N * 8)%nat ->
  exists metatiles,
    convert_tileset_8x8.load_metatiles metatiles_data attributes_file = Ok metatiles
    /\ length metatiles = N
    /\ forall i, (i < N)%nat ->
         exists m t0 t1 t2 t3,
           metatiles !! i = Some m
           /\ convert_tileset_8x8.tiles m = [t0; t1; t2; t3]
           /\ le16s (take 8 (drop (8 * i) metatiles_data)) = [t0; t1; t2; t3]
           /\ convert_tileset_8x8.MetatileAttributes_from_bytes
                (take 4 (drop (4 * i)
                           (default [] attributes_file ++ replicate (4 * N) x00)))
              = Ok (convert_tileset_8x8.attributes m)
           /\ convert_tileset_8x8.get_tile_at_position m "top_left" = Ok t0
           /\ convert_tileset_8x8.get_tile_at_position m "top_right" = Ok t1
           /\ convert_tileset_8x8.get_tile_at_position m "bottom_left" = Ok t2
           /\ convert_tileset_8x8.get_tile_at_position m "bottom_right" = Ok t3.
Proof.
  intros Hmd. unfold convert_tileset_8x8.load_metatiles.
  assert (Nat.div (length metatiles_data) 8 = N) as HN
    by (rewrite Hmd; apply Nat.div_mul; lia).
  rewrite HN.
  set (attributes_data := match attributes_file with
                          | Some data => data
                          | None => convert_tileset_8x8.zero_records N
                          end).
  destruct (parse_attributes_records metatiles_data attributes_data)
    as (attrs & Hattrs & Hl & Hrec).
  rewrite HN in Hl, Hrec. rewrite Hattrs. cbn [result_bind].
  rewrite Hmd, range_step_mul by lia.
  destruct (parse_metatiles_loop_spec metatiles_data attrs N 0 [])
    as (ms & Hloop & Hlms & Hms); [lia|].
  exists ms. split; [done|]. split; [done|].
  intros i Hi. destruct (Hms i Hi) as (m & Hm & Hattr & Htiles).
  cbn [Nat.add] in Hattr, Htiles. rewrite (Nat.mul_comm i 8) in Htiles.
  assert (length (convert_tileset_8x8.tiles m) = 4%nat) as Hfour.
  { rewrite Htiles, le16s_length, length_take, length_drop. rewrite Hmd.
    replace (Nat.min 8 (N * 8 - 8 * i)) with 8%nat by lia. done. }
  destruct (convert_tileset_8x8.tiles m) as [|t0 [|t1 [|t2 [|t3 [|? ?]]]]] eqn:Ht;
    try discriminate Hfour.
  exists m, t0, t1, t2, t3. split; [done|]. split; [done|]. split; [done|].
  split.
  { destruct (Hrec i Hi) as (a & Ha & Hfrom). rewrite Ha in Hattr.
    cbn [default from_option id] in Hattr. rewrite Hattr.
    rewrite <- Hfrom. f_equal. apply (take_drop_prefix _ _ (4 * N)); [|lia].
    unfold attributes_data.
    destruct attributes_file as [data|]; cbn [default from_option id]; [done|].
    rewrite zero_records_replicate, app_nil_l.
    rewrite take_app_length' by (by rewrite length_replicate).
    by rewrite take_ge by (rewrite length_replicate; lia). }
  unfold convert_tileset_8x8.get_tile_at_position. rewrite Ht.
  repeat split; vm_compute; reflexivity.
Qed.

Lemma tileset_metatile_records_witness :
  exists metatiles,
    convert_tileset_8x8.load_metatiles
      [x01; x00; x02; x10; x03; x04; x04; x08] (Some [x07; x00]) = Ok metatiles
    /\ length metatiles = 1%nat
    /\ forall i, (i < 1)%nat ->
         exists m t0 t1 t2 t3,
           metatiles !! i = Some m
           /\ convert_tileset_8x8.tiles m = [t0; t1; t2; t3]
           /\ le16s (take 8 (drop (8 * i) [x01; x00; x02; x10; x03; x04; x04; x08]))
              = [t0; t1; t2; t3]
           /\ convert_tileset_8x8.MetatileAttributes_from_bytes
                (take 4 (drop (4 * i)
                           (default [] (Some [x07; x00]) ++ replicate (4 * 1) x00)))
              = Ok (convert_tileset_8x8.attributes m)
           /\ convert_tileset_8x8.get_tile_at_position m "top_left" = Ok t0
           /\ convert_tileset_8x8.get_tile_at_position m "top_right" = Ok t1
           /\ convert_tileset_8x8.get_tile_at_position m "bottom_left" = Ok t2
           /\ convert_tileset_8x8.get_tile_at_position m "bottom_right" = Ok t3.
Proof.
  apply (tileset_metatile_records
           [x01; x00; x02; x10; x03; x04; x04; x08] (Some [x07; x00]) 1).
  reflexivity.
Defined.

(** The 4-byte attribute record of the tileset converter.  A buffer of any
    other length is rejected with the error of [struct.unpack].  Of a
    4-byte record the behavior is the whole first little-endian word (not
    reduced to 8 bits), and terrain, encounter type and layer type are bits
    0-3, 4-6 and 7-8 of the second word: together they are its low 9 bits,
    the upper 7 bits are dropped.  The elevation is the terrain. *)
Theorem tileset_attribute_fields (data : list Byte.byte) :
  match data with
  | [b0; b1; b2; b3] =>
      let word := byte_val b2 + 256 * byte_val b3 in
      exists a,
        convert_tileset_8x8.MetatileAttributes_from_bytes data = Ok a
        /\ convert_tileset_8x8.behavior a = byte_val b0 + 256 * byte_val b1
        /\ convert_tileset_8x8.terrain a = word mod 16
        /\ convert_tileset_8x8.encounter_type a = (word / 16) mod 8
        /\ convert_tileset_8x8.layer_type a = (word / 128) mod 4
        /\ convert_tileset_8x8.terrain a
           + 16 * convert_tileset_8x8.encounter_type a
           + 128 * convert_tileset_8x8.layer_type a = word mod 512
        /\ convert_tileset_8x8.get_elevation a = convert_tileset_8x8.terrain a
  | _ => convert_tileset_8x8.MetatileAttributes_from_bytes data = Raise StructError
  end.
Proof.
  destruct data as [|b0 [|b1 [|b2 [|b3 [|b4 data]]]]]; try reflexivity.
  cbv zeta. eexists. split; [reflexivity|].
  cbn [convert_tileset_8x8.behavior convert_tileset_8x8.terrain
       convert_tileset_8x8.encounter_type convert_tileset_8x8.layer_type
       convert_tileset_8x8.get_elevation].
  rewrite !le16_value.
  pose proof (byte_val_range b2) as H2. pose proof (byte_val_range b3) as H3.
  set (word := byte_val b2 + 256 * byte_val b3).
  assert (forall v, Z.land v 15 = v mod 16) as M4
    by (intros v; change 15 with (Z.ones 4); by rewrite Z.land_ones).
  assert (forall v, Z.land v 7 = v mod 8) as M3
    by (intros v; change 7 with (Z.ones 3); by rewrite Z.land_ones).
  assert (forall v, Z.land v 3 = v mod 4) as M2
    by (intros v; change 3 with (Z.ones 2); by rewrite Z.land_ones).
  unfold convert_tileset_8x8.get_elevation. cbn [convert_tileset_8x8.terrain].
  rewrite !M4, !M3, !M2, !Z.shiftr_div_pow2 by lia.
  change (2 ^ 4) with 16. change (2 ^ 7) with 128.
  split; [done|]. split; [done|]. split; [done|]. split; [done|]. split.
  - pose proof (Z.div_mod word 16 ltac:(lia)) as E1.
    pose proof (Z.mod_pos_bound word 16 ltac:(lia)) as B1.
    pose proof (Z.div_mod (word / 16) 8 ltac:(lia)) as E2.
    pose proof (Z.mod_pos_bound (word / 16) 8 ltac:(lia)) as B2.
    pose proof (Z.div_mod (word / 128) 4 ltac:(lia)) as E3.
    pose proof (Z.mod_pos_bound (word / 128) 4 ltac:(lia)) as B3.
    pose proof (Z.div_mod word 512 ltac:(lia)) as E4.
    pose proof (Z.mod_pos_bound word 512 ltac:(lia)) as B4.
    assert (word / 16 / 8 = word / 128) as E5 by (rewrite Z.div_div by lia; done).
    assert (word / 128 / 4 = word / 512) as E6 by (rewrite Z.div_div by lia; done).
    rewrite E5 in E2. rewrite E6 in E3. lia.
  - rewrite Z.mod_mod by lia. done.
Qed.

(** Deep water (behavior 5) is the only behavior that both blocks
    movement and has a non-zero encounter rate; the rate is always one of
    0, 5, 10, 20 and 25, and whether a metatile is solid and what its rate
    is depend on its behavior alone, not on terrain, encounter type or
    layer type. *)
Theorem solid_and_encounter_rate (a : convert_tileset_8x8.MetatileAttributes) :
  convert_tileset_8x8.get_encounter_rate a ∈ [0; 5; 10; 20; 25]
  /\ ((convert_tileset_8x8.is_solid a = true
       /\ convert_tileset_8x8.get_encounter_rate a ≠ 0)
      <-> convert_tileset_8x8.behavior a = 5)
  /\ forall a',
       convert_tileset_8x8.behavior a' = convert_tileset_8x8.behavior a ->
       convert_tileset_8x8.is_solid a' = convert_tileset_8x8.is_solid a
       /\ convert_tileset_8x8.get_encounter_rate a'
          = convert_tileset_8x8.get_encounter_rate a.
Proof.
  unfold convert_tileset_8x8.is_solid, convert_tileset_8x8.get_encounter_rate.
  split; [|split].
  - destruct (Z.eqb_spec (convert_tileset_8x8.behavior a) 1); [repeat constructor|].
    destruct (Z.eqb_spec (convert_tileset_8x8.behavior a) 2); [repeat constructor|].
    destruct (Z.eqb_spec (convert_tileset_8x8.behavior a) 6); [repeat constructor|].
    destruct (Z.eqb_spec (convert_tileset_8x8.behavior a) 5); [repeat constructor|].
    destruct (Z.eqb_spec (convert_tileset_8x8.behavior a) 0x25); [repeat constructor|].
    destruct (Z.eqb_spec (convert_tileset_8x8.behavior a) 7); repeat constructor.
  - destruct (Z.leb_spec 0x15 (convert_tileset_8x8.behavior a));
      destruct (Z.ltb_spec (convert_tileset_8x8.behavior a) 0x1D);
      destruct (Z.eqb_spec (convert_tileset_8x8.behavior a) 0x33);
      destruct (Z.eqb_spec (convert_tileset_8x8.behavior a) 0x0C);
      destruct (Z.eqb_spec (convert_tileset_8x8.behavior a) 0x05);
      destruct (Z.eqb_spec (convert_tileset_8x8.behavior a) 0x11);
      destruct (Z.eqb_spec (convert_tileset_8x8.behavior a) 0x01);
      destruct (Z.eqb_spec (convert_tileset_8x8.behavior a) 0x02);
      destruct (Z.eqb_spec (convert_tileset_8x8.behavior a) 0x06);
      destruct (Z.eqb_spec (convert_tileset_8x8.behavior a) 0x25);
      destruct (Z.eqb_spec (convert_tileset_8x8.behavior a) 0x07);
      try lia; cbn [andb orb]; (split; [intros [? ?]; done || lia|intros ?; done || lia]).
  - intros a' ->. done.
Qed.

(** ** Behavior names of the map converter *)

(** The 256 behaviors an attribute record can carry have 256 different
    names, the names made up for the behaviors that the table does not list
    included, so the exported name determines the behavior. *)
Theorem behavior_names_distinct (behavior1 behavior2 : Z) :
  0 <= behavior1 < 256 -> 0 <= behavior2 < 256 ->
  behavior1 <> behavior2 ->
  convert_map_8x8.behavior_name_of behavior1 <> convert_map_8x8.behavior_name_of behavior2.
Proof.
  intros H1 H2 Hne Hname.
  set (names := (fun k : nat => convert_map_8x8.behavior_name_of (Z.of_nat k))
                  <$> seq 0 256).
  assert (NoDup names) as Hnd
    by (apply (bool_decide_unpack (NoDup names)); vm_compute; exact I).
  assert (forall b, 0 <= b < 256 ->
            names !! Z.to_nat b = Some (convert_map_8x8.behavior_name_of b)) as Hlook.
  { intros b Hb. unfold names. rewrite list_lookup_fmap, lookup_seq_lt by lia.
    cbn. by rewrite Z2Nat.id by lia. }
  pose proof (proj1 (NoDup_alt names) Hnd (Z.to_nat behavior1) (Z.to_nat behavior2)
                _ (Hlook _ H1)) as Hinj.
  rewrite Hname in Hinj. specialize (Hinj (Hlook _ H2)). lia.
Qed.

Lemma behavior_names_distinct_witness :
  convert_map_8x8.behavior_name_of 0x33 <> convert_map_8x8.behavior_name_of 0x34.
Proof.
  apply (behavior_names_distinct 0x33 0x34); lia.
Defined.

(** ** The palette a tile is drawn with *)

(** The palette chosen for a tile is always between 0 and 15, and it is 0
    for every tile index outside 0..1023, which no TileBitfield can name.
    Only whole 16-byte metatile records are scanned: bytes after the last
    whole record never change the answer. *)
Theorem tile_palette_index_range (data extra : list Byte.byte) (tile_idx : Z) :
  exists palette_idx,
    render_tileset_with_palettes.get_tile_palette_index data tile_idx = Ok palette_idx
    /\ 0 <= palette_idx <= 15
    /\ (~ 0 <= tile_idx <= 1023 -> palette_idx = 0)
    /\ ((length data mod 16 = 0)%nat -> (length extra < 16)%nat ->
        render_tileset_with_palettes.get_tile_palette_index (data ++ extra) tile_idx
        = Ok palette_idx).
Proof.
  exists (spec.first_match_palette data tile_idx).
  split; [apply get_tile_palette_index_spec|].
  assert (forall raw, 0 <= Z.land raw 0x3FF <= 1023) as Hid.
  { intros raw. change 1023 with (Z.ones 10). rewrite Z.land_ones by lia.
    pose proof (Z.mod_pos_bound raw (2 ^ 10) ltac:(lia)).
    change (Z.ones 10) with (2 ^ 10 - 1). lia. }
  split; [|split].
  - unfold spec.first_match_palette.
    destruct (list_find _ _) as [[k raw]|]; [|lia].
    assert (forall v, Z.land v 15 = v mod 16) as ->
      by (intros v; change 15 with (Z.ones 4); by rewrite Z.land_ones).
    pose proof (Z.mod_pos_bound (Z.shiftr raw 12) 16 ltac:(lia)). lia.
  - intros Hout. unfold spec.first_match_palette.
    destruct (list_find _ _) as [[k raw]|] eqn:Hfind; [|done].
    apply list_find_Some in Hfind as (_ & Hmatch & _).
    specialize (Hid raw). lia.
  - intros Hwhole Hextra. rewrite get_tile_palette_index_spec.
    unfold spec.first_match_palette, spec.tile_bitfields.
    pose proof (Nat.div_mod_eq (length data) 16) as Hdm. rewrite Hwhole in Hdm.
    assert (Nat.div (length (data ++ extra)) 16 = Nat.div (length data) 16) as ->.
    { rewrite length_app. symmetry.
      apply (Nat.div_unique _ _ _ (length extra)); lia. }
    rewrite take_app_le by lia. done.
Qed.

(** ** The metatile validator *)

Section validator.

Context {K V : Type} `{EqDecision K}.

Lemma dict_get_set_eq (d : validate_metatiles.dict K V) (k : K) (v : V) :
  validate_metatiles.dict_get (validate_metatiles.dict_set d k v) k = Some v.
Proof.
  induction d as [|kv d IH]; cbn.
  - by rewrite decide_True.
  - destruct (decide (kv.1 = k)) as [Hk|Hk]; cbn.
    + by rewrite decide_True.
    + by rewrite decide_False.
Qed.

Lemma dict_get_set_ne (d : validate_metatiles.dict K V) (k k' : K) (v : V) :
  k' <> k ->
  validate_metatiles.dict_get (validate_metatiles.dict_set d k v) k'
  = validate_metatiles.dict_get d k'.
Proof.
  intros Hne. induction d as [|kv d IH]; cbn.
  - by rewrite decide_False.
  - destruct (decide (kv.1 = k)) as [Hk|Hk]; cbn.
    + rewrite decide_False by done. by rewrite decide_False by congruence.
    + by rewrite IH.
Qed.

Lemma dict_get_None (d : validate_metatiles.dict K V) (k : K) :
  validate_metatiles.dict_get d k = None <-> k ∉ d.*1.
Proof.
  induction d as [|kv d IH]; cbn.
  - split; [intros _; apply not_elem_of_nil|done].
  - rewrite not_elem_of_cons. destruct (decide (kv.1 = k)) as [Hk|Hk].
    + split; [done|]. intros [Hne _]. by destruct Hne.
    + rewrite IH. split; [by intros ?; split|by intros [_ ?]].
Qed.

Lemma dict_get_elem (d : validate_metatiles.dict K V) (k : K) (v : V) :
  NoDup d.*1 ->
  (k, v) ∈ d <-> validate_metatiles.dict_get d k = Some v.
Proof.
  induction d as [|kv d IH]; cbn.
  - intros _. split; [by intros ?%elem_of_nil|done].
  - rewrite NoDup_cons. intros [Hnotin Hnd]. rewrite elem_of_cons.
    destruct (decide (kv.1 = k)) as [Hk|Hk].
    + split.
      * intros [Heq|Hin]; [by subst kv|]. destruct Hnotin. rewrite Hk.
        apply list_elem_of_fmap. by exists (k, v).
      * intros [= <-]. left. destruct kv. cbn in *. by subst.
    + rewrite <- (IH Hnd). split; [|by right].
      intros [Heq|Hin]; [by subst kv|done].
Qed.

Lemma dict_get_Some_elem (d : validate_metatiles.dict K V) (k : K) (v : V) :
  validate_metatiles.dict_get d k = Some v -> (k, v) ∈ d.
Proof.
  induction d as [|kv d IH]; cbn; [done|].
  destruct (decide (kv.1 = k)) as [Hk|Hk].
  - intros [= <-]. destruct kv. cbn in *. subst. left.
  - intros Hget. right. by apply IH.
Qed.

Lemma dict_set_new (d : validate_metatiles.dict K V) (k : K) (v : V) :
  k ∉ d.*1 -> validate_metatiles.dict_set d k v = d ++ [(k, v)].
Proof.
  induction d as [|kv d IH]; cbn; [done|].
  rewrite not_elem_of_cons. intros [Hne Hnotin].
  rewrite decide_False by done. by rewrite IH.
Qed.

Lemma dict_set_keys (d : validate_metatiles.dict K V) (k : K) (v : V) :
  NoDup d.*1 -> NoDup (validate_metatiles.dict_set d k v).*1.
Proof.
  induction d as [|kv d IH]; cbn.
  - intros _. apply NoDup_singleton.
  - rewrite NoDup_cons. intros [Hnotin Hnd].
    destruct (decide (kv.1 = k)) as [Hk|Hk]; cbn.
    + apply NoDup_cons. split; [by rewrite <- Hk|done].
    + apply NoDup_cons. split; [|by apply IH].
      intros Hin. apply Hnotin.
      destruct (decide (kv.1 ∈ d.*1)) as [|Hout]; [done|].
      apply dict_get_None in Hout. 
      assert (validate_metatiles.dict_get (validate_metatiles.dict_set d k v) kv.1 = None)
        as Hnone by (by rewrite dict_get_set_ne).
      apply dict_get_None in Hnone. done.
Qed.

Lemma dict_set_nonempty (d : validate_metatiles.dict K V) (k : K) (v : V) :
  validate_metatiles.dict_set d k v <> [].
Proof. destruct d as [|kv d]; cbn; [done|]. by destruct (decide (kv.1 = k)). Qed.

End validator.

Section validator_checks.

Variable str_lower : string -> string.
Variable str_strip : string -> string.

Local Abbreviation normalize := (validate_metatiles.normalize str_lower str_strip).
Local Abbreviation at_pos :=
  (spec.tiles_at (validate_metatiles.normalize str_lower str_strip)).
Local Abbreviation grouped :=
  (spec.grouped (validate_metatiles.normalize str_lower str_strip)).
Local Abbreviation tile_rejected :=
  (spec.tile_rejected (validate_metatiles.normalize str_lower str_strip)).

Lemma tiles_at_snoc (seen : list validate_metatiles.TileInfo)
    (t : validate_metatiles.TileInfo) (m : Z) (pos : string) :
  at_pos (seen ++ [t]) m pos
  = at_pos seen m pos ++ (if spec.tile_at normalize m pos t then [t] else []).
Proof.
  unfold spec.tiles_at. rewrite filter_app. f_equal.
  rewrite filter_cons, filter_nil.
  by destruct (spec.tile_at normalize m pos t).
Qed.

Lemma group_tile_step (seen : list validate_metatiles.TileInfo)
    (metatiles : validate_metatiles.dict Z
                   (validate_metatiles.dict string (list validate_metatiles.TileInfo)))
    (self : validate_metatiles.MetatileValidator) (t : validate_metatiles.TileInfo) :
  grouped seen metatiles ->
  exists metatiles' self' new_errors,
    validate_metatiles.group_tile str_lower str_strip (metatiles, self) t
    = (metatiles', self')
    /\ validate_metatiles.errors self' = validate_metatiles.errors self ++ new_errors
    /\ grouped (seen ++ [t]) metatiles'
    /\ (new_errors = [] <-> ~ tile_rejected t).
Proof.
  intros [Hnd Hinv]. unfold validate_metatiles.group_tile. cbn [fst snd].
  assert (forall ms : validate_metatiles.dict Z
                        (validate_metatiles.dict string (list validate_metatiles.TileInfo)),
            (forall m pos, pos ∈ validate_metatiles.required ->
                           spec.tile_at normalize m pos t = false) ->
            ms = metatiles -> grouped (seen ++ [t]) ms) as Hsame.
  { intros ms Hfalse ->. split; [done|]. intros m. specialize (Hinv m).
    destruct (validate_metatiles.dict_get metatiles m) as [positions|].
    - destruct Hinv as (HndP & Hne & Hpos). split; [done|]. split; [done|].
      intros pos. specialize (Hpos pos).
      destruct (validate_metatiles.dict_get positions pos) as [tile_list|].
      + destruct Hpos as (Hreq & -> & Hnil). split; [done|].
        rewrite tiles_at_snoc, Hfalse, app_nil_r by done. done.
      + intros Hreq. rewrite tiles_at_snoc, Hfalse, app_nil_r by done. by apply Hpos.
    - intros pos Hreq. rewrite tiles_at_snoc, Hfalse, app_nil_r by done. by apply Hinv. }
  destruct (validate_metatiles.metatile_id t) as [mid|] eqn:Hid; cycle 1.
  { eexists metatiles, _, []. split; [reflexivity|].
      split; [by rewrite app_nil_r|]. split.
      - apply Hsame; [|done]. intros m pos _. unfold spec.tile_at. by rewrite Hid.
      - split; [|done]. intros _ (m & Hm & _). congruence. }
  destruct (validate_metatiles.metatile_pos t) as [[|c s]|] eqn:Hpos.
  { eexists metatiles, _, [_]. split; [reflexivity|]. split; [reflexivity|]. split.
    - apply Hsame; [|done]. intros m pos _. unfold spec.tile_at. by rewrite Hid, Hpos.
    - split; [done|]. intros Hrej. destruct Hrej. exists mid. split; [done|].
      intros (c' & s' & Heq & _). congruence. }
  2:{ eexists metatiles, _, [_]. split; [reflexivity|]. split; [reflexivity|]. split.
      - apply Hsame; [|done]. intros m pos _. unfold spec.tile_at. by rewrite Hid, Hpos.
      - split; [done|]. intros Hrej. destruct Hrej. exists mid. split; [done|].
        intros (c' & s' & Heq & _). congruence. }
  set (pos0 := normalize (String c s)).
  change ["top_left"; "top_right"; "bottom_left"; "bottom_right"]%string
    with validate_metatiles.required.
  destruct (decide (pos0 ∈ validate_metatiles.required)) as [Hvalid|Hinvalid].
  2:{ eexists metatiles, _, [_]. split; [reflexivity|]. split; [reflexivity|]. split.
      - apply Hsame; [|done]. intros m pos Hreq. unfold spec.tile_at.
        rewrite Hid, Hpos. apply bool_decide_eq_false. intros [_ Heq].
        fold pos0 in Heq. by subst pos.
      - split; [done|]. intros Hrej. destruct Hrej. exists mid. split; [done|].
        intros (c' & s' & Heq & Hin). rewrite Hpos in Heq.
        injection Heq as <- <-. done. }
  set (positions0 := default [] (validate_metatiles.dict_get metatiles mid)).
  set (tile_list0 := default [] (validate_metatiles.dict_get positions0 pos0)).
  exists (validate_metatiles.dict_set metatiles mid
            (validate_metatiles.dict_set positions0 pos0 (tile_list0 ++ [t]))), self, [].
  split; [reflexivity|]. split; [by rewrite app_nil_r|]. split.
  2:{ split; [|done]. intros _ (m & Hm & Hno). apply Hno. exists c, s. by split. }
  assert (forall m pos, spec.tile_at normalize m pos t = true <-> m = mid /\ pos = pos0)
    as Hat.
  { intros m pos. unfold spec.tile_at. rewrite Hid, Hpos.
    rewrite bool_decide_eq_true. fold pos0. split; intros [-> ->]; done. }
  assert (NoDup positions0.*1 /\
          forall pos,
            match validate_metatiles.dict_get positions0 pos with
            | None => pos ∈ validate_metatiles.required -> at_pos seen mid pos = []
            | Some tile_list =>
                pos ∈ validate_metatiles.required
                /\ tile_list = at_pos seen mid pos /\ tile_list <> []
            end) as [HndP0 HP0].
  { unfold positions0. specialize (Hinv mid).
    destruct (validate_metatiles.dict_get metatiles mid) as [positions|];
      cbn [default from_option id].
    - by destruct Hinv as (? & _ & ?).
    - split; [apply NoDup_nil_2|]. intros pos. cbn. by apply Hinv. }
  split; [by apply dict_set_keys|]. intros m.
  destruct (decide (m = mid)) as [->|Hm].
  - rewrite dict_get_set_eq. split; [by apply dict_set_keys|].
    split; [apply dict_set_nonempty|]. intros pos.
    destruct (decide (pos = pos0)) as [->|Hp].
    + rewrite dict_get_set_eq. split; [done|]. split; [|by destruct tile_list0].
      rewrite tiles_at_snoc. rewrite (proj2 (Hat mid pos0)) by done. f_equal.
      unfold tile_list0. specialize (HP0 pos0).
      destruct (validate_metatiles.dict_get positions0 pos0) as [tile_list|];
        cbn [default from_option id].
      * by destruct HP0 as (_ & ? & _).
      * symmetry. by apply HP0.
    + rewrite dict_get_set_ne by done. specialize (HP0 pos).
      assert (spec.tile_at normalize mid pos t = false) as Hf.
      { apply not_true_is_false. intros [_ ?]%Hat. done. }
      destruct (validate_metatiles.dict_get positions0 pos) as [tile_list|].
      * destruct HP0 as (Hreq & -> & Hnil). split; [done|].
        by rewrite tiles_at_snoc, Hf, app_nil_r.
      * intros Hreq. rewrite tiles_at_snoc, Hf, app_nil_r. by apply HP0.
  - rewrite dict_get_set_ne by done. specialize (Hinv m).
    assert (forall pos, spec.tile_at normalize m pos t = false) as Hf.
    { intros pos. apply not_true_is_false. intros [? _]%Hat. done. }
    destruct (validate_metatiles.dict_get metatiles m) as [positions|].
    + destruct Hinv as (HndP & Hne & Hposs). split; [done|]. split; [done|].
      intros pos. specialize (Hposs pos).
      destruct (validate_metatiles.dict_get positions pos) as [tile_list|].
      * destruct Hposs as (Hreq & -> & Hnil). split; [done|].
        by rewrite tiles_at_snoc, Hf, app_nil_r.
      * intros Hreq. rewrite tiles_at_snoc, Hf, app_nil_r. by apply Hposs.
    + intros pos Hreq. rewrite tiles_at_snoc, Hf, app_nil_r. by apply Hinv.
Qed.

Lemma group_loop (tiles seen : list validate_metatiles.TileInfo)
    (metatiles : validate_metatiles.dict Z
                   (validate_metatiles.dict string (list validate_metatiles.TileInfo)))
    (self : validate_metatiles.MetatileValidator) :
  grouped seen metatiles ->
  exists metatiles' self' new_errors,
    foldl (validate_metatiles.group_tile str_lower str_strip) (metatiles, self) tiles
    = (metatiles', self')
    /\ validate_metatiles.errors self' = validate_metatiles.errors self ++ new_errors
    /\ grouped (seen ++ tiles) metatiles'
    /\ (new_errors = [] <-> Forall (fun t => ~ tile_rejected t) tiles).
Proof.
  revert seen metatiles self.
  induction tiles as [|t tiles IH]; intros seen metatiles self Hinv.
  { exists metatiles, self, []. rewrite !app_nil_r.
    split; [done|]. split; [done|]. split; [done|]. split; [by constructor|done]. }
  destruct (group_tile_step seen metatiles self t Hinv)
    as (metatiles1 & self1 & E1 & Hstep & Herr1 & Hinv1 & HE1).
  destruct (IH (seen ++ [t]) metatiles1 self1 Hinv1)
    as (metatiles2 & self2 & E2 & Hloop & Herr2 & Hinv2 & HE2).
  exists metatiles2, self2, (E1 ++ E2). cbn [foldl]. rewrite Hstep.
  split; [done|]. split; [by rewrite Herr2, Herr1, (assoc_L (++))|].
  split; [by rewrite <- (assoc_L (++)) in Hinv2|].
  rewrite Forall_cons, <- HE1, <- HE2. split.
  - by intros [-> ->]%app_eq_nil.
  - by intros [-> ->].
Qed.

Lemma group_positions_spec (mid : Z)
    (positions : validate_metatiles.dict string (list validate_metatiles.TileInfo))
    (group : validate_metatiles.MetatileGroup)
    (self : validate_metatiles.MetatileValidator) :
  Forall (fun kv => kv.2 <> []) positions ->
  NoDup ((validate_metatiles.tiles group).*1 ++ positions.*1) ->
  exists new self' new_errors,
    validate_metatiles.group_positions mid positions group self
    = Ok (validate_metatiles.mkMetatileGroup
            (validate_metatiles.group_metatile_id group)
            (validate_metatiles.tiles group ++ new), self')
    /\ validate_metatiles.errors self' = validate_metatiles.errors self ++ new_errors
    /\ Forall2 (fun (kv : string * list validate_metatiles.TileInfo)
                    (pt : string * validate_metatiles.TileInfo) =>
                  pt.1 = kv.1 /\ head kv.2 = Some pt.2) positions new
    /\ (new_errors = [] <-> Forall (fun kv => (length kv.2 <= 1)%nat) positions).
Proof.
  revert group self.
  induction positions as [|[pos tile_list] positions IH]; intros group self Hne Hnd.
  { exists [], self, []. cbn. rewrite !app_nil_r. destruct group.
    split; [done|]. split; [done|]. split; [by constructor|].
    split; [by constructor|done]. }
  apply Forall_cons in Hne as [Hne1 Hne].
  destruct tile_list as [|first tile_list]; [done|].
  cbn [validate_metatiles.group_positions fst snd getitem lookup list_lookup result_bind].
  assert (validate_metatiles.dict_set (validate_metatiles.tiles group) pos first
          = validate_metatiles.tiles group ++ [(pos, first)]) as ->.
  { apply dict_set_new. rewrite fmap_cons in Hnd. apply NoDup_app in Hnd as (_ & Hdisj & _).
    intros Hin. apply (Hdisj pos Hin). left. }
  assert (NoDup ((validate_metatiles.tiles group ++ [(pos, first)]).*1 ++ positions.*1))
    as Hnd'.
  { rewrite fmap_app, <- (assoc_L (++)). exact Hnd. }
  destruct (Nat.ltb_spec 1 (length (first :: tile_list))) as [Hdup|Hone].
  - destruct (IH (validate_metatiles.mkMetatileGroup
                    (validate_metatiles.group_metatile_id group)
                    (validate_metatiles.tiles group ++ [(pos, first)]))
                (validate_metatiles.add_error self
                   ("Metatile " +:+ pretty mid +:+ " has duplicate " +:+ pos
                    +:+ " tiles at: "
                    +:+ String.concat ", "
                          ((fun t => validate_metatiles.pair_str (validate_metatiles.x t)
                                       (validate_metatiles.y t))
                             <$> first :: tile_list))) Hne Hnd')
      as (new & self' & E & Hloop & Herr & HF & HE).
    eexists ((pos, first) :: new), self', (_ :: E).
    split; [rewrite Hloop; cbn; by rewrite <- (assoc_L (++))|].
    split; [rewrite Herr; cbn; by rewrite <- (assoc_L (++))|].
    split; [by constructor|].
    split; [done|]. intros [Hle _]%Forall_cons. cbn [snd] in Hle. lia.
  - destruct (IH (validate_metatiles.mkMetatileGroup
                    (validate_metatiles.group_metatile_id group)
                    (validate_metatiles.tiles group ++ [(pos, first)])) self Hne Hnd')
      as (new & self' & E & Hloop & Herr & HF & HE).
    exists ((pos, first) :: new), self', E.
    split; [rewrite Hloop; cbn; by rewrite <- (assoc_L (++))|].
    split; [done|]. split; [by constructor|].
    rewrite HE, Forall_cons. cbn [snd]. tauto.
Qed.

Lemma build_groups_spec
    (metatiles : validate_metatiles.dict Z
                   (validate_metatiles.dict string (list validate_metatiles.TileInfo)))
    (groups : validate_metatiles.dict Z validate_metatiles.MetatileGroup)
    (self : validate_metatiles.MetatileValidator) :
  Forall (fun mP => NoDup mP.2.*1 /\ Forall (fun kv => kv.2 <> []) mP.2) metatiles ->
  NoDup (groups.*1 ++ metatiles.*1) ->
  exists new self' new_errors,
    validate_metatiles.build_groups metatiles groups self = Ok (groups ++ new, self')
    /\ validate_metatiles.errors self' = validate_metatiles.errors self ++ new_errors
    /\ Forall2 (fun (mP : Z * validate_metatiles.dict string (list validate_metatiles.TileInfo))
                    (mg : Z * validate_metatiles.MetatileGroup) =>
                  mg.1 = mP.1
                  /\ Forall2 (fun (kv : string * list validate_metatiles.TileInfo)
                                  (pt : string * validate_metatiles.TileInfo) =>
                                pt.1 = kv.1 /\ head kv.2 = Some pt.2)
                       mP.2 (validate_metatiles.tiles mg.2)) metatiles new
    /\ (new_errors = []
        <-> Forall (fun mP => Forall (fun kv => (length kv.2 <= 1)%nat) mP.2) metatiles).
Proof.
  revert groups self.
  induction metatiles as [|[mid positions] metatiles IH]; intros groups self Hall Hnd.
  { exists [], self, []. cbn. rewrite !app_nil_r.
    split; [done|]. split; [done|]. split; [by constructor|].
    split; [by constructor|done]. }
  apply Forall_cons in Hall as [[HndP HneP] Hall]. cbn [fst snd] in HndP, HneP.
  cbn [validate_metatiles.build_groups fst snd].
  destruct (group_positions_spec mid positions
              (validate_metatiles.mkMetatileGroup mid []) self HneP HndP)
    as (new_tiles & self1 & E1 & Hpos & Herr1 & HF1 & HE1).
  rewrite Hpos. cbn [result_bind fst snd validate_metatiles.tiles
                     validate_metatiles.group_metatile_id app].
  assert (validate_metatiles.dict_set groups mid
            (validate_metatiles.mkMetatileGroup mid new_tiles)
          = groups ++ [(mid, validate_metatiles.mkMetatileGroup mid new_tiles)]) as ->.
  { apply dict_set_new. rewrite fmap_cons in Hnd.
    apply NoDup_app in Hnd as (_ & Hdisj & _). intros Hin. apply (Hdisj mid Hin). left. }
  destruct (IH (groups ++ [(mid, validate_metatiles.mkMetatileGroup mid new_tiles)]) self1
              Hall) as (new & self2 & E2 & Hloop & Herr2 & HF2 & HE2).
  { rewrite fmap_app, <- (assoc_L (++)). exact Hnd. }
  exists ((mid, validate_metatiles.mkMetatileGroup mid new_tiles) :: new), self2, (E1 ++ E2).
  split; [rewrite Hloop; by rewrite <- (assoc_L (++))|].
  split; [by rewrite Herr2, Herr1, (assoc_L (++))|].
  split; [constructor; [by split|done]|].
  rewrite Forall_cons, <- HE1, <- HE2. cbn [snd]. split.
  - by intros [-> ->]%app_eq_nil.
  - by intros [-> ->].
Qed.

Lemma completeness_spec (groups : validate_metatiles.dict Z validate_metatiles.MetatileGroup)
    (all_complete : bool) (self : validate_metatiles.MetatileValidator) :
  exists all_complete' self' new_errors,
    foldl validate_metatiles.completeness_step (all_complete, self) groups
    = (all_complete', self')
    /\ validate_metatiles.errors self' = validate_metatiles.errors self ++ new_errors
    /\ (new_errors = []
        <-> Forall (fun mg => validate_metatiles.is_complete mg.2 = true) groups)
    /\ (all_complete' = true <-> all_complete = true /\ new_errors = []).
Proof.
  revert all_complete self.
  induction groups as [|[mid group] groups IH]; intros all_complete self.
  { exists all_complete, self, []. cbn. rewrite app_nil_r.
    split; [done|]. split; [done|]. split; [split; [by constructor|done]|]. tauto. }
  cbn [foldl]. unfold validate_metatiles.completeness_step at 2. cbn [fst snd].
  destruct (validate_metatiles.is_complete group) eqn:Hc; cbn [negb].
  - destruct (IH all_complete self) as (b & self' & E & Hloop & Herr & HE & Hb).
    exists b, self', E. split; [done|]. split; [done|]. split; [|done].
    rewrite HE, Forall_cons. cbn [snd]. tauto.
  - match goal with
    | |- context [validate_metatiles.add_error self ?msg] =>
        destruct (IH false (validate_metatiles.add_error self msg))
          as (b & self' & E & Hloop & Herr & HE & Hb);
        exists b, self', (msg :: E)
    end.
    split; [done|]. split; [rewrite Herr; cbn; by rewrite <- (assoc_L (++))|].
    split.
    + split; [done|]. intros [Hcc _]%Forall_cons. cbn [snd] in Hcc. congruence.
    + split; [|by intros [_ ?]]. intros [? _]%Hb. done.
Qed.

Lemma is_aligned_complete (group : validate_metatiles.MetatileGroup) :
  validate_metatiles.is_complete group = true ->
  exists tl tr bl br aligned message,
    validate_metatiles.dict_get (validate_metatiles.tiles group) "top_left" = Some tl
    /\ validate_metatiles.dict_get (validate_metatiles.tiles group) "top_right" = Some tr
    /\ validate_metatiles.dict_get (validate_metatiles.tiles group) "bottom_left" = Some bl
    /\ validate_metatiles.dict_get (validate_metatiles.tiles group) "bottom_right" = Some br
    /\ validate_metatiles.is_aligned group = Ok (aligned, message)
    /\ (aligned = true
        <-> validate_metatiles.x tr = validate_metatiles.x tl + 1
            /\ validate_metatiles.y tr = validate_metatiles.y tl
            /\ validate_metatiles.x bl = validate_metatiles.x tl
            /\ validate_metatiles.y bl = validate_metatiles.y tl + 1
            /\ validate_metatiles.x br = validate_metatiles.x tl + 1
            /\ validate_metatiles.y br = validate_metatiles.y tl + 1).
Proof.
  intros Hc. unfold validate_metatiles.is_aligned. rewrite Hc. cbn [negb].
  unfold validate_metatiles.is_complete, validate_metatiles.required in Hc.
  cbn [forallb] in Hc. rewrite !andb_true_iff, !bool_decide_eq_true in Hc.
  destruct Hc as ([tl Htl] & [tr Htr] & [bl Hbl] & [br Hbr] & _).
  exists tl, tr, bl, br. unfold validate_metatiles.dict_getitem.
  rewrite Htl, Htr, Hbl, Hbr. cbn [result_bind].
  destruct (Z.eqb_spec (validate_metatiles.x tr) (validate_metatiles.x tl + 1));
    destruct (Z.eqb_spec (validate_metatiles.y tr) (validate_metatiles.y tl));
    cbn [negb orb];
    try (do 2 eexists; do 5 (split; [done|]);
         split; [intros ?; first [done|lia]|intros ?; first [done|exfalso; lia]]).
  destruct (Z.eqb_spec (validate_metatiles.x bl) (validate_metatiles.x tl));
    destruct (Z.eqb_spec (validate_metatiles.y bl) (validate_metatiles.y tl + 1));
    cbn [negb orb];
    try (do 2 eexists; do 5 (split; [done|]);
         split; [intros ?; first [done|lia]|intros ?; first [done|exfalso; lia]]).
  destruct (Z.eqb_spec (validate_metatiles.x br) (validate_metatiles.x tl + 1));
    destruct (Z.eqb_spec (validate_metatiles.y br) (validate_metatiles.y tl + 1));
    cbn [negb orb]; do 2 eexists; do 5 (split; [done|]);
    (split; [intros ?; first [done|lia]|intros ?; first [done|exfalso; lia]]).
Qed.

Lemma alignment_spec (groups : validate_metatiles.dict Z validate_metatiles.MetatileGroup)
    (all_aligned : bool) (self : validate_metatiles.MetatileValidator) :
  exists all_aligned' self' new_errors,
    validate_metatiles.alignment_loop groups all_aligned self = Ok (all_aligned', self')
    /\ validate_metatiles.errors self' = validate_metatiles.errors self ++ new_errors
    /\ (new_errors = []
        <-> Forall (fun mg =>
                      validate_metatiles.is_complete mg.2 = true ->
                      exists message,
                        validate_metatiles.is_aligned mg.2 = Ok (true, message)) groups)
    /\ (all_aligned' = true <-> all_aligned = true /\ new_errors = []).
Proof.
  revert all_aligned self.
  induction groups as [|[mid group] groups IH]; intros all_aligned self.
  { exists all_aligned, self, []. cbn. rewrite app_nil_r.
    split; [done|]. split; [done|]. split; [split; [by constructor|done]|]. tauto. }
  cbn [validate_metatiles.alignment_loop fst snd].
  destruct (validate_metatiles.is_complete group) eqn:Hc; cbn [negb].
  2:{ destruct (IH all_aligned self) as (b & self' & E & Hloop & Herr & HE & Hb).
      exists b, self', E. split; [done|]. split; [done|]. split; [|done].
      rewrite HE, Forall_cons. cbn [snd]. rewrite Hc. split; [|tauto].
      intros HF. split; [done|exact HF]. }
  destruct (is_aligned_complete group Hc)
    as (tl & tr & bl & br & aligned & message & Htl & _ & _ & _ & Hal & _).
  rewrite Hal. cbn [result_bind fst snd]. destruct aligned; cbn [negb].
  - destruct (IH all_aligned self) as (b & self' & E & Hloop & Herr & HE & Hb).
    exists b, self', E. split; [done|]. split; [done|]. split; [|done].
    rewrite HE, Forall_cons. cbn [snd]. split; [|tauto].
    intros HF. split; [|exact HF]. intros _. by exists message.
  - unfold validate_metatiles.dict_getitem. rewrite Htl. cbn [result_bind].
    match goal with
    | |- context [validate_metatiles.add_error self ?msg] =>
        destruct (IH false (validate_metatiles.add_error self msg))
          as (b & self' & E & Hloop & Herr & HE & Hb);
        exists b, self', (msg :: E)
    end.
    split; [done|]. split; [rewrite Herr; cbn; by rewrite <- (assoc_L (++))|].
    split.
    + split; [done|]. intros [Hcc _]%Forall_cons. cbn [snd] in Hcc.
      destruct (Hcc Hc) as [msg' Hmsg]. congruence.
    + split; [|by intros [_ ?]]. intros [? _]%Hb. done.
Qed.

Lemma heads_lookup (positions : validate_metatiles.dict string (list validate_metatiles.TileInfo))
    (new : validate_metatiles.dict string validate_metatiles.TileInfo) (pos : string) :
  Forall2 (fun (kv : string * list validate_metatiles.TileInfo)
               (pt : string * validate_metatiles.TileInfo) =>
             pt.1 = kv.1 /\ head kv.2 = Some pt.2) positions new ->
  validate_metatiles.dict_get new pos
  = validate_metatiles.dict_get positions pos ≫= head.
Proof.
  induction 1 as [|kv pt positions new [Hk Hh] _ IH]; [done|].
  cbn [validate_metatiles.dict_get]. rewrite Hk.
  destruct (decide (kv.1 = pos)); [by rewrite <- Hh|done].
Qed.

Lemma tile_at_elem (tiles : list validate_metatiles.TileInfo) (m : Z) (pos : string)
    (t : validate_metatiles.TileInfo) :
  t ∈ at_pos tiles m pos ->
  t ∈ tiles /\ validate_metatiles.metatile_id t = Some m
  /\ exists c s, validate_metatiles.metatile_pos t = Some (String c s)
                 /\ normalize (String c s) = pos.
Proof.
  unfold spec.tiles_at. intros [Hat Hin]%list_elem_of_filter. split; [done|].
  unfold spec.tile_at in Hat.
  destruct (validate_metatiles.metatile_id t) as [m'|]; [|done].
  destruct (validate_metatiles.metatile_pos t) as [[|c s]|]; try done.
  apply bool_decide_unpack in Hat as [-> Hpos]. split; [done|]. by exists c, s.
Qed.

Lemma tile_at_intro (tiles : list validate_metatiles.TileInfo) (m : Z) (c : ascii) (s : string)
    (t : validate_metatiles.TileInfo) :
  t ∈ tiles -> validate_metatiles.metatile_id t = Some m ->
  validate_metatiles.metatile_pos t = Some (String c s) ->
  t ∈ at_pos tiles m (normalize (String c s)).
Proof.
  intros Hin Hid Hpos. unfold spec.tiles_at. apply list_elem_of_filter. split; [|done].
  unfold spec.tile_at. rewrite Hid, Hpos. by apply bool_decide_pack.
Qed.

(** What the grouping and the three checks establish together, for a
    non-empty list of tiles. *)
Lemma validate_map_spec (tiles : list validate_metatiles.TileInfo)
    (load_errors : list string) :
  tiles <> [] ->
  exists ok self,
    validate_metatiles.validate_map str_lower str_strip tiles load_errors = Ok (ok, self)
    /\ (exists new_errors, validate_metatiles.errors self = load_errors ++ new_errors)
    /\ (ok = true <-> validate_metatiles.errors self = [])
    /\ (ok = true <-> load_errors = [] /\ spec.well_grouped normalize tiles).
Proof.
  intros Hne.
  destruct (group_loop tiles [] [] (validate_metatiles.mkMetatileValidator load_errors []))
    as (M & self1 & E1 & Hloop1 & Herr1 & Hinv & HE1).
  { split; [apply NoDup_nil_2|]. intros m. cbn. done. }
  rewrite app_nil_l in Hinv.
  destruct Hinv as [HndM Hinv]. cbn [validate_metatiles.errors] in Herr1.
  assert (forall m P, (m, P) ∈ M ->
            NoDup P.*1 /\ P <> []
            /\ forall pos l, (pos, l) ∈ P ->
                 pos ∈ validate_metatiles.required /\ l = at_pos tiles m pos /\ l <> [])
    as HM.
  { intros m P HmP. apply (dict_get_elem M m P HndM) in HmP.
    specialize (Hinv m). rewrite HmP in Hinv. destruct Hinv as (HndP & HneP & Hpos).
    split; [done|]. split; [done|]. intros pos l Hl.
    apply (dict_get_elem P pos l HndP) in Hl. specialize (Hpos pos). by rewrite Hl in Hpos. }
  assert (forall m P pos, (m, P) ∈ M -> pos ∈ validate_metatiles.required ->
            validate_metatiles.dict_get P pos ≫= head = head (at_pos tiles m pos)) as Hheads.
  { intros m P pos HmP Hreq. apply (dict_get_elem M m P HndM) in HmP.
    specialize (Hinv m). rewrite HmP in Hinv. destruct Hinv as (_ & _ & Hpos).
    specialize (Hpos pos).
    destruct (validate_metatiles.dict_get P pos) as [l|]; cbn.
    - by destruct Hpos as (_ & -> & _).
    - by rewrite Hpos. }
  assert (forall m P, (m, P) ∈ M ->
            exists t, t ∈ tiles /\ validate_metatiles.metatile_id t = Some m) as Hwit.
  { intros m P HmP. destruct (HM m P HmP) as (_ & HneP & Hpos).
    destruct P as [|[pos l] P]; [done|].
    destruct (Hpos pos l ltac:(left)) as (_ & Hl & Hnil).
    destruct l as [|t l]; [done|].
    assert (t ∈ at_pos tiles m pos) as Hin by (rewrite <- Hl; left).
    apply tile_at_elem in Hin as (? & ? & _). by exists t. }
  destruct (build_groups_spec M [] self1) as (G & self2 & E2 & Hbuild & Herr2 & HF & HE2).
  { apply Forall_forall. intros [m P] HmP. cbn [snd].
    destruct (HM m P HmP) as (HndP & _ & Hpos). split; [done|].
    apply Forall_forall. intros [pos l] Hl. cbn [snd]. by apply (Hpos pos l). }
  { by rewrite app_nil_l. }
  cbn [app] in Hbuild.
  destruct (completeness_spec G true self2) as (b3 & self3 & E3 & Hcompl & Herr3 & HE3 & Hb3).
  destruct (alignment_spec G true self3) as (b4 & self4 & E4 & Halign & Herr4 & HE4 & Hb4).
  exists (b3 && b4 && (length (validate_metatiles.errors self4) =? 0)%nat), self4.
  split.
  { unfold validate_metatiles.validate_map.
    destruct tiles as [|t0 ts]; [done|]. cbv beta iota zeta.
    unfold validate_metatiles.group_tiles_by_metatile. cbv zeta.
    match goal with
    | |- context [foldl ?f ?a ?l] =>
        replace (foldl f a l) with (M, self1) by (symmetry; exact Hloop1)
    end.
    cbn [fst snd]. rewrite Hbuild. cbn [result_bind fst snd].
    unfold validate_metatiles.validate_metatile_completeness,
      validate_metatiles.validate_metatile_alignment.
    rewrite Hcompl. cbn [fst snd]. rewrite Halign. done. }
  assert (validate_metatiles.errors self4 = load_errors ++ E1 ++ E2 ++ E3 ++ E4) as Herrs
    by (by rewrite Herr4, Herr3, Herr2, Herr1, <- !(assoc_L (++))).
  split; [by eexists|].
  assert (b3 && b4 && (length (validate_metatiles.errors self4) =? 0)%nat = true
          <-> validate_metatiles.errors self4 = []) as Hok.
  { rewrite !andb_true_iff, Nat.eqb_eq, Hb3, Hb4, Herrs. split.
    - intros [_ Hlen]. by apply nil_length_inv.
    - intros Hnil. rewrite Hnil.
      apply app_eq_nil in Hnil as [_ Hnil]. apply app_eq_nil in Hnil as [_ Hnil].
      apply app_eq_nil in Hnil as [_ Hnil]. apply app_eq_nil in Hnil as [-> ->]. done. }
  split; [exact Hok|]. rewrite Hok, Herrs.
  (* the groups, through the pairing with the nested dictionary *)
  assert (forall m g pos, (m, g) ∈ G -> pos ∈ validate_metatiles.required ->
            validate_metatiles.dict_get (validate_metatiles.tiles g) pos
            = head (at_pos tiles m pos)) as HG.
  { intros m g pos Hmg Hreq. apply list_elem_of_lookup in Hmg as [i Hi].
    destruct (Forall2_lookup_r _ _ _ _ _ HF Hi) as ([m' P] & HiM & Hm & HFP).
    cbn [fst snd] in Hm, HFP. subst m'.
    rewrite (heads_lookup _ _ pos HFP). apply Hheads; [|done].
    by eapply list_elem_of_lookup_2. }
  assert (forall m g, (m, g) ∈ G ->
            exists t, t ∈ tiles /\ validate_metatiles.metatile_id t = Some m) as HGwit.
  { intros m g Hmg. apply list_elem_of_lookup in Hmg as [i Hi].
    destruct (Forall2_lookup_r _ _ _ _ _ HF Hi) as ([m' P] & HiM & Hm & _).
    cbn [fst] in Hm. subst m'. apply (Hwit m P). by eapply list_elem_of_lookup_2. }
  assert (forall m, (exists t, t ∈ tiles /\ validate_metatiles.metatile_id t = Some m
                               /\ ~ tile_rejected t) ->
            exists g, (m, g) ∈ G) as HGex.
  { intros m (t & Hin & Hid & Hok').
    destruct (validate_metatiles.metatile_pos t) as [[|c s]|] eqn:Hpos.
    1,3: destruct Hok'; exists m; split; [done|]; intros (c' & s' & ? & _); congruence.
    destruct (decide (normalize (String c s) ∈ validate_metatiles.required))
      as [Hreq|Hnot].
    2:{ destruct Hok'. exists m. split; [done|]. intros (c' & s' & Heq & Hin').
        rewrite Hpos in Heq. injection Heq as <- <-. done. }
    pose proof (tile_at_intro tiles m c s t Hin Hid Hpos) as Hat.
    specialize (Hinv m).
    destruct (validate_metatiles.dict_get M m) as [P|] eqn:HP.
    2:{ rewrite (Hinv _ Hreq) in Hat. by apply elem_of_nil in Hat. }
    apply (dict_get_elem M m P HndM) in HP. apply list_elem_of_lookup in HP as [i Hi].
    destruct (Forall2_lookup_l _ _ _ _ _ HF Hi) as ([m' g] & HiG & Hm & _).
    cbn [fst] in Hm. subst m'. exists g. by eapply list_elem_of_lookup_2. }
  split.
  - intros Hnil.
    apply app_eq_nil in Hnil as [-> Hnil]. apply app_eq_nil in Hnil as [HE1nil Hnil].
    apply app_eq_nil in Hnil as [HE2nil Hnil]. apply app_eq_nil in Hnil as [HE3nil HE4nil].
    split; [done|].
    pose proof (proj1 HE1 HE1nil) as Hvalid. rewrite Forall_forall in Hvalid.
    pose proof (proj1 HE2 HE2nil) as Hsingle. rewrite Forall_forall in Hsingle.
    pose proof (proj1 HE3 HE3nil) as Hcomplete. rewrite Forall_forall in Hcomplete.
    pose proof (proj1 HE4 HE4nil) as Haligned. rewrite Forall_forall in Haligned.
    intros t m Hin Hid. split.
    { destruct (validate_metatiles.metatile_pos t) as [[|c s]|] eqn:Hpos.
      1,3: destruct (Hvalid t Hin); exists m; split; [done|];
           intros (c' & s' & ? & _); congruence.
      destruct (decide (normalize (String c s) ∈ validate_metatiles.required))
        as [Hreq|Hnot]; [by exists c, s|].
      destruct (Hvalid t Hin). exists m. split; [done|]. intros (c' & s' & Heq & Hin').
      rewrite Hpos in Heq. injection Heq as <- <-. done. }
    destruct (HGex m) as [g Hmg]; [exists t; split; [done|]; split; [done|]; by apply Hvalid|].
    pose proof (Hcomplete (m, g) Hmg) as Hc. cbn [snd] in Hc.
    destruct (is_aligned_complete g Hc)
      as (tl & tr & bl & br & aligned & message & Htl & Htr & Hbl & Hbr & Hal & Hcoords).
    destruct (Haligned (m, g) Hmg Hc) as [message' Hal']. cbn [snd] in Hal'.
    rewrite Hal in Hal'. injection Hal' as -> _.
    assert (forall pos v, pos ∈ validate_metatiles.required ->
              validate_metatiles.dict_get (validate_metatiles.tiles g) pos = Some v ->
              at_pos tiles m pos = [v]) as Hone.
    { intros pos v Hreq Hv. rewrite (HG m g pos Hmg Hreq) in Hv.
      apply list_elem_of_lookup in Hmg as [i Hi].
      destruct (Forall2_lookup_r _ _ _ _ _ HF Hi) as ([m' P] & HiM & Hm & _).
      cbn [fst] in Hm. subst m'. apply list_elem_of_lookup_2 in HiM.
      pose proof (Hsingle (m, P) HiM) as HlenP. cbn [snd] in HlenP.
      rewrite Forall_forall in HlenP.
      apply (dict_get_elem M m P HndM) in HiM. specialize (Hinv m). rewrite HiM in Hinv.
      destruct Hinv as (HndP & _ & Hpos). specialize (Hpos pos).
      destruct (validate_metatiles.dict_get P pos) as [l|] eqn:Hl.
      - destruct Hpos as (_ & Heq & _). apply (dict_get_elem P pos l HndP) in Hl.
        specialize (HlenP (pos, l) Hl). cbn [snd] in HlenP. rewrite <- Heq in Hv |- *.
        destruct l as [|v' [|? ?]]; cbn in Hv, HlenP; [done| |lia]. by injection Hv as ->.
      - rewrite (Hpos Hreq) in Hv. done. }
    exists tl, tr, bl, br.
    split; [apply Hone; [|done]; unfold validate_metatiles.required; set_solver|].
    split; [apply Hone; [|done]; unfold validate_metatiles.required; set_solver|].
    split; [apply Hone; [|done]; unfold validate_metatiles.required; set_solver|].
    split; [apply Hone; [|done]; unfold validate_metatiles.required; set_solver|].
    by apply Hcoords.
  - intros [-> Hwg]. cbn [app].
    assert (forall m pos, (exists t, t ∈ tiles /\ validate_metatiles.metatile_id t = Some m) ->
              pos ∈ validate_metatiles.required ->
              exists v, at_pos tiles m pos = [v]) as Hfour.
    { intros m pos (t & Hin & Hid) Hreq.
      destruct (Hwg t m Hin Hid) as (_ & tl & tr & bl & br & Htl & Htr & Hbl & Hbr & _).
      unfold validate_metatiles.required in Hreq.
      apply elem_of_cons in Hreq as [->|Hreq]; [by exists tl|].
      apply elem_of_cons in Hreq as [->|Hreq]; [by exists tr|].
      apply elem_of_cons in Hreq as [->|Hreq]; [by exists bl|].
      apply elem_of_cons in Hreq as [->|Hreq]; [by exists br|].
      by apply elem_of_nil in Hreq. }
    assert (E1 = []) as ->.
    { apply HE1, Forall_forall. intros t Hin (m & Hid & Hno).
      destruct (Hwg t m Hin Hid) as (Hvalid & _). done. }
    assert (E2 = []) as ->.
    { apply HE2, Forall_forall. intros [m P] HmP. cbn [snd].
      apply Forall_forall. intros [pos l] Hl. cbn [snd].
      destruct (HM m P HmP) as (_ & _ & Hpos).
      destruct (Hpos pos l Hl) as (Hreq & -> & _).
      destruct (Hfour m pos (Hwit m P HmP) Hreq) as [v ->]. done. }
    assert (Forall (fun mg : Z * validate_metatiles.MetatileGroup =>
                      validate_metatiles.is_complete mg.2 = true) G) as Hcomplete.
    { apply Forall_forall. intros [m g] Hmg. cbn [snd].
      unfold validate_metatiles.is_complete. apply forallb_forall.
      intros pos Hpos%list_elem_of_In. apply bool_decide_eq_true.
      rewrite (HG m g pos Hmg Hpos).
      destruct (Hfour m pos (HGwit m g Hmg) Hpos) as [v ->]. by eexists. }
    assert (E3 = []) as -> by (by apply HE3).
    assert (E4 = []) as ->; [|done].
    apply HE4, Forall_forall. intros [m g] Hmg Hc. cbn [snd] in *.
    destruct (is_aligned_complete g Hc)
      as (tl & tr & bl & br & aligned & message & Htl & Htr & Hbl & Hbr & Hal & Hcoords).
    exists message. rewrite Hal. do 2 f_equal. apply Hcoords.
    destruct (HGwit m g Hmg) as (t & Hin & Hid).
    destruct (Hwg t m Hin Hid)
      as (_ & tl' & tr' & bl' & br' & Htl' & Htr' & Hbl' & Hbr' & Hxy).
    assert (forall pos v v', pos ∈ validate_metatiles.required ->
              validate_metatiles.dict_get (validate_metatiles.tiles g) pos = Some v ->
              at_pos tiles m pos = [v'] -> v = v') as Hsame.
    { intros pos v v' Hreq Hv Hv'. rewrite (HG m g pos Hmg Hreq), Hv' in Hv.
      cbn in Hv. congruence. }
    rewrite (Hsame "top_left" _ _ ltac:(unfold validate_metatiles.required; set_solver)
               Htl Htl').
    rewrite (Hsame "top_right" _ _ ltac:(unfold validate_metatiles.required; set_solver)
               Htr Htr').
    rewrite (Hsame "bottom_left" _ _ ltac:(unfold validate_metatiles.required; set_solver)
               Hbl Hbl').
    rewrite (Hsame "bottom_right" _ _ ltac:(unfold validate_metatiles.required; set_solver)
               Hbr Hbr').
    exact Hxy.
Qed.



(** The missing positions of a group are the required positions it has no
    tile for, in alphabetical order; there are none exactly when the group
    is complete, and only a complete group can be aligned. *)
Theorem missing_positions_complete (group : validate_metatiles.MetatileGroup) :
  (forall pos,
     pos ∈ validate_metatiles.get_missing_positions group
     <-> pos ∈ validate_metatiles.required
         /\ validate_metatiles.dict_get (validate_metatiles.tiles group) pos = None)
  /\ (validate_metatiles.get_missing_positions group = []
      <-> validate_metatiles.is_complete group = true)
  /\ validate_metatiles.get_missing_positions group
     `sublist_of` ["bottom_left"; "bottom_right"; "top_left"; "top_right"]
  /\ exists aligned message,
       validate_metatiles.is_aligned group = Ok (aligned, message)
       /\ (aligned = true -> validate_metatiles.is_complete group = true).
Proof.
  assert (forall pos,
            pos ∈ validate_metatiles.get_missing_positions group
            <-> pos ∈ validate_metatiles.required
                /\ validate_metatiles.dict_get (validate_metatiles.tiles group) pos = None)
    as Hmem.
  { intros pos. unfold validate_metatiles.get_missing_positions.
    rewrite list_elem_of_filter. unfold validate_metatiles.required. set_solver. }
  split; [exact Hmem|]. split; [|split].
  - unfold validate_metatiles.is_complete. rewrite forallb_forall. split.
    + intros Hnil pos Hpos%list_elem_of_In. apply bool_decide_eq_true.
      destruct (validate_metatiles.dict_get (validate_metatiles.tiles group) pos)
        as [v|] eqn:Hv; [by eexists|].
      assert (pos ∈ validate_metatiles.get_missing_positions group) as Hin
        by (by apply Hmem).
      rewrite Hnil in Hin. by apply elem_of_nil in Hin.
    + intros Hall.
      destruct (validate_metatiles.get_missing_positions group) as [|pos l] eqn:Hl;
        [done|].
      assert (pos ∈ pos :: l) as Hin by left.
      apply Hmem in Hin as [Hreq Hnone].
      specialize (Hall pos (proj1 (list_elem_of_In _ _) Hreq)).
      apply bool_decide_eq_true in Hall. rewrite Hnone in Hall. by destruct Hall.
  - apply sublist_filter.
  - destruct (validate_metatiles.is_complete group) eqn:Hc.
    + destruct (is_aligned_complete group Hc)
        as (tl & tr & bl & br & aligned & message & _ & _ & _ & _ & Hal & _).
      by exists aligned, message.
    + exists false, (Some "Incomplete metatile"%string).
      unfold validate_metatiles.is_aligned. rewrite Hc. done.
Qed.

End validator_checks.


(** ** Palette files *)

Section palette_files.

Variable str_strip : string -> string.
Variable str_split : string -> list string.
Variable py_int : string -> option Z.

(** The three scripts carry their own copy of [load_jasc_palette]; the
    copies agree on every file, in the palette they return and in the
    exception they raise.  The version line that one copy reads and the
    others skip makes no difference. *)
Theorem load_jasc_palette_copies_agree (file_lines : list string) :
  apply_palettes.load_jasc_palette str_strip str_split py_int file_lines
  = render_tileset_with_palettes.load_jasc_palette str_strip str_split py_int file_lines
  /\ replace_png_palette.load_jasc_palette str_strip str_split py_int file_lines
     = render_tileset_with_palettes.load_jasc_palette str_strip str_split py_int file_lines.
Proof.
  split; [|reflexivity].
  unfold apply_palettes.load_jasc_palette,
    render_tileset_with_palettes.load_jasc_palette.
  cbv zeta. destruct (filter _ _) as [|line0 [|line1 lines]]; reflexivity.
Qed.

Lemma read_colors_spec (lines : list string) (n s : nat)
    (palette : list (Z * Z * Z)) :
  match render_tileset_with_palettes.read_colors str_split py_int lines (seq s n) palette
  with
  | Ok palette' =>
      exists colors,
        palette' = palette ++ colors
        /\ Forall2 (fun line rgb =>
                     render_tileset_with_palettes.parse_rgb str_split py_int line = Ok rgb)
             (take n (drop (3 + s) lines)) colors
  | Raise e =>
      e = ValueError
      /\ Exists (fun line =>
                   render_tileset_with_palettes.parse_rgb str_split py_int line
                   = Raise ValueError) (take n (drop (3 + s) lines))
  end.
Proof.
  assert (forall line, exists r,
            render_tileset_with_palettes.parse_rgb str_split py_int line = r
            /\ (forall e, r = Raise e -> e = ValueError)) as Hparse.
  { intros line. eexists. split; [reflexivity|].
    unfold render_tileset_with_palettes.parse_rgb. intros e.
    destruct (str_split line) as [|f1 [|f2 [|f3 [|? ?]]]]; try (by intros [= <-]).
    destruct (py_int f1), (py_int f2), (py_int f3); by intros [= <-] || done. }
  revert s palette. induction n as [|n IH]; intros s palette.
  { cbn. exists []. rewrite app_nil_r. split; [done|]. rewrite take_0. constructor. }
  cbn [seq render_tileset_with_palettes.read_colors].
  destruct (Nat.ltb_spec (3 + s) (length lines)) as [Hlt|Hge].
  - destruct (lookup_lt_is_Some_2 lines (3 + s)%nat Hlt) as [line Hline].
    unfold getitem. rewrite Hline. cbn [result_bind].
    assert (drop (3 + s) lines = line :: drop (3 + S s) lines) as Hdrop.
    { rewrite <- (take_drop_middle lines (3 + s) line Hline) at 1.
      rewrite drop_app_length' by (rewrite length_take; lia).
      do 2 f_equal. }
    rewrite Hdrop. cbn [take].
    destruct (Hparse line) as (r & Hr & HrE).
    destruct (render_tileset_with_palettes.parse_rgb str_split py_int line)
      as [rgb|e] eqn:Hrgb; cbn [result_bind].
    + specialize (IH (S s) (palette ++ [rgb])).
      destruct (render_tileset_with_palettes.read_colors _ _ _ _ _) as [palette'|e].
      * destruct IH as (colors & -> & HF). exists (rgb :: colors).
        split; [by rewrite <- (assoc_L (++))|]. by constructor.
      * destruct IH as [-> HE]. split; [done|]. by apply Exists_cons_tl.
    + subst r. rewrite (HrE e eq_refl) in *. split; [done|]. by apply Exists_cons_hd.
  - rewrite drop_ge by lia. rewrite take_nil.
    specialize (IH (S s) palette). rewrite drop_ge, take_nil in IH by lia. exact IH.
Qed.

(** What a palette file yields once its header is accepted.  The lines
    are stripped and blank lines dropped; the first must be JASC-PAL, the
    second (the version) is never looked at, the third is the declared
    count [n].  The palette then has one colour for each of the first [n]
    lines that follow, or for all of them when fewer than [n] follow (no
    error is raised for the missing ones, and a negative count gives the
    empty palette); each such line must consist of three integers, else the
    load fails with [ValueError]; lines beyond the first [n] are never
    parsed. *)
Theorem load_jasc_palette_colors (file_lines : list string) (version count : string)
    (rest : list string) (n : Z) :
  filter (fun line => line <> ""%string) (str_strip <$> file_lines)
  = "JASC-PAL"%string :: version :: count :: rest ->
  py_int count = Some n ->
  match render_tileset_with_palettes.load_jasc_palette str_strip str_split py_int
          file_lines with
  | Ok palette =>
      length palette = Nat.min (Z.to_nat n) (length rest)
      /\ Forall2 (fun line rgb =>
                   render_tileset_with_palettes.parse_rgb str_split py_int line = Ok rgb)
           (take (Z.to_nat n) rest) palette
  | Raise e =>
      e = ValueError
      /\ Exists (fun line =>
                   render_tileset_with_palettes.parse_rgb str_split py_int line
                   = Raise ValueError) (take (Z.to_nat n) rest)
  end.
Proof.
  intros Hlines Hcount. unfold render_tileset_with_palettes.load_jasc_palette.
  cbv zeta. rewrite Hlines. unfold getitem. cbn [lookup list_lookup result_bind].
  destruct (decide ("JASC-PAL"%string <> "JASC-PAL"%string)) as [|_]; [done|].
  rewrite Hcount. cbn [from_option result_bind].
  pose proof (read_colors_spec ("JASC-PAL"%string :: version :: count :: rest)
                (Z.to_nat n) 0 []) as Hloop.
  cbn [Nat.add drop] in Hloop.
  destruct (render_tileset_with_palettes.read_colors _ _ _ _ _) as [palette|e];
    [|exact Hloop].
  destruct Hloop as (colors & -> & HF). cbn [app]. split; [|done].
  apply Forall2_length in HF. rewrite <- HF, length_take. done.
Qed.

(** The palette store built from a directory.  When loading succeeds, the
    store has a palette under [k] exactly when the stem of some file reads
    as the integer [k], and of several files whose stems read as the same
    integer (such as 0.pal and 00.pal) the last in sorted order is the one
    kept. *)
Theorem load_all_palettes_keys (pal_files : list (string * list string))
    (palettes : gmap Z render_tileset_with_palettes.palette) :
  render_tileset_with_palettes.load_all_palettes str_strip str_split py_int pal_files
  = Ok palettes ->
  (forall k, is_Some (palettes !! k)
             <-> exists pal_file, pal_file ∈ pal_files /\ py_int pal_file.1 = Some k)
  /\ (forall i pal_file k,
        pal_files !! i = Some pal_file -> py_int pal_file.1 = Some k ->
        (forall j later, (i < j)%nat -> pal_files !! j = Some later ->
                         py_int later.1 <> Some k) ->
        exists palette,
          render_tileset_with_palettes.load_jasc_palette str_strip str_split py_int
            pal_file.2 = Ok palette
          /\ palettes !! k = Some palette)
  /\ Forall (fun pal_file =>
               is_Some (py_int pal_file.1)
               /\ exists palette,
                    render_tileset_with_palettes.load_jasc_palette str_strip str_split
                      py_int pal_file.2 = Ok palette) pal_files.
Proof.
  unfold render_tileset_with_palettes.load_all_palettes.
  revert palettes. induction pal_files as [|pal_file pal_files IH] using rev_ind;
    intros palettes.
  { cbn. intros [= <-]. split; [|split].
    - intros k. rewrite lookup_empty. split; [by intros []|].
      by intros (? & ?%elem_of_nil & _).
    - by intros i pal_file k ?.
    - constructor. }
  rewrite foldl_app. cbn [foldl].
  destruct (foldl _ (Ok ∅) pal_files) as [palettes0|e]; [|done]. cbn [result_bind].
  destruct (py_int pal_file.1) as [pal_num|] eqn:Hnum; [|done].
  cbn [from_option result_bind].
  destruct (render_tileset_with_palettes.load_jasc_palette _ _ _ pal_file.2)
    as [loaded|e] eqn:Hloaded; [|done].
  cbn [result_bind]. intros [= <-].
  destruct (IH palettes0 eq_refl) as (Hkeys & Hlast & Hall).
  split; [|split].
  - intros k. destruct (decide (k = pal_num)) as [->|Hk].
    + rewrite lookup_insert_eq. split; [|by eexists].
      intros _. exists pal_file. split; [|done]. apply elem_of_app. right. left.
    + rewrite lookup_insert_ne by done. rewrite Hkeys. split.
      * intros (f & Hf & Hfk). exists f. split; [|done]. apply elem_of_app. by left.
      * intros (f & Hf & Hfk). apply elem_of_app in Hf as [Hf|Hf]; [by exists f|].
        apply list_elem_of_singleton in Hf as ->. congruence.
  - intros i f k Hi Hfk Hlater.
    destruct (decide (i < length pal_files)%nat) as [Hlt|Hge].
    + rewrite lookup_app_l in Hi by done.
      assert (k <> pal_num) as Hk.
      { intros ->. apply (Hlater (length pal_files) pal_file Hlt); [|done].
        by rewrite lookup_app_r, Nat.sub_diag by lia. }
      rewrite lookup_insert_ne by done. apply (Hlast i f k Hi Hfk).
      intros j later Hj Hjl. apply (Hlater j later Hj).
      rewrite lookup_app_l; [done|]. by apply lookup_lt_Some in Hjl.
    + rewrite lookup_app_r in Hi by lia.
      destruct (i - length pal_files)%nat; [|by destruct n].
      cbn in Hi. injection Hi as <-. rewrite Hnum in Hfk. injection Hfk as <-.
      exists loaded. by rewrite lookup_insert_eq.
  - apply Forall_app. split; [done|]. constructor; [|constructor].
    split; [by eexists|by eexists].
Qed.

End palette_files.

Lemma load_jasc_palette_colors_witness :
  match render_tileset_with_palettes.load_jasc_palette (fun s => s)
          (fun line => samples.split_spaces line "") samples.decimal
          samples.two_colors_pal with
  | Ok palette =>
      length palette = Nat.min (Z.to_nat 2) (length ["8 16 24"; "255 0 0"; "not a colour"]%string)
      /\ Forall2 (fun line rgb =>
                   render_tileset_with_palettes.parse_rgb
                     (fun line => samples.split_spaces line "") samples.decimal line
                   = Ok rgb)
           (take (Z.to_nat 2) ["8 16 24"; "255 0 0"; "not a colour"]%string) palette
  | Raise e =>
      e = ValueError
      /\ Exists (fun line =>
                   render_tileset_with_palettes.parse_rgb
                     (fun line => samples.split_spaces line "") samples.decimal line
                   = Raise ValueError)
           (take (Z.to_nat 2) ["8 16 24"; "255 0 0"; "not a colour"]%string)
  end.
Proof.
  apply (load_jasc_palette_colors (fun s => s) (fun line => samples.split_spaces line "")
           samples.decimal samples.two_colors_pal "0100" "2"); reflexivity.
Defined.

Lemma load_all_palettes_keys_witness :
  exists palettes,
    render_tileset_with_palettes.load_all_palettes (fun s => s)
      (fun line => samples.split_spaces line "") samples.decimal
      [("0", samples.two_colors_pal); ("00", samples.short_pal)]%string = Ok palettes
    /\ palettes !! 0 = Some [(1, 2, 3)]
    /\ (forall k, is_Some (palettes !! k)
                  <-> exists pal_file,
                        pal_file ∈ [("0", samples.two_colors_pal);
                                     ("00", samples.short_pal)]%string
                        /\ samples.decimal pal_file.1 = Some k).
Proof.
  eexists. split; [vm_compute; reflexivity|]. split; [reflexivity|].
  apply (load_all_palettes_keys (fun s => s) (fun line => samples.split_spaces line "")
           samples.decimal [("0", samples.two_colors_pal); ("00", samples.short_pal)]%string).
  vm_compute. reflexivity.
Defined.
